(** * Blackboard coordination of the UI/UX, frontend and backend agents

    A shallow embedding of the multi-agent pipeline (the variant with a
    blackboard, per-agent iteration budgets and an idle-cycle stop) and
    of the helper [summarizeContent], followed by the properties of the
    coordination engine.

    Conventions of the embedding
    - A JavaScript string is the list of its UTF-16 code units
      ([jsstring]); [js] turns an ASCII literal into such a list.
    - JavaScript numbers used as counters and ids are modelled by [nat]
      (they only ever grow by one from a small start value); the
      [maxLength] argument of [summarizeContent] is a [Z], because
      [slice] gives a meaning to a negative end index.
    - The text-generation service and the system clock are the two
      external collaborators.  They are section variables: [textStream]
      gives the fragments delivered for a call and [Date_now] the time
      read by a [createMessage] call.  Both are indexed by the value of
      the id counter at the time of the call, which is different for
      every call of one process, so that any behaviour of a collaborator
      that answers (in finitely many fragments) is covered.
    - A call of the generation service that fails is not modelled: the
      program has no handler for it, and a run in which it happens ends
      there.
    - [process.stdout.write] appends its argument to the [stdout] field
      of the process state.  The pause between two poll cycles changes
      no variable of the program and is left out.
    - The record [Turn] and the field [cycles] of [LoopOutcome] are a
      log of what the loops did (whose turn, which trigger, which state
      it left); they do not feed back into the run.

    The repository also holds the interactive variant of the pipeline
    ([src/index.ts]), in which every agent acts at most once in a run
    and there is neither blackboard nor budget.  It is embedded after
    the coordinator, with the prefix [index_] where a name is taken.
    Its loop [while (progressed)] takes fuel, and the properties give
    the fuel that suffices; [toISOString] is a third section variable;
    the answers of the user to [terminal.question] are a list. *)

From Stdlib Require Import Ascii String DecimalString.
From Stdlib Require Import List Arith ZArith NArith Lia Bool.
Import ListNotations.

Set Implicit Arguments.

(** ** JavaScript strings *)

Module JsString.

Definition jsstring : Type := list N.

(** An ASCII literal as a list of code units. *)
Definition js (s : string) : jsstring :=
  map N_of_ascii (list_ascii_of_string s).
#[global] Arguments js s%_string.

(** [`${n}`] for a non-negative integer. *)
Definition ofNat (n : nat) : jsstring :=
  js (NilZero.string_of_uint (Nat.to_uint n)).

(** WhiteSpace and LineTerminator code units, the ones [trim] strips. *)
Definition isWhiteSpace (c : N) : bool :=
  (  (c =? 9) || (c =? 10) || (c =? 11) || (c =? 12) || (c =? 13)
  || (c =? 32) || (c =? 160) || (c =? 5760)
  || ((8192 <=? c) && (c <=? 8202))
  || (c =? 8232) || (c =? 8233) || (c =? 8239) || (c =? 8287)
  || (c =? 12288) || (c =? 65279))%N.

Fixpoint trimStart (s : jsstring) : jsstring :=
  match s with
  | [] => []
  | c :: r => if isWhiteSpace c then trimStart r else s
  end.

Definition trimEnd (s : jsstring) : jsstring := rev (trimStart (rev s)).

(** [s.trim()] *)
Definition trim (s : jsstring) : jsstring := trimEnd (trimStart s).

(** [s.split('\n')]: never empty, [['']] for the empty string. *)
Fixpoint split_nl (s : jsstring) : list jsstring :=
  match s with
  | [] => [[]]
  | c :: r =>
      if (c =? 10)%N then [] :: split_nl r
      else match split_nl r with
           | l :: ls => (c :: l) :: ls
           | [] => [[c]]
           end
  end.

(** [s.slice(0, e)] for an integer [e]: a negative [e] counts from the
    end of the string, and both ends are clamped to the string. *)
Definition slice0 (s : jsstring) (e : Z) : jsstring :=
  let len := Z.of_nat (length s) in
  let final := if (e <? 0)%Z then Z.max (len + e) 0 else Z.min e len in
  firstn (Z.to_nat final) s.

(** [parts.join(sep)] *)
Fixpoint join (sep : jsstring) (parts : list jsstring) : jsstring :=
  match parts with
  | [] => []
  | [p] => p
  | p :: ps => p ++ sep ++ join sep ps
  end.

(** [a === b] on strings. *)
Definition eqb (a b : jsstring) : bool :=
  if list_eq_dec N.eq_dec a b then true else false.

End JsString.
Import JsString.

(** ** [summarizeContent] *)

Definition DEFAULT_MAX_LENGTH : Z := 200.

(** [function summarizeContent(content, maxLength = 200)]; [None] is a
    call that leaves the second argument out. *)
Definition summarizeContent (content : jsstring) (maxLength : option Z)
  : jsstring :=
  let maxLength :=
    match maxLength with Some n => n | None => DEFAULT_MAX_LENGTH end in
  let firstLine :=
    match find (fun line => 0 <? length (trim line)) (split_nl content) with
    | Some line => line
    | None => []
    end in
  let trimmed := trim firstLine in
  if (Z.of_nat (length trimmed) <=? maxLength)%Z then trimmed
  else slice0 trimmed (maxLength - 3) ++ js "...".

(** ** Data model *)

Inductive AgentName : Type := uiux | frontend | backend.

(** [BoardMessage['author']]: ['user' | AgentName]. *)
Inductive Author : Type := user | agent (a : AgentName).

Inductive MessageKind : Type :=
  feature_request | uiux_spec | frontend_plan | backend_plan.

Definition AgentName_eqb (a b : AgentName) : bool :=
  match a, b with
  | uiux, uiux | frontend, frontend | backend, backend => true
  | _, _ => false
  end.

Definition Author_eqb (a b : Author) : bool :=
  match a, b with
  | user, user => true
  | agent x, agent y => AgentName_eqb x y
  | _, _ => false
  end.

Definition MessageKind_eqb (a b : MessageKind) : bool :=
  match a, b with
  | feature_request, feature_request | uiux_spec, uiux_spec
  | frontend_plan, frontend_plan | backend_plan, backend_plan => true
  | _, _ => false
  end.

(** The string values of the two enumerations. *)
Definition AgentName_str (a : AgentName) : jsstring :=
  match a with
  | uiux => js "uiux" | frontend => js "frontend" | backend => js "backend"
  end.

Definition MessageKind_str (k : MessageKind) : jsstring :=
  match k with
  | feature_request => js "feature-request"
  | uiux_spec => js "uiux-spec"
  | frontend_plan => js "frontend-plan"
  | backend_plan => js "backend-plan"
  end.

Record BoardMessage : Type := {
  id : nat;
  author : Author;
  kind : MessageKind;
  content : jsstring;
  createdAt : Z
}.

Record CapabilityManifest : Type := {
  m_name : jsstring;
  role : jsstring;
  description : jsstring;
  inputs : list jsstring;
  outputs : list jsstring;
  triggerSignatures : list jsstring;
  localPolicy : jsstring
}.

Record BlackboardState : Type := {
  featureRequest : option BoardMessage;
  uiuxSpec : option BoardMessage;
  frontendPlan : option BoardMessage;
  backendPlan : option BoardMessage
}.

(** The fields of an [Agent] object that are assigned at run time.  The
    fields [name] and [manifest] and the two methods are constants of the
    three object literals; they are the functions of an [AgentName]
    below ([manifestOf], [findTrigger], [act]). *)
Record Agent : Type := {
  maxIterations : nat;
  iterations : nat;
  lastSummary : option jsstring
}.

(** The module-level variables of the program: the id counter, the three
    agent objects, and what has been written to standard output. *)
Record Process : Type := {
  nextId : nat;
  uiuxAgent : Agent;
  frontendAgent : Agent;
  backendAgent : Agent;
  stdout : list jsstring
}.

(** The variables of one call of [runMultiAgentPipeline], with the
    process they live in. *)
Record RunState : Type := {
  proc : Process;
  board : list BoardMessage;
  blackboard : BlackboardState;
  idleCycles : nat;
  progressedThisCycle : bool
}.

Definition POLL_INTERVAL_MS : nat := 1000.
Definition MAX_GLOBAL_CYCLES : nat := 20.
Definition MAX_AGENT_ITERATIONS : nat := 3.

(** [const agents = [uiuxAgent, frontendAgent, backendAgent]] *)
Definition agents : list AgentName := [uiux; frontend; backend].

Definition agentOf (a : AgentName) (p : Process) : Agent :=
  match a with
  | uiux => uiuxAgent p
  | frontend => frontendAgent p
  | backend => backendAgent p
  end.

Definition setAgent (a : AgentName) (x : Agent) (p : Process) : Process :=
  match a with
  | uiux =>
      {| nextId := nextId p; uiuxAgent := x;
         frontendAgent := frontendAgent p; backendAgent := backendAgent p;
         stdout := stdout p |}
  | frontend =>
      {| nextId := nextId p; uiuxAgent := uiuxAgent p;
         frontendAgent := x; backendAgent := backendAgent p;
         stdout := stdout p |}
  | backend =>
      {| nextId := nextId p; uiuxAgent := uiuxAgent p;
         frontendAgent := frontendAgent p; backendAgent := x;
         stdout := stdout p |}
  end.

(** [process.stdout.write(text)] *)
Definition write (text : jsstring) (p : Process) : Process :=
  {| nextId := nextId p; uiuxAgent := uiuxAgent p;
     frontendAgent := frontendAgent p; backendAgent := backendAgent p;
     stdout := stdout p ++ [text] |}.

Definition setLastSummary (a : AgentName) (summary : jsstring)
  (p : Process) : Process :=
  let x := agentOf a p in
  setAgent a {| maxIterations := maxIterations x;
                iterations := iterations x;
                lastSummary := Some summary |} p.

(** [agent.iterations += 1] *)
Definition incrIterations (a : AgentName) (p : Process) : Process :=
  let x := agentOf a p in
  setAgent a {| maxIterations := maxIterations x;
                iterations := iterations x + 1;
                lastSummary := lastSummary x |} p.

(** ** Capability manifests *)

Definition uiuxManifest : CapabilityManifest := {|
  m_name := js "UI/UX Design Agent";
  role := js "uiux";
  description := js "Designs user flows, screens, and interaction patterns based on feature requests. Produces clear, structured UI/UX specs for engineers.";
  inputs := [js "feature-request"; js "existing UX context on the board"];
  outputs := [js "uiux-spec"];
  triggerSignatures :=
    [js "New feature request without an existing UI/UX spec";
     js "User asks for a new flow or change in user experience"];
  localPolicy := js "Act once per feature request to produce a complete UI/UX spec. Do not re-act unless the feature request changes significantly."
|}.

Definition frontendManifest : CapabilityManifest := {|
  m_name := js "Frontend Engineer Agent";
  role := js "frontend";
  description := js "Implements UI/UX specifications in a modern frontend stack. Produces implementation plans and component breakdowns.";
  inputs := [js "uiux-spec"; js "feature-request"];
  outputs := [js "frontend-plan"];
  triggerSignatures :=
    [js "UI/UX specs are posted / ready for review";
     js "Frontend work is requested explicitly"];
  localPolicy := js "Wait until a UI/UX spec exists for the feature. Then translate specs into a concrete implementation plan and surface open questions."
|}.

Definition backendManifest : CapabilityManifest := {|
  m_name := js "Backend Engineer Agent";
  role := js "backend";
  description := js "Designs and implements APIs, data models, and backend workflows that support the requested feature and the UI/UX design.";
  inputs := [js "feature-request"; js "uiux-spec"];
  outputs := [js "backend-plan"];
  triggerSignatures :=
    [js "UI/UX specs are posted / ready for review";
     js "New data or API requirements implied by the request"];
  localPolicy := js "Wait until a UI/UX spec exists for the feature. Then design backend contracts, storage, and integration points to support the UI."
|}.

Definition manifestOf (a : AgentName) : CapabilityManifest :=
  match a with
  | uiux => uiuxManifest
  | frontend => frontendManifest
  | backend => backendManifest
  end.

(** The lines of a system prompt that list the manifest. *)
Definition manifestLines (m : CapabilityManifest) : jsstring :=
  js "Your capability manifest:
- Name: " ++ m_name m ++ js "
- Role: " ++ role m ++ js "
- Description: " ++ description m ++ js "
- Inputs: " ++ join (js ", ") (inputs m) ++ js "
- Outputs: " ++ join (js ", ") (outputs m) ++ js "
- Trigger signatures: " ++ join (js "; ") (triggerSignatures m) ++ js "
- Local policy: " ++ localPolicy m ++ js "
".

(** ** Stand-ins for the collaborators

    Two generation services and a clock on which the pipeline can be
    run: [demoStream] answers every call in three fragments,
    [blankStream] answers with white space only. *)

Definition demoStream (n : nat) (system user : jsstring) : list jsstring :=
  [js "# Draft "; ofNat n; js "
- details
"].

Definition blankStream (n : nat) (system user : jsstring)
  : list jsstring :=
  [js " "; js "
	"].

(** A service whose first answer of a process is blank and whose later
    answers are not. *)
Definition blankFirstStream (n : nat) (system user : jsstring)
  : list jsstring :=
  if n =? 2 then blankStream n system user else demoStream n system user.

Definition demoClock (n : nat) : Z := 1700000000000 + Z.of_nat n.

Definition demoRequest : jsstring := js "  Add a dark mode  ".

(** A stand-in for [toISOString]: the number of milliseconds, in
    decimal. *)
Definition demoISOString (t : Z) : jsstring := ofNat (Z.to_nat t).

(** ** The agents *)

Section Pipeline.

(** The fragments delivered by [streamText({system, messages}).textStream]
    for the call made while the id counter has the given value. *)
Variable textStream : nat -> jsstring -> jsstring -> list jsstring.

(** The time read by [new Date()] in the [createMessage] call that hands
    out the given id. *)
Variable Date_now : nat -> Z.

Definition createMessage (author : Author) (kind : MessageKind)
  (content : jsstring) (p : Process) : BoardMessage * Process :=
  ({| id := nextId p; author := author; kind := kind; content := content;
      createdAt := Date_now (nextId p) |},
   {| nextId := nextId p + 1; uiuxAgent := uiuxAgent p;
      frontendAgent := frontendAgent p; backendAgent := backendAgent p;
      stdout := stdout p |}).

(** [field ?? [...board].reverse().find((m) => m.kind === k)] *)
Definition latestOfKind (field : option BoardMessage) (k : MessageKind)
  (board : list BoardMessage) : option BoardMessage :=
  match field with
  | Some m => Some m
  | None => find (fun m => MessageKind_eqb (kind m) k) (rev board)
  end.

(** [field ?? board.find((m) => m.kind === k)] *)
Definition firstOfKind (field : option BoardMessage) (k : MessageKind)
  (board : list BoardMessage) : option BoardMessage :=
  match field with
  | Some m => Some m
  | None => find (fun m => MessageKind_eqb (kind m) k) board
  end.

(** [board.filter((m) => m.author === a && m.kind === k)] *)
Definition ownMessages (a : AgentName) (k : MessageKind)
  (board : list BoardMessage) : list BoardMessage :=
  filter (fun m => Author_eqb (author m) (agent a)
                   && MessageKind_eqb (kind m) k) board.

Definition uiuxAgent_findTrigger (this : Agent) (board : list BoardMessage)
  (blackboard : BlackboardState) : option BoardMessage :=
  match latestOfKind (featureRequest blackboard) feature_request board with
  | None => None
  | Some feature =>
      let mySpecs := ownMessages uiux uiux_spec board in
      if length mySpecs =? 0 then Some feature
      else if maxIterations this <=? iterations this then None
      else nth_error mySpecs (length mySpecs - 1)
  end.

Definition frontendAgent_findTrigger (this : Agent)
  (board : list BoardMessage) (blackboard : BlackboardState)
  : option BoardMessage :=
  match latestOfKind (uiuxSpec blackboard) uiux_spec board with
  | None => None
  | Some uiuxSpec =>
      let myPlans := ownMessages frontend frontend_plan board in
      if length myPlans =? 0 then Some uiuxSpec
      else if maxIterations this <=? iterations this then None
      else nth_error myPlans (length myPlans - 1)
  end.

Definition backendAgent_findTrigger (this : Agent)
  (board : list BoardMessage) (blackboard : BlackboardState)
  : option BoardMessage :=
  match latestOfKind (uiuxSpec blackboard) uiux_spec board with
  | None => None
  | Some uiuxSpec =>
      let myPlans := ownMessages backend backend_plan board in
      if length myPlans =? 0 then Some uiuxSpec
      else if maxIterations this <=? iterations this then None
      else nth_error myPlans (length myPlans - 1)
  end.

(** [agent.findTrigger(board, blackboard)], [this] being [agent]. *)
Definition findTrigger (a : AgentName) (p : Process)
  (board : list BoardMessage) (blackboard : BlackboardState)
  : option BoardMessage :=
  match a with
  | uiux => uiuxAgent_findTrigger (agentOf uiux p) board blackboard
  | frontend => frontendAgent_findTrigger (agentOf frontend p) board blackboard
  | backend => backendAgent_findTrigger (agentOf backend p) board blackboard
  end.

(** [let text = ''; for await (const delta of stream) text += delta;] *)
Definition collect (stream : list jsstring) : jsstring :=
  fold_left (fun text delta => text ++ delta) stream [].

Definition uiux_systemPrompt : jsstring :=
  js "
You are the UI/UX Design Agent in a multi-agent engineering environment.

" ++ manifestLines uiuxManifest ++ js "
You are handed a feature request from the global message board.
Produce a clear, implementation-ready UI/UX specification that frontend and backend engineer agents can act on.

Your output should be:
- A short summary of the feature from the user point-of-view
- Primary user flows, as bullet points or numbered steps
- Screen and component list, with responsibilities
- State and data that must be surfaced in the UI
- UX considerations (validation, loading, error, empty states)
- Open questions or assumptions (if any)

Write in concise, structured markdown. Do not include any code, only specifications.
".

Definition uiux_userPrompt (trigger : BoardMessage) : jsstring :=
  js "
Feature request from the board (message #" ++ ofNat (id trigger) ++ js "):
" ++ content trigger ++ js "

Use the manifest and policies above to draft the UI/UX specification.
".

Definition frontend_systemPrompt : jsstring :=
  js "
You are the Frontend Engineer Agent in a multi-agent engineering environment.

" ++ manifestLines frontendManifest ++ js "
You receive UI/UX specs from the UI/UX agent and the original feature request.
Produce an actionable frontend implementation plan.

Your output should be:
- Technical summary of the UI to build
- Component breakdown and responsibilities
- Suggested routing/navigation structure
- State management approach
- Data fetching strategy and API surface needed from backend
- Edge cases and validation in the UI
".

Definition backend_systemPrompt : jsstring :=
  js "
You are the Backend Engineer Agent in a multi-agent engineering environment.

" ++ manifestLines backendManifest ++ js "
You receive UI/UX specs from the UI/UX agent and the original feature request.
Produce an actionable backend design and implementation plan.

Your output should be:
- Proposed APIs and endpoints (just descriptions, not code)
- Data models and relationships
- Auth and permission considerations
- Integration points with external systems (if any)
- Performance/scaling considerations
- Open questions or assumptions
".

(** The user prompt of the two engineer agents; [closing] is its last
    sentence, the only part in which they differ. *)
Definition engineer_userPrompt (feature : option BoardMessage)
  (trigger : BoardMessage) (closing : jsstring) : jsstring :=
  js "
Original feature request:
" ++ match feature with
     | Some f => content f
     | None => js "(not found on board)"
     end ++ js "

UI/UX specification (message #" ++ ofNat (id trigger) ++ js "):
" ++ content trigger ++ js "

" ++ closing ++ js "
".

Definition uiuxAgent_act (trigger : BoardMessage)
  (board : list BoardMessage) (_blackboard : BlackboardState)
  (p : Process) : BoardMessage * Process :=
  let result :=
    textStream (nextId p) (trim uiux_systemPrompt)
      (trim (uiux_userPrompt trigger)) in
  let spec := collect result in
  let summary := summarizeContent spec None in
  let p := setLastSummary uiux summary p in
  let p := write (js "
[ui/ux agent] UI/UX spec updated: " ++ summary ++ js "

") p in
  createMessage (agent uiux) uiux_spec (trim spec) p.

Definition frontendAgent_act (trigger : BoardMessage)
  (board : list BoardMessage) (blackboard : BlackboardState)
  (p : Process) : BoardMessage * Process :=
  let feature :=
    firstOfKind (featureRequest blackboard) feature_request board in
  let result :=
    textStream (nextId p) (trim frontend_systemPrompt)
      (trim (engineer_userPrompt feature trigger
         (js "Use the manifest and policies above to create a frontend implementation plan."))) in
  let plan := collect result in
  let summary := summarizeContent plan None in
  let p := setLastSummary frontend summary p in
  let p := write (js "
[frontend agent] Plan updated: " ++ summary ++ js "

") p in
  createMessage (agent frontend) frontend_plan (trim plan) p.

Definition backendAgent_act (trigger : BoardMessage)
  (board : list BoardMessage) (blackboard : BlackboardState)
  (p : Process) : BoardMessage * Process :=
  let feature :=
    firstOfKind (featureRequest blackboard) feature_request board in
  let result :=
    textStream (nextId p) (trim backend_systemPrompt)
      (trim (engineer_userPrompt feature trigger
         (js "Use the manifest and policies above to create a backend design and implementation plan."))) in
  let plan := collect result in
  let summary := summarizeContent plan None in
  let p := setLastSummary backend summary p in
  let p := write (js "
[backend agent] Plan updated: " ++ summary ++ js "

") p in
  createMessage (agent backend) backend_plan (trim plan) p.

(** [await agent.act(trigger, board, blackboard)] *)
Definition act (a : AgentName) (trigger : BoardMessage)
  (board : list BoardMessage) (blackboard : BlackboardState)
  (p : Process) : BoardMessage * Process :=
  match a with
  | uiux => uiuxAgent_act trigger board blackboard p
  | frontend => frontendAgent_act trigger board blackboard p
  | backend => backendAgent_act trigger board blackboard p
  end.

(** ** The coordinator *)

(** The [if (newMessage.kind === ...)] chain that follows [board.push]. *)
Definition updateBlackboard (blackboard : BlackboardState)
  (newMessage : BoardMessage) : BlackboardState :=
  match kind newMessage with
  | uiux_spec =>
      {| featureRequest := featureRequest blackboard;
         uiuxSpec := Some newMessage;
         frontendPlan := frontendPlan blackboard;
         backendPlan := backendPlan blackboard |}
  | frontend_plan =>
      {| featureRequest := featureRequest blackboard;
         uiuxSpec := uiuxSpec blackboard;
         frontendPlan := Some newMessage;
         backendPlan := backendPlan blackboard |}
  | backend_plan =>
      {| featureRequest := featureRequest blackboard;
         uiuxSpec := uiuxSpec blackboard;
         frontendPlan := frontendPlan blackboard;
         backendPlan := Some newMessage |}
  | feature_request => blackboard
  end.

(** The field of the blackboard that caches the latest message of a
    kind. *)
Definition lookup (blackboard : BlackboardState) (k : MessageKind)
  : option BoardMessage :=
  match k with
  | feature_request => featureRequest blackboard
  | uiux_spec => uiuxSpec blackboard
  | frontend_plan => frontendPlan blackboard
  | backend_plan => backendPlan blackboard
  end.

(** The two guards at the head of the body of [for (const agent of
    agents)]: the trigger the agent is about to act on, or [None] when
    one of the two [continue] statements is taken. *)
Definition pendingTrigger (a : AgentName) (s : RunState)
  : option BoardMessage :=
  match findTrigger a (proc s) (board s) (blackboard s) with
  | None => None
  | Some trigger =>
      if maxIterations (agentOf a (proc s)) <=? iterations (agentOf a (proc s))
      then None
      else Some trigger
  end.

(** The rest of that body: count the iteration, act, post the message
    and bring the blackboard up to date. *)
Definition actAndPost (a : AgentName) (trigger : BoardMessage)
  (s : RunState) : RunState :=
  let p := incrIterations a (proc s) in
  let (newMessage, p) := act a trigger (board s) (blackboard s) p in
  {| proc := p;
     board := board s ++ [newMessage];
     blackboard := updateBlackboard (blackboard s) newMessage;
     idleCycles := idleCycles s;
     progressedThisCycle := true |}.

Definition agentTurn (a : AgentName) (s : RunState) : RunState :=
  match pendingTrigger a s with
  | None => s
  | Some trigger => actAndPost a trigger s
  end.

(** What one pass through the body of the inner loop did: whose turn it
    was, the trigger it acted on (if it acted), and the state it left. *)
Record Turn : Type := {
  turn_agent : AgentName;
  turn_trigger : option BoardMessage;
  turn_after : RunState
}.

(** [for (const agent of agents) { ... }], with the record of its turns. *)
Fixpoint forAgents (l : list AgentName) (s : RunState)
  : RunState * list Turn :=
  match l with
  | [] => (s, [])
  | a :: rest =>
      let s' := agentTurn a s in
      let (final, turns) := forAgents rest s' in
      (final, {| turn_agent := a; turn_trigger := pendingTrigger a s;
                 turn_after := s' |} :: turns)
  end.

Definition writeRun (text : jsstring) (s : RunState) : RunState :=
  {| proc := write text (proc s); board := board s;
     blackboard := blackboard s; idleCycles := idleCycles s;
     progressedThisCycle := progressedThisCycle s |}.

Definition IDLE_THRESHOLD : nat := 3.

(** The head of the body of [for (let cycle = 1; cycle <=
    MAX_GLOBAL_CYCLES; cycle++)]: the notice, and
    [let progressedThisCycle = false]. *)
Definition beginCycle (cycle : nat) (s : RunState) : RunState :=
  let s := writeRun (js "
[system] Poll cycle " ++ ofNat cycle ++ js "...
") s in
  {| proc := proc s; board := board s; blackboard := blackboard s;
     idleCycles := idleCycles s; progressedThisCycle := false |}.

(** The [if (!progressedThisCycle) ... else ...] that follows the inner
    loop.  The boolean is [true] when the [break] is taken. *)
Definition endCycle (s : RunState) : RunState * bool :=
  if negb (progressedThisCycle s) then
    let s := {| proc := proc s; board := board s;
                blackboard := blackboard s;
                idleCycles := idleCycles s + 1;
                progressedThisCycle := progressedThisCycle s |} in
    if IDLE_THRESHOLD <=? idleCycles s then
      (writeRun (js "
[system] No agent activity for several cycles; stopping the multi-agent loop.

") s, true)
    else (s, false)
  else
    ({| proc := proc s; board := board s; blackboard := blackboard s;
        idleCycles := 0; progressedThisCycle := progressedThisCycle s |},
     false).

(** The body of the outer loop: one poll cycle. *)
Definition pollCycle (cycle : nat) (s : RunState)
  : RunState * list Turn * bool :=
  let (s, turns) := forAgents agents (beginCycle cycle s) in
  let (s, break) := endCycle s in
  (s, turns, break).

Inductive StopReason : Type := IdleStopped | CyclesExhausted.

(** The outcome of the poll loop: the state it ends in, how it ended,
    and the turns of every cycle it ran, in order. *)
Record LoopOutcome : Type := {
  final : RunState;
  stop : StopReason;
  cycles : list (list Turn)
}.

(** The loop over the values [cycle] takes. *)
Fixpoint forCycles (cs : list nat) (s : RunState) : LoopOutcome :=
  match cs with
  | [] => {| final := s; stop := CyclesExhausted; cycles := [] |}
  | cycle :: rest =>
      match pollCycle cycle s with
      | (s', turns, true) =>
          {| final := s'; stop := IdleStopped; cycles := [turns] |}
      | (s', turns, false) =>
          let o := forCycles rest s' in
          {| final := final o; stop := stop o;
             cycles := turns :: cycles o |}
      end
  end.

Definition pollLoop (s : RunState) : LoopOutcome :=
  forCycles (seq 1 MAX_GLOBAL_CYCLES) s.

(** The start of [runMultiAgentPipeline]: a new board and blackboard,
    seeded with the feature request. *)
Definition seed (initialRequest : jsstring) (p : Process) : RunState :=
  let (featureMessage, p) :=
    createMessage user feature_request (trim initialRequest) p in
  let p := write (js "
[system] Feature request posted to the message board as message #"
    ++ ofNat (id featureMessage) ++ js ".
") p in
  {| proc := p;
     board := [] ++ [featureMessage];
     blackboard := {| featureRequest := Some featureMessage;
                      uiuxSpec := None; frontendPlan := None;
                      backendPlan := None |};
     idleCycles := 0;
     progressedThisCycle := false |}.

(** [board.filter((m) => m.author === name)] *)
Definition messagesBy (name : AgentName) (board : list BoardMessage)
  : list BoardMessage :=
  filter (fun m => Author_eqb (author m) (agent name)) board.

(** [!agent.lastSummary]: the summary is undefined or the empty string. *)
Definition noSummary (x : Agent) : bool :=
  match lastSummary x with
  | None => true
  | Some text => length text =? 0
  end.

(** The line of the closing report for one agent. *)
Definition summaryLine (name : AgentName) (board : list BoardMessage)
  (p : Process) : jsstring :=
  let x := agentOf name p in
  let agentMessages := messagesBy name board in
  let iterations := length agentMessages in
  if (iterations =? 0) || noSummary x then
    js "- " ++ AgentName_str name ++ js ": no output
"
  else
    js "- " ++ AgentName_str name ++ js " (iterations: " ++ ofNat iterations
    ++ js ", last kind: "
    ++ match nth_error agentMessages (length agentMessages - 1) with
       | Some m => MessageKind_str (kind m)
       | None => []
       end
    ++ js "): "
    ++ match lastSummary x with Some text => text | None => [] end
    ++ js "
".

Definition agentNames : list AgentName := [uiux; frontend; backend].

(** The closing report. *)
Definition report (board : list BoardMessage) (p : Process) : Process :=
  let p := write (js "
[system] Multi-agent pipeline reached its stopping condition.

") p in
  let p := write (js "[agent summaries]
") p in
  let p :=
    fold_left (fun p name => write (summaryLine name board p) p)
      agentNames p in
  write (js "
") p.

Definition pipelineOutcome (initialRequest : jsstring) (p : Process)
  : LoopOutcome :=
  pollLoop (seed initialRequest p).

(** [runMultiAgentPipeline(initialRequest)], as the process it leaves. *)
Definition runMultiAgentPipeline (initialRequest : jsstring) (p : Process)
  : Process :=
  let s := final (pipelineOutcome initialRequest p) in
  report (board s) (proc s).

(** The states at the points of a run where the board has just changed
    or an agent has just had its turn: the seeded state, then the state
    after each turn, in order. *)
Definition pipelinePoints (initialRequest : jsstring) (p : Process)
  : list RunState :=
  seed initialRequest p
  :: map turn_after (concat (cycles (pipelineOutcome initialRequest p))).

(** ** The process *)

Definition freshAgent : Agent :=
  {| maxIterations := MAX_AGENT_ITERATIONS; iterations := 0;
     lastSummary := None |}.

(** The module-level variables when [main] starts. *)
Definition initialProcess : Process :=
  {| nextId := 1; uiuxAgent := freshAgent; frontendAgent := freshAgent;
     backendAgent := freshAgent; stdout := [] |}.

(** The request [main] submits on every pass of its loop. *)
Definition main_input : jsstring :=
  js "Build a weekly dashboard that tracks active users for our system.".

(** [s.toLowerCase()] on ASCII text, which [main_input] is. *)
Definition toLowerCase (s : jsstring) : jsstring :=
  map (fun c => if ((65 <=? c) && (c <=? 90))%N then (c + 32)%N else c) s.

(** One pass of [while (true)] in [main]; [None] is the [break]. *)
Definition mainPass (p : Process) : option Process :=
  let trimmed := trim main_input in
  if length trimmed =? 0 then Some p
  else if eqb (toLowerCase trimmed) (js "exit") then None
  else Some (runMultiAgentPipeline trimmed p).

(** The process after the first [n] passes of the loop of [main]. *)
Fixpoint mainPasses (n : nat) (p : Process) : Process :=
  match n with
  | 0 => p
  | S n' =>
      match mainPass p with
      | Some p' => mainPasses n' p'
      | None => p
      end
  end.

(** ** [src/index.ts]: the interactive variant

    The same three agents with the same manifests and prompts, without
    blackboard, budgets and summaries: a run polls until a pass over the
    agents makes no progress, and [main] asks for one request after the
    other.  Where a name of [src/index.ts] is taken by the variant
    above, the definition carries the prefix [index_]. *)

(** [msg.createdAt.toISOString()] *)
Variable toISOString : Z -> jsstring.

Definition Author_str (a : Author) : jsstring :=
  match a with
  | user => js "user"
  | agent a => AgentName_str a
  end.

Definition index_uiuxAgent_findTrigger (board : list BoardMessage)
  : option BoardMessage :=
  let hasUiuxSpec :=
    existsb (fun m => MessageKind_eqb (kind m) uiux_spec) board in
  if hasUiuxSpec then None
  else find (fun m => MessageKind_eqb (kind m) feature_request) (rev board).

Definition index_frontendAgent_findTrigger (board : list BoardMessage)
  : option BoardMessage :=
  let hasFrontendPlan :=
    existsb (fun m => MessageKind_eqb (kind m) frontend_plan) board in
  if hasFrontendPlan then None
  else find (fun m => MessageKind_eqb (kind m) uiux_spec) (rev board).

Definition index_backendAgent_findTrigger (board : list BoardMessage)
  : option BoardMessage :=
  let hasBackendPlan :=
    existsb (fun m => MessageKind_eqb (kind m) backend_plan) board in
  if hasBackendPlan then None
  else find (fun m => MessageKind_eqb (kind m) uiux_spec) (rev board).

(** [agent.findTrigger(board)] *)
Definition index_findTrigger (a : AgentName) (board : list BoardMessage)
  : option BoardMessage :=
  match a with
  | uiux => index_uiuxAgent_findTrigger board
  | frontend => index_frontendAgent_findTrigger board
  | backend => index_backendAgent_findTrigger board
  end.

(** [for await (const delta of result.textStream) { text += delta;
    process.stdout.write(delta); }], from the empty text. *)
Definition index_stream (result : list jsstring) (p : Process)
  : jsstring * Process :=
  fold_left
    (fun (acc : jsstring * Process) delta =>
       (fst acc ++ delta, write delta (snd acc)))
    result ([], p).

Definition index_uiuxAgent_act (trigger : BoardMessage)
  (board : list BoardMessage) (p : Process) : BoardMessage * Process :=
  let result :=
    textStream (nextId p) (trim uiux_systemPrompt)
      (trim (uiux_userPrompt trigger)) in
  let p := write (js "
[ui/ux agent] Generating UI/UX spec...
") p in
  let (spec, p) := index_stream result p in
  let p := write (js "

[ui/ux agent] UI/UX spec posted to the message board.

") p in
  createMessage (agent uiux) uiux_spec (trim spec) p.

Definition index_frontendAgent_act (trigger : BoardMessage)
  (board : list BoardMessage) (p : Process) : BoardMessage * Process :=
  let feature :=
    find (fun m => MessageKind_eqb (kind m) feature_request) board in
  let result :=
    textStream (nextId p) (trim frontend_systemPrompt)
      (trim (engineer_userPrompt feature trigger
         (js "Use the manifest and policies above to create a frontend implementation plan."))) in
  let p := write (js "
[frontend agent] Generating frontend implementation plan...
") p in
  let (plan, p) := index_stream result p in
  let p := write (js "

[frontend agent] Frontend implementation plan posted to the message board.

") p in
  createMessage (agent frontend) frontend_plan (trim plan) p.

Definition index_backendAgent_act (trigger : BoardMessage)
  (board : list BoardMessage) (p : Process) : BoardMessage * Process :=
  let feature :=
    find (fun m => MessageKind_eqb (kind m) feature_request) board in
  let result :=
    textStream (nextId p) (trim backend_systemPrompt)
      (trim (engineer_userPrompt feature trigger
         (js "Use the manifest and policies above to create a backend design and implementation plan."))) in
  let p := write (js "
[backend agent] Generating backend implementation plan...
") p in
  let (plan, p) := index_stream result p in
  let p := write (js "

[backend agent] Backend implementation plan posted to the message board.

") p in
  createMessage (agent backend) backend_plan (trim plan) p.

(** [await agent.act(trigger, board)] *)
Definition index_act (a : AgentName) (trigger : BoardMessage)
  (board : list BoardMessage) (p : Process) : BoardMessage * Process :=
  match a with
  | uiux => index_uiuxAgent_act trigger board p
  | frontend => index_frontendAgent_act trigger board p
  | backend => index_backendAgent_act trigger board p
  end.

(** The variables of [runMultiAgentPipeline] while its loop runs, with
    the module-level state. *)
Record IndexRun : Type := {
  index_proc : Process;
  index_board : list BoardMessage;
  progressed : bool
}.

(** The body of [for (const agent of agents)]. *)
Definition index_agentTurn (s : IndexRun) (a : AgentName) : IndexRun :=
  match index_findTrigger a (index_board s) with
  | None => s
  | Some trigger =>
      let (newMessage, p) :=
        index_act a trigger (index_board s) (index_proc s) in
      {| index_proc := p;
         index_board := index_board s ++ [newMessage];
         progressed := true |}
  end.

(** The body of [while (progressed)]: one pass over the agents. *)
Definition index_pass (s : IndexRun) : IndexRun :=
  fold_left index_agentTurn agents
    {| index_proc := index_proc s; index_board := index_board s;
       progressed := false |}.

(** [while (progressed) { ... }], for at most [fuel] passes; [None] when
    the passes do not suffice. *)
Fixpoint index_while (fuel : nat) (s : IndexRun) : option IndexRun :=
  if progressed s then
    match fuel with
    | 0 => None
    | S fuel' => index_while fuel' (index_pass s)
    end
  else Some s.

(** The start of [runMultiAgentPipeline]: the board seeded with the
    feature request. *)
Definition index_seed (initialRequest : jsstring) (p : Process) : IndexRun :=
  let (featureMessage, p) :=
    createMessage user feature_request (trim initialRequest) p in
  let p := write (js "
[system] Feature request posted to the message board as message #"
    ++ ofNat (id featureMessage) ++ js ".
") p in
  {| index_proc := p; index_board := [] ++ [featureMessage];
     progressed := true |}.

(** The line of the final listing for one message. *)
Definition index_boardLine (msg : BoardMessage) : jsstring :=
  let ts := toISOString (createdAt msg) in
  js "#" ++ ofNat (id msg) ++ js " [" ++ ts ++ js "] author="
  ++ Author_str (author msg) ++ js " kind=" ++ MessageKind_str (kind msg)
  ++ js "
" ++ content msg ++ js "

".

(** The end of [runMultiAgentPipeline]: the notice and the listing of
    the board. *)
Definition index_report (board : list BoardMessage) (p : Process)
  : Process :=
  let p := write (js "
[system] Multi-agent pipeline finished for this feature request.

") p in
  let p := write (js "[message board]
") p in
  fold_left (fun p msg => write (index_boardLine msg) p) board p.

(** [runMultiAgentPipeline(initialRequest)], as the process it leaves. *)
Definition index_runMultiAgentPipeline (fuel : nat)
  (initialRequest : jsstring) (p : Process) : option Process :=
  match index_while fuel (index_seed initialRequest p) with
  | None => None
  | Some s => Some (index_report (index_board s) (index_proc s))
  end.



(** ** Vocabulary of the properties *)

(** A line is blank when it contains no character other than white
    space. *)
Definition isBlank (line : jsstring) : bool := forallb isWhiteSpace line.

(** The kind of message each agent is there to produce. *)
Definition outputKind (a : AgentName) : MessageKind :=
  match a with
  | uiux => uiux_spec
  | frontend => frontend_plan
  | backend => backend_plan
  end.

(** The system prompt each agent sends, which tells its calls of the
    generation service apart from those of the other two. *)
Definition systemPrompt (a : AgentName) : jsstring :=
  match a with
  | uiux => uiux_systemPrompt
  | frontend => frontend_systemPrompt
  | backend => backend_systemPrompt
  end.

(** The kind of message an agent waits for before its first act. *)
Definition upstreamKind (a : AgentName) : MessageKind :=
  match a with
  | uiux => feature_request
  | frontend => uiux_spec
  | backend => uiux_spec
  end.

(** The state the first poll cycle of a run leaves. *)
Definition afterFirstCycle (initialRequest : jsstring) (p : Process)
  : RunState :=
  fst (fst (pollCycle 1 (seed initialRequest p))).

(** The one of two candidates with the higher id. *)
Definition higher (best : option BoardMessage) (m : BoardMessage)
  : option BoardMessage :=
  match best with
  | None => Some m
  | Some b => if id b <? id m then Some m else Some b
  end.

(** The message of kind [k] with the highest id found by a scan of the
    whole board. *)
Definition highestOfKind (k : MessageKind) (board : list BoardMessage)
  : option BoardMessage :=
  fold_left
    (fun best m => if MessageKind_eqb (kind m) k then higher best m else best)
    board None.

(** A cycle is idle when no agent acted in it. *)
Definition idleTurn (t : Turn) : bool :=
  match turn_trigger t with None => true | Some _ => false end.

Definition idleCycle (turns : list Turn) : bool := forallb idleTurn turns.

(** The value of the idle counter after a sequence of cycles, given
    which of them were idle: it counts the idle cycles since the last
    cycle that was not. *)
Definition streak (start : nat) (idle : list bool) : nat :=
  fold_left (fun i (b : bool) => if b then i + 1 else 0) idle start.

(** The line of the closing report for an agent without output. *)
Definition noOutputLine (a : AgentName) : jsstring :=
  js "- " ++ AgentName_str a ++ js ": no output
".

(** Two states that differ at most in what was printed and in the two
    loop variables [idleCycles] and [progressedThisCycle]. *)
Definition sameData (s s' : RunState) : Prop :=
  board s' = board s
  /\ blackboard s' = blackboard s
  /\ nextId (proc s') = nextId (proc s)
  /\ forall a, agentOf a (proc s') = agentOf a (proc s).

(** The ids on the board are below the id counter, and the blackboard
    caches, for each kind, the message a scan of the board finds. *)
Definition indexed (s : RunState) : Prop :=
  (forall m, In m (board s) -> id m < nextId (proc s))
  /\ (forall k, lookup (blackboard s) k = highestOfKind k (board s)).

(** Relative to the process [p0] the run started in: the budgets are the
    ones of [p0]; an agent's iteration count has grown by the number of
    messages it has on the board; and an agent with a message on the
    board is within its budget. *)
Definition budgeted (p0 : Process) (s : RunState) : Prop :=
  forall a,
    maxIterations (agentOf a (proc s)) = maxIterations (agentOf a p0)
    /\ iterations (agentOf a (proc s)) =
       iterations (agentOf a p0) + length (messagesBy a (board s))
    /\ (length (messagesBy a (board s)) = 0
        \/ iterations (agentOf a (proc s)) <= maxIterations (agentOf a p0)).

(** Every plan on the board has a UI/UX spec somewhere before it. *)
Definition specFirst (board : list BoardMessage) : Prop :=
  forall pre m post,
    board = pre ++ m :: post ->
    kind m = frontend_plan \/ kind m = backend_plan ->
    exists u, In u pre /\ kind u = uiux_spec.

(** The blackboard is the index of the board, and plans follow a spec. *)
Definition ordered (s : RunState) : Prop :=
  indexed s /\ specFirst (board s).

(** When the latest message of the agent on the board has an empty
    content, the last summary of the agent is the empty string. *)
Definition silent (a : AgentName) (s : RunState) : Prop :=
  forall pre m,
    messagesBy a (board s) = pre ++ [m] ->
    content m = [] ->
    lastSummary (agentOf a (proc s)) = Some [].

(** The agents are those of the process [q] and the board is [b]. *)
Definition frozen (q : Process) (b : list BoardMessage) (s : RunState)
  : Prop :=
  (forall a, agentOf a (proc s) = agentOf a q) /\ board s = b.

(** The ids on the board are consecutive, from the value the id counter
    had in the process [p0] the run started in, and the counter is one
    above the last of them. *)
Definition consecutiveIds (p0 : Process) (s : RunState) : Prop :=
  map id (board s) = seq (nextId p0) (length (board s))
  /\ nextId (proc s) = nextId p0 + length (board s).

(** From [s] to [s'] the board has only been appended to, the id counter
    and the iteration counts have not decreased, and the budgets and the
    cached feature request are the same. *)
Definition grows (s s' : RunState) : Prop :=
  (exists more, board s' = board s ++ more)
  /\ nextId (proc s) <= nextId (proc s')
  /\ featureRequest (blackboard s') = featureRequest (blackboard s)
  /\ forall a,
       maxIterations (agentOf a (proc s')) = maxIterations (agentOf a (proc s))
       /\ iterations (agentOf a (proc s)) <= iterations (agentOf a (proc s')).

(** The points a loop goes through, in the order it goes through them:
    each has grown from the one before, from the state the loop started
    in, and into the state the loop ends in. *)
Definition inOrder (s : RunState) (points : list RunState)
  (final : RunState) : Prop :=
  grows s final
  /\ Forall (grows s) points
  /\ Forall (fun x => grows x final) points
  /\ ForallOrdPairs grows points.

(** [{}], the blackboard with no entry. *)
Definition emptyBlackboard : BlackboardState :=
  {| featureRequest := None; uiuxSpec := None; frontendPlan := None;
     backendPlan := None |}.

(** Each blackboard entry is what the backward scan of the board for its
    kind finds, and the feature request is also what the forward scan
    finds. *)
Definition scanned (s : RunState) : Prop :=
  (forall k,
     lookup (blackboard s) k
     = find (fun m => MessageKind_eqb (kind m) k) (rev (board s)))
  /\ featureRequest (blackboard s)
     = find (fun m => MessageKind_eqb (kind m) feature_request) (board s).

(** The feature request is cached, the UI/UX spec is cached or the UI/UX
    agent still has budget to write one, and no agent is over budget. *)
Definition supplied (s : RunState) : Prop :=
  featureRequest (blackboard s) <> None
  /\ (uiuxSpec (blackboard s) <> None
      \/ iterations (agentOf uiux (proc s))
         < maxIterations (agentOf uiux (proc s)))
  /\ forall a,
       iterations (agentOf a (proc s)) <= maxIterations (agentOf a (proc s)).

(** The agents are those of the process [q], none of them has acted, and
    no UI/UX spec is cached. *)
Definition blocked (q : Process) (b : list BoardMessage) (s : RunState)
  : Prop :=
  frozen q b s /\ uiuxSpec (blackboard s) = None /\ scanned s.

(** The iterations an agent has left. *)
Definition budgetLeft (a : AgentName) (p : Process) : nat :=
  maxIterations (agentOf a p) - iterations (agentOf a p).

(** The most iterations any agent has left. *)
Definition longestBudgetLeft (p : Process) : nat :=
  Nat.max (budgetLeft uiux p)
    (Nat.max (budgetLeft frontend p) (budgetLeft backend p)).

(** A string that does not start with white space. *)
Definition tight (s : jsstring) : Prop :=
  match s with [] => True | c :: _ => isWhiteSpace c = false end.

(** The user prompt an agent builds for a trigger; [feature] is what the
    two engineer agents found as the original feature request. *)
Definition userPrompt (a : AgentName) (feature : option BoardMessage)
  (trigger : BoardMessage) : jsstring :=
  match a with
  | uiux => uiux_userPrompt trigger
  | frontend =>
      engineer_userPrompt feature trigger
        (js "Use the manifest and policies above to create a frontend implementation plan.")
  | backend =>
      engineer_userPrompt feature trigger
        (js "Use the manifest and policies above to create a backend design and implementation plan.")
  end.

(** The iterations counted over the three agents. *)
Definition spent (p : Process) : nat :=
  iterations (agentOf uiux p) + iterations (agentOf frontend p)
  + iterations (agentOf backend p).

(** Since the run started from [p], ids were taken by the feature
    request and by one message per iteration, and by nothing else. *)
Definition accounted (p : Process) (s : RunState) : Prop :=
  nextId (proc s) + spent p = nextId p + 1 + spent (proc s).

(** The message an agent posts in reply to a trigger when the id
    counter stands at [n]: the trimmed text the generation service
    returns for the prompts of the agent. *)
Definition reply (a : AgentName) (n : nat) (feature : option BoardMessage)
  (trigger : BoardMessage) : BoardMessage :=
  {| id := n; author := agent a; kind := outputKind a;
     content :=
       trim (concat (textStream n (trim (systemPrompt a))
                       (trim (userPrompt a feature trigger))));
     createdAt := Date_now n |}.

(** The feature request posted when the id counter stands at [n]. *)
Definition request (initialRequest : jsstring) (n : nat) : BoardMessage :=
  {| id := n; author := user; kind := feature_request;
     content := trim initialRequest; createdAt := Date_now n |}.

(** The four messages of one cascade: the request, the UI/UX spec
    written for it, and the frontend and the backend plan written for
    that spec. *)
Definition cascade (initialRequest : jsstring) (n : nat)
  : list BoardMessage :=
  let f := request initialRequest n in
  let u := reply uiux (n + 1) (Some f) f in
  [ f; u; reply frontend (n + 2) (Some f) u;
    reply backend (n + 3) (Some f) u ].

(** The process [p] after [l] has been written to the terminal. *)
Definition written (l : list jsstring) (p : Process) : Process :=
  {| nextId := nextId p; uiuxAgent := uiuxAgent p;
     frontendAgent := frontendAgent p; backendAgent := backendAgent p;
     stdout := stdout p ++ l |}.




(** [content.split('\n').find((line) => line.trim().length > 0) ?? ''],
    the line [summarizeContent] takes its summary from. *)
Definition firstLine (content : jsstring) : jsstring :=
  match find (fun line => 0 <? length (trim line)) (split_nl content) with
  | Some line => line
  | None => []
  end.

(** The messages of every agent are of the kind the agent produces, and
    the summary the agent holds is that of its last message on the
    board, if it has one there. *)
Definition summarised (s : RunState) : Prop :=
  (forall a m, In m (board s) -> author m = agent a -> kind m = outputKind a)
  /\ forall a pre m,
       messagesBy a (board s) = pre ++ [m] ->
       lastSummary (agentOf a (proc s))
       = Some (summarizeContent (content m) None).

(** The notices a run prints at its start, at the head of a cycle and
    at an idle stop, and the line an agent prints when it has acted. *)
Definition seedNotice (n : nat) : jsstring :=
  js "
[system] Feature request posted to the message board as message #"
  ++ ofNat n ++ js ".
".

Definition pollNotice (cycle : nat) : jsstring :=
  js "
[system] Poll cycle " ++ ofNat cycle ++ js "...
".

Definition idleNotice : jsstring :=
  js "
[system] No agent activity for several cycles; stopping the multi-agent loop.

".

Definition progressLine (a : AgentName) (summary : jsstring) : jsstring :=
  match a with
  | uiux => js "
[ui/ux agent] UI/UX spec updated: " ++ summary ++ js "

"
  | frontend => js "
[frontend agent] Plan updated: " ++ summary ++ js "

"
  | backend => js "
[backend agent] Plan updated: " ++ summary ++ js "

"
  end.

(** What a turn prints: nothing when the agent does not act, and
    otherwise one line with the summary the agent holds after it. *)
Definition turnLines (t : Turn) : list jsstring :=
  match turn_trigger t with
  | None => []
  | Some _ =>
      [progressLine (turn_agent t)
         match lastSummary (agentOf (turn_agent t) (proc (turn_after t))) with
         | Some text => text
         | None => []
         end]
  end.

(** What the cycles of a loop print: for each cycle its notice and the
    lines of its turns, and the notice of the idle stop at the end if
    that is how the loop ended. *)
Definition cycleLines (cycle : nat) (turns : list Turn) : list jsstring :=
  pollNotice cycle :: concat (map turnLines turns).

Definition transcript (cs : list nat) (o : LoopOutcome) : list jsstring :=
  concat (map (fun ct => cycleLines (fst ct) (snd ct))
            (combine cs (cycles o)))
  ++ match stop o with
     | IdleStopped => [idleNotice]
     | CyclesExhausted => []
     end.

(** The code units that are white space for [trim]: the WhiteSpace and
    LineTerminator code points of the language. *)
Definition whiteSpaceUnits : list N :=
  [ 9; 10; 11; 12; 13; 32; 160; 5760;
    8192; 8193; 8194; 8195; 8196; 8197; 8198; 8199; 8200; 8201; 8202;
    8232; 8233; 8239; 8287; 12288; 65279 ]%N.

(** ** Strings *)

Lemma trimStart_nil (s : jsstring) :
  trimStart s = [] <-> isBlank s = true.
Proof.
  unfold isBlank. induction s as [|c r IH]; simpl.
  - tauto.
  - destruct (isWhiteSpace c); simpl; [assumption|].
    split; discriminate.
Qed.

Lemma isBlank_rev (s : jsstring) : isBlank (rev s) = isBlank s.
Proof.
  unfold isBlank.
  destruct (forallb isWhiteSpace s) eqn:E.
  - apply forallb_forall. intros c Hc. apply In_rev in Hc.
    rewrite forallb_forall in E. auto.
  - destruct (forallb isWhiteSpace (rev s)) eqn:E'; [|reflexivity].
    rewrite forallb_forall in E'.
    assert (forallb isWhiteSpace s = true) as H; [|congruence].
    apply forallb_forall. intros c Hc. apply E'. now apply -> in_rev.
Qed.

Lemma trimStart_blank (s : jsstring) :
  isBlank (trimStart s) = isBlank s.
Proof.
  unfold isBlank. induction s as [|c r IH]; simpl; [reflexivity|].
  destruct (isWhiteSpace c) eqn:E; simpl; [assumption|].
  now rewrite E.
Qed.

Lemma trim_nil (s : jsstring) : trim s = [] <-> isBlank s = true.
Proof.
  unfold trim, trimEnd. split; intros H.
  - assert (trimStart (rev (trimStart s)) = []) as H'.
    { rewrite <- (rev_involutive (trimStart _)). now rewrite H. }
    apply trimStart_nil in H'. rewrite isBlank_rev, trimStart_blank in H'.
    assumption.
  - apply trimStart_nil in H. now rewrite H.
Qed.

Lemma nonblank_test (line : jsstring) :
  (0 <? length (trim line)) = negb (isBlank line).
Proof.
  destruct (isBlank line) eqn:E; simpl.
  - apply trim_nil in E. now rewrite E.
  - destruct (trim line) eqn:T; [|reflexivity].
    apply trim_nil in T. congruence.
Qed.

Lemma find_first_nonblank (pre : list jsstring) (line : jsstring)
  (post : list jsstring) :
  Forall (fun l => isBlank l = true) pre ->
  isBlank line = false ->
  find (fun l => 0 <? length (trim l)) (pre ++ line :: post) = Some line.
Proof.
  intros Hpre Hline. induction Hpre as [|l pre Hl _ IH]; simpl.
  - now rewrite nonblank_test, Hline.
  - now rewrite nonblank_test, Hl.
Qed.

Lemma find_all_blank (ls : list jsstring) :
  Forall (fun l => isBlank l = true) ls ->
  find (fun l => 0 <? length (trim l)) ls = None.
Proof.
  induction 1 as [|l ls Hl _ IH]; simpl; [reflexivity|].
  now rewrite nonblank_test, Hl.
Qed.

(** [split_nl] cuts at the line feeds and nowhere else. *)
Lemma split_nl_line (l : jsstring) :
  ~ In 10%N l -> split_nl l = [l].
Proof.
  induction l as [|c r IH]; simpl; intros H; [reflexivity|].
  destruct (N.eqb_spec c 10) as [->|_]; [tauto|].
  rewrite IH by tauto. reflexivity.
Qed.

Lemma split_nl_cons_line (l rest : jsstring) :
  ~ In 10%N l -> split_nl (l ++ 10%N :: rest) = l :: split_nl rest.
Proof.
  induction l as [|c r IH]; simpl; intros H; [reflexivity|].
  destruct (N.eqb_spec c 10) as [->|_]; [tauto|].
  rewrite IH by tauto. reflexivity.
Qed.

Lemma split_nl_join (ls : list jsstring) :
  ls <> [] -> Forall (fun l => ~ In 10%N l) ls ->
  split_nl (join [10%N] ls) = ls.
Proof.
  intros Hne H. induction H as [|l ls Hl Hls IH]; [now elim Hne|].
  destruct ls as [|l' ls'].
  - simpl. now apply split_nl_line.
  - change (join [10%N] (l :: l' :: ls'))
      with (l ++ 10%N :: join [10%N] (l' :: ls')).
    rewrite split_nl_cons_line by assumption.
    rewrite IH by discriminate. reflexivity.
Qed.

Lemma collect_concat (stream : list jsstring) :
  collect stream = concat stream.
Proof.
  unfold collect.
  enough (forall acc, fold_left (fun text delta => text ++ delta) stream acc
                      = acc ++ concat stream) as H by apply (H []).
  induction stream as [|d r IH]; intros acc; simpl.
  - now rewrite app_nil_r.
  - rewrite IH. now rewrite app_assoc.
Qed.

Lemma summarizeContent_blank (content : jsstring) :
  Forall (fun l => isBlank l = true) (split_nl content) ->
  summarizeContent content None = [].
Proof.
  intros H. unfold summarizeContent.
  rewrite (find_all_blank H). reflexivity.
Qed.

(** A text has only blank lines exactly when it is white space
    throughout, the line feed being white space itself. *)
Lemma blank_lines (text : jsstring) :
  Forall (fun l => isBlank l = true) (split_nl text) <->
  isBlank text = true.
Proof.
  unfold isBlank. induction text as [|c r IH]; simpl.
  - split; [reflexivity|]. intros _. now constructor.
  - destruct (N.eqb_spec c 10) as [->|Hc].
    + simpl. rewrite <- IH. split.
      * intros H. now inversion H.
      * intros H. now constructor.
    + destruct (split_nl r) as [|l ls] eqn:E.
      * split.
        -- intros H. inversion H as [|? ? Hl _]; subst. simpl in Hl.
           rewrite andb_true_r in Hl. rewrite Hl. simpl.
           apply IH. constructor.
        -- intros H. apply andb_true_iff in H. destruct H as [H _].
           constructor; [simpl; now rewrite H|constructor].
      * split.
        -- intros H. inversion H as [|? ? Hl Hls]; subst. simpl in Hl.
           apply andb_true_iff in Hl. destruct Hl as [Hc' Hl].
           rewrite Hc'. simpl. apply IH. now constructor.
        -- intros H. apply andb_true_iff in H. destruct H as [Hc' Hr].
           apply IH in Hr. inversion Hr as [|? ? Hl Hls]; subst.
           constructor; [simpl; now rewrite Hc', Hl|assumption].
Qed.

Lemma summarizeContent_trim_nil (text : jsstring) :
  trim text = [] -> summarizeContent text None = [].
Proof.
  intros H. apply summarizeContent_blank, blank_lines. now apply trim_nil.
Qed.

(** C8 (as amended).  Let the first non-blank line of [content] be [line]
    (the lines before it are blank).  When the trimmed line is longer
    than [maxLength] and [maxLength] is at least 3, the summary is the
    first [maxLength - 3] characters of the trimmed line followed by the
    three characters of the ellipsis marker, and is exactly [maxLength]
    characters long; when the trimmed line is at most [maxLength]
    characters long, the summary is the trimmed line itself.  A call
    that leaves [maxLength] out is a call with 200. *)
Theorem summarizeContent_truncation
  (content : jsstring) (maxLength : Z)
  (pre : list jsstring) (line : jsstring) (post : list jsstring) :
  split_nl content = pre ++ line :: post ->
  Forall (fun l => isBlank l = true) pre ->
  isBlank line = false ->
  let trimmed := trim line in
  let summary := summarizeContent content (Some maxLength) in
  ((3 <= maxLength)%Z ->
   (maxLength < Z.of_nat (length trimmed))%Z ->
     summary = firstn (Z.to_nat (maxLength - 3)) trimmed ++ js "..."
     /\ Z.of_nat (length summary) = maxLength)
  /\ ((Z.of_nat (length trimmed) <= maxLength)%Z -> summary = trimmed)
  /\ summarizeContent content None = summarizeContent content (Some 200%Z).
Proof.
  intros Hsplit Hpre Hline trimmed summary.
  assert (summary =
          if (Z.of_nat (length trimmed) <=? maxLength)%Z then trimmed
          else slice0 trimmed (maxLength - 3) ++ js "...") as Hs.
  { unfold summary, summarizeContent.
    rewrite Hsplit, find_first_nonblank by assumption. reflexivity. }
  split; [|split; [|reflexivity]].
  - intros Hmax Hlong.
    destruct (Z.leb_spec (Z.of_nat (length trimmed)) maxLength); [lia|].
    assert (slice0 trimmed (maxLength - 3)
            = firstn (Z.to_nat (maxLength - 3)) trimmed) as Hslice.
    { unfold slice0.
      destruct (Z.ltb_spec (maxLength - 3) 0); [lia|].
      rewrite Z.min_l by lia. reflexivity. }
    rewrite Hs, Hslice. split; [reflexivity|].
    rewrite length_app, length_firstn.
    change (length (js "...")) with 3. lia.
  - intros Hshort.
    destruct (Z.leb_spec (Z.of_nat (length trimmed)) maxLength); [|lia].
    assumption.
Qed.

(** ** One act, one turn *)

Lemma agentOf_setAgent_same (a : AgentName) (x : Agent) (p : Process) :
  agentOf a (setAgent a x p) = x.
Proof. destruct a; reflexivity. Qed.

Lemma agentOf_setAgent_other (a b : AgentName) (x : Agent) (p : Process) :
  b <> a -> agentOf b (setAgent a x p) = agentOf b p.
Proof. destruct a, b; intros H; try reflexivity; now elim H. Qed.

Lemma nextId_setAgent (a : AgentName) (x : Agent) (p : Process) :
  nextId (setAgent a x p) = nextId p.
Proof. destruct a; reflexivity. Qed.

Lemma stdout_setAgent (a : AgentName) (x : Agent) (p : Process) :
  stdout (setAgent a x p) = stdout p.
Proof. destruct a; reflexivity. Qed.

(** What [act] returns and what it leaves behind.  [text] is everything
    the generation service delivered for this call. *)
Lemma act_spec (a : AgentName) (trigger : BoardMessage)
  (board : list BoardMessage) (blackboard : BlackboardState) (p : Process) :
  exists usr : jsstring,
    let text := concat (textStream (nextId p) (trim (systemPrompt a)) usr) in
    let m := fst (act a trigger board blackboard p) in
    let p' := snd (act a trigger board blackboard p) in
    m = {| id := nextId p; author := agent a; kind := outputKind a;
           content := trim text; createdAt := Date_now (nextId p) |}
    /\ nextId p' = nextId p + 1
    /\ agentOf a p' =
         {| maxIterations := maxIterations (agentOf a p);
            iterations := iterations (agentOf a p);
            lastSummary := Some (summarizeContent text None) |}
    /\ (forall b, b <> a -> agentOf b p' = agentOf b p).
Proof.
  destruct a;
    [ exists (trim (uiux_userPrompt trigger))
    | exists (trim (engineer_userPrompt
        (firstOfKind (featureRequest blackboard) feature_request board)
        trigger
        (js "Use the manifest and policies above to create a frontend implementation plan.")))
    | exists (trim (engineer_userPrompt
        (firstOfKind (featureRequest blackboard) feature_request board)
        trigger
        (js "Use the manifest and policies above to create a backend design and implementation plan."))) ];
    cbv zeta;
    unfold act, uiuxAgent_act, frontendAgent_act, backendAgent_act,
      createMessage, setLastSummary, systemPrompt;
    cbn [fst snd nextId write setAgent agentOf uiuxAgent frontendAgent
         backendAgent outputKind];
    rewrite collect_concat;
    (split; [reflexivity|]); (split; [reflexivity|]);
    (split; [reflexivity|]);
    intros b Hb; destruct b; try reflexivity; now elim Hb.
Qed.

(** A turn either changes nothing, or counts one iteration for the
    agent, posts one message of the agent and updates the blackboard
    with it. *)
Lemma agentTurn_cases (a : AgentName) (s : RunState) :
  (pendingTrigger a s = None /\ agentTurn a s = s)
  \/ (exists (trigger m : BoardMessage) (usr : jsstring),
        let s' := agentTurn a s in
        let text :=
          concat (textStream (nextId (proc s)) (trim (systemPrompt a)) usr) in
        pendingTrigger a s = Some trigger
        /\ findTrigger a (proc s) (board s) (blackboard s) = Some trigger
        /\ iterations (agentOf a (proc s)) < maxIterations (agentOf a (proc s))
        /\ m = {| id := nextId (proc s); author := agent a;
                  kind := outputKind a; content := trim text;
                  createdAt := Date_now (nextId (proc s)) |}
        /\ board s' = board s ++ [m]
        /\ blackboard s' = updateBlackboard (blackboard s) m
        /\ idleCycles s' = idleCycles s
        /\ progressedThisCycle s' = true
        /\ nextId (proc s') = nextId (proc s) + 1
        /\ agentOf a (proc s') =
             {| maxIterations := maxIterations (agentOf a (proc s));
                iterations := iterations (agentOf a (proc s)) + 1;
                lastSummary := Some (summarizeContent text None) |}
        /\ (forall b, b <> a -> agentOf b (proc s') = agentOf b (proc s))).
Proof.
  unfold agentTurn.
  destruct (pendingTrigger a s) as [trigger|] eqn:Hp; [right|left; tauto].
  unfold pendingTrigger in Hp.
  destruct (findTrigger a (proc s) (board s) (blackboard s)) as [t|] eqn:Hf;
    [|discriminate].
  destruct (Nat.leb_spec (maxIterations (agentOf a (proc s)))
              (iterations (agentOf a (proc s)))) as [|Hlt]; [discriminate|].
  injection Hp as ->.
  destruct (act_spec a trigger (board s) (blackboard s)
              (incrIterations a (proc s))) as (usr & Hm & Hid & Hself & Hothers).
  cbv zeta in Hm, Hid, Hself, Hothers.
  unfold incrIterations in Hm, Hid, Hself, Hothers.
  rewrite nextId_setAgent in Hm, Hid, Hself.
  rewrite agentOf_setAgent_same in Hself. cbn [maxIterations iterations] in Hself.
  unfold actAndPost, incrIterations.
  destruct (act a trigger (board s) (blackboard s) _) as [m p'].
  cbn [fst snd] in Hm, Hid, Hself, Hothers.
  exists trigger, m, usr. cbv zeta.
  cbn [proc board blackboard idleCycles progressedThisCycle].
  do 10 (split; [first [reflexivity | assumption | congruence]|]).
  intros b Hb. rewrite (Hothers b Hb). now apply agentOf_setAgent_other.
Qed.

(** ** Invariants of a run *)

Section RunInvariant.

Variable I : RunState -> Prop.
Hypothesis I_stable : forall s s', sameData s s' -> I s -> I s'.
Hypothesis I_turn : forall a s, I s -> I (agentTurn a s).

Lemma forAgents_invariant (l : list AgentName) (s : RunState) :
  I s ->
  I (fst (forAgents l s))
  /\ Forall I (map turn_after (snd (forAgents l s))).
Proof.
  revert s. induction l as [|a rest IH]; intros s Hs; simpl.
  - split; [assumption|constructor].
  - specialize (IH (agentTurn a s) (I_turn a Hs)).
    destruct (forAgents rest (agentTurn a s)) as [sf turns].
    simpl in *. destruct IH as [IH1 IH2].
    split; [assumption|]. constructor; [now apply I_turn|assumption].
Qed.

Lemma pollCycle_invariant (cycle : nat) (s : RunState) :
  I s ->
  I (fst (fst (pollCycle cycle s)))
  /\ Forall I (map turn_after (snd (fst (pollCycle cycle s)))).
Proof.
  intros Hs. unfold pollCycle.
  assert (I (beginCycle cycle s)) as H0
    by (apply (I_stable (s:=s)); [repeat split|assumption]).
  destruct (forAgents_invariant agents H0) as [H1 H2].
  destruct (forAgents agents (beginCycle cycle s)) as [s1 turns].
  simpl in H1, H2. unfold endCycle.
  destruct (negb (progressedThisCycle s1));
    [match goal with |- context [if ?c then _ else _] => destruct c end|];
    simpl; (split; [|assumption]);
    apply (I_stable (s:=s1)); try assumption; repeat split.
Qed.

Lemma forCycles_invariant (cs : list nat) (s : RunState) :
  I s ->
  I (final (forCycles cs s))
  /\ Forall I (map turn_after (concat (cycles (forCycles cs s)))).
Proof.
  revert s. induction cs as [|c rest IH]; intros s Hs; simpl.
  - split; [assumption|constructor].
  - destruct (pollCycle_invariant c Hs) as [H1 H2].
    destruct (pollCycle c s) as [[s' turns] brk]. simpl in H1, H2.
    destruct brk; simpl.
    + rewrite app_nil_r. tauto.
    + destruct (IH s' H1) as [H3 H4]. split; [assumption|].
      rewrite map_app. apply Forall_app. tauto.
Qed.

(** An invariant that holds of the seeded state holds at every point of
    the run and of the state the poll loop ends in. *)
Lemma pipeline_invariant (initialRequest : jsstring) (p : Process) :
  I (seed initialRequest p) ->
  Forall I (pipelinePoints initialRequest p)
  /\ I (final (pipelineOutcome initialRequest p)).
Proof.
  intros Hs.
  destruct (forCycles_invariant (seq 1 MAX_GLOBAL_CYCLES) Hs) as [H1 H2].
  split; [constructor|]; assumption.
Qed.

End RunInvariant.

(** ** The blackboard is the index of the board *)

Lemma MessageKind_eqb_eq (a b : MessageKind) :
  MessageKind_eqb a b = true <-> a = b.
Proof. destruct a, b; simpl; split; congruence. Qed.

Lemma MessageKind_eqb_refl (a : MessageKind) : MessageKind_eqb a a = true.
Proof. now apply MessageKind_eqb_eq. Qed.

Lemma MessageKind_eqb_neq (a b : MessageKind) :
  a <> b -> MessageKind_eqb a b = false.
Proof.
  intros H. destruct (MessageKind_eqb a b) eqn:E; [|reflexivity].
  apply MessageKind_eqb_eq in E. contradiction.
Qed.

Lemma AgentName_eqb_eq (a b : AgentName) :
  AgentName_eqb a b = true <-> a = b.
Proof. destruct a, b; simpl; split; congruence. Qed.

Lemma AgentName_eq_dec (a b : AgentName) : {a = b} + {a <> b}.
Proof. decide equality. Defined.

Lemma highestOfKind_snoc (k : MessageKind) (board : list BoardMessage)
  (m : BoardMessage) :
  highestOfKind k (board ++ [m]) =
  if MessageKind_eqb (kind m) k then higher (highestOfKind k board) m
  else highestOfKind k board.
Proof. unfold highestOfKind. now rewrite fold_left_app. Qed.

Lemma highestOfKind_In (k : MessageKind) (board : list BoardMessage)
  (x : BoardMessage) :
  highestOfKind k board = Some x -> In x board /\ kind x = k.
Proof.
  induction board as [|m board IH] using rev_ind; [discriminate|].
  rewrite highestOfKind_snoc.
  destruct (MessageKind_eqb (kind m) k) eqn:E.
  - apply MessageKind_eqb_eq in E. unfold higher.
    destruct (highestOfKind k board) as [b|].
    + destruct (id b <? id m); intros [= <-].
      * split; [apply in_or_app; right; now left|assumption].
      * destruct (IH eq_refl). split; [apply in_or_app; now left|assumption].
    + intros [= <-]. split; [apply in_or_app; right; now left|assumption].
  - intros H. destruct (IH H). split; [apply in_or_app; now left|assumption].
Qed.

(** [highestOfKind] does find a message of the kind with the greatest
    id, when there is a message of the kind. *)
Lemma highestOfKind_highest (k : MessageKind) (board : list BoardMessage)
  (m : BoardMessage) :
  In m board -> kind m = k ->
  exists x, highestOfKind k board = Some x /\ id m <= id x.
Proof.
  induction board as [|y board IH] using rev_ind; [contradiction|].
  intros Hin Hk. rewrite highestOfKind_snoc.
  apply in_app_or in Hin. destruct Hin as [Hin|[->|[]]].
  - destruct (IH Hin Hk) as (x & Hx & Hle). rewrite Hx.
    destruct (MessageKind_eqb (kind y) k); [|eauto].
    simpl. destruct (Nat.ltb_spec (id x) (id y)); eexists; split;
      try reflexivity; lia.
  - rewrite Hk, MessageKind_eqb_refl. unfold higher.
    destruct (highestOfKind k board) as [b|]; [|eauto].
    destruct (Nat.ltb_spec (id b) (id m)); eexists; split;
      try reflexivity; lia.
Qed.

Lemma highestOfKind_None (k : MessageKind) (board : list BoardMessage) :
  highestOfKind k board = None <->
  (forall m, In m board -> kind m <> k).
Proof.
  split.
  - intros H m Hin Hk.
    destruct (highestOfKind_highest board m Hin Hk) as (x & Hx & _).
    congruence.
  - intros H. destruct (highestOfKind k board) as [x|] eqn:E; [|reflexivity].
    apply highestOfKind_In in E. destruct E as [Hin Hk].
    elim (H x Hin Hk).
Qed.

Lemma lookup_updateBlackboard (blackboard : BlackboardState)
  (m : BoardMessage) (k : MessageKind) :
  lookup (updateBlackboard blackboard m) k =
  if MessageKind_eqb k (kind m)
     && negb (MessageKind_eqb (kind m) feature_request)
  then Some m
  else lookup blackboard k.
Proof.
  unfold updateBlackboard. destruct (kind m), k; reflexivity.
Qed.

Lemma outputKind_not_request (a : AgentName) :
  outputKind a <> feature_request.
Proof. destruct a; discriminate. Qed.

Lemma indexed_stable (s s' : RunState) : sameData s s' -> indexed s -> indexed s'.
Proof.
  intros (Hb & Hbb & Hn & _) [H1 H2]. unfold indexed.
  rewrite Hb, Hbb, Hn. tauto.
Qed.

Lemma indexed_turn (a : AgentName) (s : RunState) :
  indexed s -> indexed (agentTurn a s).
Proof.
  intros [Hids Hidx].
  destruct (agentTurn_cases a s) as [[_ ->]|H]; [split; assumption|].
  destruct H as (t & m & usr & H). cbv zeta in H.
  destruct H as (_ & _ & _ & Hm & Hb & Hbb & _ & _ & Hn & _).
  assert (id m = nextId (proc s)) as Hid by (rewrite Hm; reflexivity).
  assert (kind m = outputKind a) as Hk by (rewrite Hm; reflexivity).
  split; rewrite Hb.
  - intros x Hx. rewrite Hn. apply in_app_or in Hx.
    destruct Hx as [Hx|[<-|[]]]; [apply Hids in Hx|]; lia.
  - intros k. rewrite Hbb, lookup_updateBlackboard, highestOfKind_snoc.
    rewrite (MessageKind_eqb_neq (a:=kind m)), andb_true_r
      by (rewrite Hk; apply outputKind_not_request).
    destruct (MessageKind_eqb k (kind m)) eqn:E.
    + apply MessageKind_eqb_eq in E. subst k.
      rewrite MessageKind_eqb_refl. unfold higher.
      destruct (highestOfKind (kind m) (board s)) as [b|] eqn:Eb;
        [|reflexivity].
      apply highestOfKind_In in Eb. destruct Eb as [Eb _].
      apply Hids in Eb.
      destruct (Nat.ltb_spec (id b) (id m)); [reflexivity|lia].
    + rewrite MessageKind_eqb_neq.
      * apply Hidx.
      * intros <-. now rewrite MessageKind_eqb_refl in E.
Qed.

Lemma indexed_seed (initialRequest : jsstring) (p : Process) :
  indexed (seed initialRequest p).
Proof.
  split.
  - intros m [<-|[]]. simpl. lia.
  - intros [| | |]; reflexivity.
Qed.

(** C2.  At every point of a run (after the seeding of the board and
    after each turn of an agent, that is after each message posted and
    the blackboard update that follows it) and for every kind of message,
    the blackboard entry of the kind is the message of that kind with the
    highest id that a scan of the whole board finds, and it is absent
    exactly when the board has no message of that kind. *)
Theorem blackboard_is_index_of_board
  (initialRequest : jsstring) (p : Process) (s : RunState)
  (k : MessageKind) :
  In s (pipelinePoints initialRequest p) ->
  lookup (blackboard s) k = highestOfKind k (board s)
  /\ (forall m, In m (board s) -> kind m = k ->
        exists x, lookup (blackboard s) k = Some x /\ In x (board s)
                  /\ kind x = k /\ id m <= id x)
  /\ (lookup (blackboard s) k = None <->
      forall m, In m (board s) -> kind m <> k).
Proof.
  intros Hs.
  destruct (@pipeline_invariant indexed indexed_stable indexed_turn
              initialRequest p (indexed_seed initialRequest p)) as [Hall _].
  rewrite Forall_forall in Hall. destruct (Hall s Hs) as [_ Hidx].
  rewrite Hidx. split; [reflexivity|split].
  - intros m Hin Hk.
    destruct (highestOfKind_highest (board s) m Hin Hk) as (x & Hx & Hle).
    exists x. destruct (highestOfKind_In _ _ Hx). tauto.
  - apply highestOfKind_None.
Qed.

(** During a run the id counter is above every id on the board, so the
    message an act returns, which takes its id from the counter, has an
    id above that of the entry it replaces on the blackboard. *)
Lemma board_ids_below_counter
  (initialRequest : jsstring) (p : Process) (s : RunState)
  (m : BoardMessage) :
  In s (pipelinePoints initialRequest p) ->
  In m (board s) -> id m < nextId (proc s).
Proof.
  intros Hs Hm.
  destruct (@pipeline_invariant indexed indexed_stable indexed_turn
              initialRequest p (indexed_seed initialRequest p)) as [Hall _].
  rewrite Forall_forall in Hall. destruct (Hall s Hs) as [Hids _].
  now apply Hids.
Qed.

(** ** Iteration budgets *)

Lemma messagesBy_snoc (a : AgentName) (board : list BoardMessage)
  (m : BoardMessage) :
  messagesBy a (board ++ [m]) =
  messagesBy a board
  ++ (if Author_eqb (author m) (agent a) then [m] else []).
Proof. unfold messagesBy. now rewrite filter_app. Qed.

Lemma AgentName_eqb_refl (a : AgentName) : AgentName_eqb a a = true.
Proof. now destruct a. Qed.

Lemma AgentName_eqb_neq (a b : AgentName) :
  a <> b -> AgentName_eqb a b = false.
Proof.
  intros H. destruct (AgentName_eqb a b) eqn:E; [|reflexivity].
  apply AgentName_eqb_eq in E. contradiction.
Qed.

Lemma budgeted_stable (p0 : Process) (s s' : RunState) :
  sameData s s' -> budgeted p0 s -> budgeted p0 s'.
Proof.
  intros (Hb & _ & _ & Ha) H a. rewrite Hb, Ha. apply H.
Qed.

Lemma budgeted_turn (p0 : Process) (b : AgentName) (s : RunState) :
  budgeted p0 s -> budgeted p0 (agentTurn b s).
Proof.
  intros H.
  destruct (agentTurn_cases b s) as [[_ ->]|Hact]; [assumption|].
  destruct Hact as (t & m & usr & Hact). cbv zeta in Hact.
  destruct Hact as (_ & _ & Hlt & Hm & Hb & _ & _ & _ & _ & Hself & Hoth).
  assert (author m = agent b) as Hau by (rewrite Hm; reflexivity).
  intros a. destruct (H a) as (H1 & H2 & H3).
  rewrite Hb, messagesBy_snoc, Hau. simpl Author_eqb.
  destruct (AgentName_eq_dec a b) as [->|Hne].
  - rewrite Hself, AgentName_eqb_refl, length_app. simpl.
    repeat split; lia.
  - rewrite (Hoth a Hne), AgentName_eqb_neq, app_nil_r by congruence.
    tauto.
Qed.

Lemma agentOf_write (a : AgentName) (text : jsstring) (p : Process) :
  agentOf a (write text p) = agentOf a p.
Proof. now destruct a. Qed.

Lemma budgeted_seed (initialRequest : jsstring) (p : Process) :
  budgeted p (seed initialRequest p).
Proof.
  intros a. unfold seed, createMessage.
  cbn [proc board]. rewrite agentOf_write.
  destruct a; simpl; repeat split; try lia; now left.
Qed.

Lemma budgeted_points (initialRequest : jsstring) (p : Process) :
  Forall (budgeted p) (pipelinePoints initialRequest p)
  /\ budgeted p (final (pipelineOutcome initialRequest p)).
Proof.
  apply pipeline_invariant.
  - apply budgeted_stable.
  - intros a s. apply budgeted_turn.
  - apply budgeted_seed.
Qed.

(** The iteration count of an agent grows by one with each message the
    agent posts, and changes in no other way during a run. *)
Lemma iterations_count_messages
  (initialRequest : jsstring) (p : Process) (s : RunState)
  (a : AgentName) :
  In s (pipelinePoints initialRequest p) ->
  iterations (agentOf a (proc s)) =
  iterations (agentOf a p) + length (messagesBy a (board s)).
Proof.
  intros Hs. destruct (budgeted_points initialRequest p) as [Hall _].
  rewrite Forall_forall in Hall. apply (Hall s Hs a).
Qed.

Lemma agentOf_report (a : AgentName) (board : list BoardMessage)
  (p : Process) :
  agentOf a (report board p) = agentOf a p.
Proof.
  unfold report. rewrite agentOf_write.
  unfold agentNames. simpl fold_left.
  now rewrite !agentOf_write.
Qed.

Lemma maxIterations_run (a : AgentName) (initialRequest : jsstring)
  (p : Process) :
  maxIterations (agentOf a (runMultiAgentPipeline initialRequest p))
  = maxIterations (agentOf a p).
Proof.
  unfold runMultiAgentPipeline. rewrite agentOf_report.
  destruct (budgeted_points initialRequest p) as [_ H]. apply H.
Qed.

Lemma maxIterations_main (a : AgentName) (n : nat) :
  maxIterations (agentOf a (mainPasses n initialProcess))
  = MAX_AGENT_ITERATIONS.
Proof.
  enough (forall p, maxIterations (agentOf a p) = MAX_AGENT_ITERATIONS ->
                    maxIterations (agentOf a (mainPasses n p))
                    = MAX_AGENT_ITERATIONS) as H
    by (apply H; now destruct a).
  induction n as [|n IH]; intros p Hp; cbn [mainPasses]; [assumption|].
  unfold mainPass.
  destruct (length (trim main_input) =? 0); [now apply IH|].
  destruct (eqb _ _); [assumption|].
  apply IH. now rewrite maxIterations_run.
Qed.

(** C3.  At every point of a run, the number of messages on the board
    written by an agent is at most the iteration budget of the agent;
    in the runs [main] starts, that budget is [MAX_AGENT_ITERATIONS],
    which is 3. *)
Theorem messages_within_budget
  (initialRequest : jsstring) (p : Process) (s : RunState)
  (a : AgentName) :
  In s (pipelinePoints initialRequest p) ->
  length (messagesBy a (board s)) <= maxIterations (agentOf a p)
  /\ maxIterations (agentOf a (proc s)) = maxIterations (agentOf a p)
  /\ (forall n, p = mainPasses n initialProcess ->
        length (messagesBy a (board s)) <= MAX_AGENT_ITERATIONS
        /\ MAX_AGENT_ITERATIONS = 3).
Proof.
  intros Hs.
  destruct (budgeted_points initialRequest p) as [Hall _].
  rewrite Forall_forall in Hall.
  destruct (Hall s Hs a) as (H1 & H2 & H3).
  assert (length (messagesBy a (board s)) <= maxIterations (agentOf a p))
    as Hle by lia.
  split; [assumption|]. split; [assumption|].
  intros n ->. rewrite maxIterations_main in Hle. now split.
Qed.

(** ** A plan is never posted before a spec *)

Lemma ordered_stable (s s' : RunState) :
  sameData s s' -> ordered s -> ordered s'.
Proof.
  intros Hsame [H1 H2]. split; [now apply (indexed_stable Hsame)|].
  destruct Hsame as (-> & _). assumption.
Qed.

Lemma latestOfKind_on_board (s : RunState) (k : MessageKind)
  (u : BoardMessage) :
  indexed s ->
  latestOfKind (lookup (blackboard s) k) k (board s) = Some u ->
  In u (board s) /\ kind u = k.
Proof.
  intros [_ Hidx] H. unfold latestOfKind in H.
  destruct (lookup (blackboard s) k) as [x|] eqn:E.
  - injection H as ->. rewrite Hidx in E. now apply highestOfKind_In.
  - apply find_some in H. destruct H as [Hin Hk].
    apply in_rev in Hin. now apply MessageKind_eqb_eq in Hk.
Qed.

Lemma specFirst_snoc (board : list BoardMessage) (m : BoardMessage) :
  specFirst board ->
  (kind m = frontend_plan \/ kind m = backend_plan ->
   exists u, In u board /\ kind u = uiux_spec) ->
  specFirst (board ++ [m]).
Proof.
  intros Hb Hm pre x post Heq Hk.
  destruct post as [|y post'] using rev_ind.
  - apply app_inj_tail in Heq. destruct Heq as [-> ->]. auto.
  - clear IHpost'.
    change (pre ++ x :: post' ++ [y]) with (pre ++ (x :: post') ++ [y]) in Heq.
    rewrite app_assoc in Heq. apply app_inj_tail in Heq.
    destruct Heq as [Heq _]. eapply Hb; eassumption.
Qed.

Lemma ordered_turn (a : AgentName) (s : RunState) :
  ordered s -> ordered (agentTurn a s).
Proof.
  intros [Hi Hs]. split; [now apply indexed_turn|].
  destruct (agentTurn_cases a s) as [[_ ->]|Hact]; [assumption|].
  destruct Hact as (t & m & usr & Hact). cbv zeta in Hact.
  destruct Hact as (_ & Hf & _ & Hm & Hb & _).
  rewrite Hb. apply specFirst_snoc; [assumption|].
  assert (kind m = outputKind a) as Hk by (rewrite Hm; reflexivity).
  rewrite Hk. intros Hplan.
  assert (exists u,
            latestOfKind (lookup (blackboard s) uiux_spec) uiux_spec (board s)
            = Some u) as [u Hu].
  { destruct a; simpl in Hplan; [destruct Hplan; discriminate| |];
      unfold findTrigger, frontendAgent_findTrigger,
        backendAgent_findTrigger in Hf; simpl lookup;
      destruct (latestOfKind (uiuxSpec (blackboard s)) uiux_spec (board s))
        as [u|]; try discriminate; eauto. }
  exists u. now apply latestOfKind_on_board.
Qed.

Lemma ordered_seed (initialRequest : jsstring) (p : Process) :
  ordered (seed initialRequest p).
Proof.
  split; [apply indexed_seed|].
  intros pre m post Heq Hk. simpl in Heq.
  destruct pre as [|x [|y pre]]; try discriminate.
  injection Heq as <- _. simpl in Hk. destruct Hk; discriminate.
Qed.

(** C7.  At every point of a run, a frontend plan or a backend plan on
    the board has a UI/UX spec at a smaller position: no plan is posted
    before a spec is on the board. *)
Theorem plan_follows_spec
  (initialRequest : jsstring) (p : Process) (s : RunState)
  (pre : list BoardMessage) (m : BoardMessage) (post : list BoardMessage) :
  In s (pipelinePoints initialRequest p) ->
  board s = pre ++ m :: post ->
  kind m = frontend_plan \/ kind m = backend_plan ->
  exists u, In u pre /\ kind u = uiux_spec.
Proof.
  intros Hs Hb Hk.
  destruct (@pipeline_invariant ordered ordered_stable ordered_turn
              initialRequest p (ordered_seed initialRequest p)) as [Hall _].
  rewrite Forall_forall in Hall. destruct (Hall s Hs) as [_ Hord].
  eapply Hord; eassumption.
Qed.

(** ** The first cycle *)

Lemma forAgents_agents (s : RunState) :
  forAgents agents s =
  (agentTurn backend (agentTurn frontend (agentTurn uiux s)),
   [ {| turn_agent := uiux; turn_trigger := pendingTrigger uiux s;
        turn_after := agentTurn uiux s |};
     {| turn_agent := frontend;
        turn_trigger := pendingTrigger frontend (agentTurn uiux s);
        turn_after := agentTurn frontend (agentTurn uiux s) |};
     {| turn_agent := backend;
        turn_trigger :=
          pendingTrigger backend (agentTurn frontend (agentTurn uiux s));
        turn_after :=
          agentTurn backend (agentTurn frontend (agentTurn uiux s)) |} ]).
Proof. reflexivity. Qed.

(** First response: an agent that has budget left and nothing of its
    own on the board picks the cached message of its upstream kind. *)
Lemma pendingTrigger_first (a : AgentName) (s : RunState)
  (t : BoardMessage) :
  lookup (blackboard s) (upstreamKind a) = Some t ->
  ownMessages a (outputKind a) (board s) = [] ->
  iterations (agentOf a (proc s)) < maxIterations (agentOf a (proc s)) ->
  pendingTrigger a s = Some t.
Proof.
  intros Hup Hown Hlt. unfold pendingTrigger.
  assert (findTrigger a (proc s) (board s) (blackboard s) = Some t) as ->.
  { destruct a; simpl in Hup, Hown;
      unfold findTrigger, uiuxAgent_findTrigger, frontendAgent_findTrigger,
        backendAgent_findTrigger, latestOfKind;
      rewrite Hup, Hown; reflexivity. }
  destruct (Nat.leb_spec (maxIterations (agentOf a (proc s)))
              (iterations (agentOf a (proc s)))); [lia|reflexivity].
Qed.

Lemma seed_spec (initialRequest : jsstring) (p : Process) :
  exists f : BoardMessage,
    board (seed initialRequest p) = [f]
    /\ blackboard (seed initialRequest p) =
       {| featureRequest := Some f; uiuxSpec := None;
          frontendPlan := None; backendPlan := None |}
    /\ f = {| id := nextId p; author := user; kind := feature_request;
              content := trim initialRequest;
              createdAt := Date_now (nextId p) |}
    /\ idleCycles (seed initialRequest p) = 0
    /\ nextId (proc (seed initialRequest p)) = nextId p + 1
    /\ (forall a, agentOf a (proc (seed initialRequest p)) = agentOf a p).
Proof.
  eexists. do 5 (split; [reflexivity|]). intros []; reflexivity.
Qed.

Lemma beginCycle_spec (cycle : nat) (s : RunState) :
  sameData s (beginCycle cycle s)
  /\ idleCycles (beginCycle cycle s) = idleCycles s
  /\ progressedThisCycle (beginCycle cycle s) = false.
Proof.
  split; [|split; reflexivity].
  split; [reflexivity|]. split; [reflexivity|]. split; [reflexivity|].
  intros []; reflexivity.
Qed.

Lemma forCycles_cons (cycle : nat) (rest : list nat) (s : RunState) :
  forCycles (cycle :: rest) s =
  match pollCycle cycle s with
  | (s', turns, true) =>
      {| final := s'; stop := IdleStopped; cycles := [turns] |}
  | (s', turns, false) =>
      {| final := final (forCycles rest s');
         stop := stop (forCycles rest s');
         cycles := turns :: cycles (forCycles rest s') |}
  end.
Proof. reflexivity. Qed.

Lemma cycle_numbers : seq 1 MAX_GLOBAL_CYCLES = 1 :: seq 2 19.
Proof. reflexivity. Qed.

(** C1.  In a run of a process whose three agents have not acted yet
    and have a budget of at least one iteration each, the first poll
    cycle has three turns, in the order UI/UX, frontend, backend: the
    UI/UX agent acts on the feature request, the frontend and the
    backend agent act on the spec the UI/UX agent has just posted, and
    the board then holds exactly four messages: the request, the spec,
    the frontend plan and the backend plan. *)
Theorem first_cycle_cascade (initialRequest : jsstring) (p : Process) :
  (forall a, iterations (agentOf a p) = 0) ->
  (forall a, 1 <= maxIterations (agentOf a p)) ->
  exists (f u fp bp : BoardMessage) (t1 t2 t3 : Turn)
         (rest : list (list Turn)),
    board (seed initialRequest p) = [f]
    /\ cycles (pipelineOutcome initialRequest p) = [t1; t2; t3] :: rest
    /\ (turn_agent t1 = uiux /\ turn_trigger t1 = Some f
        /\ board (turn_after t1) = [f; u])
    /\ (turn_agent t2 = frontend /\ turn_trigger t2 = Some u
        /\ board (turn_after t2) = [f; u; fp])
    /\ (turn_agent t3 = backend /\ turn_trigger t3 = Some u
        /\ board (turn_after t3) = [f; u; fp; bp])
    /\ board (afterFirstCycle initialRequest p) = [f; u; fp; bp]
    /\ (author f = user /\ kind f = feature_request
        /\ content f = trim initialRequest)
    /\ (author u = agent uiux /\ kind u = uiux_spec)
    /\ (author fp = agent frontend /\ kind fp = frontend_plan)
    /\ (author bp = agent backend /\ kind bp = backend_plan).
Proof.
  intros Hfresh Hbudget.
  assert (forall a, iterations (agentOf a p) < maxIterations (agentOf a p))
    as Hlt by (intros a; rewrite Hfresh; apply Hbudget).
  destruct (seed_spec initialRequest p)
    as (f & Hbs & Hbbs & Hf & _ & _ & Has).
  remember (seed initialRequest p) as sd eqn:Esd.
  destruct (beginCycle_spec 1 sd) as ((Hb0 & Hbb0 & _ & Ha0) & _ & _).
  remember (beginCycle 1 sd) as s0 eqn:Es0.
  rewrite Hbs in Hb0. rewrite Hbbs in Hbb0.
  assert (author f = user) as Hfa by (rewrite Hf; reflexivity).
  (* the UI/UX agent *)
  assert (pendingTrigger uiux s0 = Some f) as P1.
  { apply pendingTrigger_first.
    - rewrite Hbb0. reflexivity.
    - rewrite Hb0. unfold ownMessages. cbn [filter]. rewrite Hfa.
      reflexivity.
    - rewrite Ha0, Has. apply Hlt. }
  destruct (agentTurn_cases uiux s0) as [[E _]|(x & u & usr1 & H1)];
    [congruence|].
  cbv zeta in H1.
  destruct H1 as (_ & _ & _ & Hu & Hb1 & Hbb1 & _ & _ & _ & _ & Ha1).
  remember (agentTurn uiux s0) as s1 eqn:Es1.
  assert (author u = agent uiux /\ kind u = uiux_spec) as [Hua Huk]
    by (rewrite Hu; split; reflexivity).
  rewrite Hb0 in Hb1. rewrite Hbb0 in Hbb1.
  unfold updateBlackboard in Hbb1. rewrite Huk in Hbb1.
  cbn [featureRequest uiuxSpec frontendPlan backendPlan app] in Hb1, Hbb1.
  (* the frontend agent *)
  assert (pendingTrigger frontend s1 = Some u) as P2.
  { apply pendingTrigger_first.
    - rewrite Hbb1. reflexivity.
    - rewrite Hb1. unfold ownMessages. cbn [filter]. rewrite Hfa, Hua.
      reflexivity.
    - rewrite Ha1, Ha0, Has by discriminate. apply Hlt. }
  destruct (agentTurn_cases frontend s1) as [[E _]|(x2 & fp & usr2 & H2)];
    [congruence|].
  cbv zeta in H2.
  destruct H2 as (_ & _ & _ & Hfp & Hb2 & Hbb2 & _ & _ & _ & _ & Ha2).
  remember (agentTurn frontend s1) as s2 eqn:Es2.
  assert (author fp = agent frontend /\ kind fp = frontend_plan)
    as [Hfpa Hfpk] by (rewrite Hfp; split; reflexivity).
  rewrite Hb1 in Hb2. rewrite Hbb1 in Hbb2.
  unfold updateBlackboard in Hbb2. rewrite Hfpk in Hbb2.
  cbn [featureRequest uiuxSpec frontendPlan backendPlan app] in Hb2, Hbb2.
  (* the backend agent *)
  assert (pendingTrigger backend s2 = Some u) as P3.
  { apply pendingTrigger_first.
    - rewrite Hbb2. reflexivity.
    - rewrite Hb2. unfold ownMessages. cbn [filter].
      rewrite Hfa, Hua, Hfpa. reflexivity.
    - rewrite Ha2, Ha1, Ha0, Has by discriminate. apply Hlt. }
  destruct (agentTurn_cases backend s2) as [[E _]|(x3 & bp & usr3 & H3)];
    [congruence|].
  cbv zeta in H3.
  destruct H3 as (_ & _ & _ & Hbp & Hb3 & _ & _ & Hp3 & _).
  remember (agentTurn backend s2) as s3 eqn:Es3.
  assert (author bp = agent backend /\ kind bp = backend_plan)
    as [Hbpa Hbpk] by (rewrite Hbp; split; reflexivity).
  rewrite Hb2 in Hb3. cbn [app] in Hb3.
  (* the cycle *)
  assert (pollCycle 1 sd =
          ({| proc := proc s3; board := board s3;
              blackboard := blackboard s3; idleCycles := 0;
              progressedThisCycle := progressedThisCycle s3 |},
           [ {| turn_agent := uiux; turn_trigger := pendingTrigger uiux s0;
                turn_after := s1 |};
             {| turn_agent := frontend;
                turn_trigger := pendingTrigger frontend s1;
                turn_after := s2 |};
             {| turn_agent := backend;
                turn_trigger := pendingTrigger backend s2;
                turn_after := s3 |} ], false)) as Hcycle.
  { unfold pollCycle. rewrite <- Es0, forAgents_agents.
    rewrite <- Es1, <- Es2, <- Es3.
    unfold endCycle. rewrite Hp3. reflexivity. }
  exists f, u, fp, bp,
    {| turn_agent := uiux; turn_trigger := pendingTrigger uiux s0;
       turn_after := s1 |},
    {| turn_agent := frontend; turn_trigger := pendingTrigger frontend s1;
       turn_after := s2 |},
    {| turn_agent := backend; turn_trigger := pendingTrigger backend s2;
       turn_after := s3 |},
    (cycles (forCycles (seq 2 19)
       {| proc := proc s3; board := board s3; blackboard := blackboard s3;
          idleCycles := 0;
          progressedThisCycle := progressedThisCycle s3 |})).
  split; [exact Hbs|]. split.
  { unfold pipelineOutcome, pollLoop.
    rewrite cycle_numbers, forCycles_cons, <- Esd, Hcycle. reflexivity. }
  cbn [turn_agent turn_trigger turn_after].
  unfold afterFirstCycle. rewrite <- Esd, Hcycle. cbn [fst board].
  split; [split; [reflexivity|split; [exact P1|exact Hb1]]|].
  split; [split; [reflexivity|split; [exact P2|exact Hb2]]|].
  split; [split; [reflexivity|split; [exact P3|exact Hb3]]|].
  split; [exact Hb3|].
  split; [rewrite Hf; repeat split|].
  split; [split; [exact Hua|exact Huk]|].
  split; split; [exact Hfpa|exact Hfpk|exact Hbpa|exact Hbpk].
Qed.

(** ** Termination of the poll loop *)

Lemma agentTurn_progress (a : AgentName) (s : RunState) :
  idleCycles (agentTurn a s) = idleCycles s
  /\ progressedThisCycle (agentTurn a s) =
     progressedThisCycle s
     || match pendingTrigger a s with Some _ => true | None => false end.
Proof.
  destruct (agentTurn_cases a s) as [[-> ->]|(t & m & usr & H)].
  - now rewrite orb_false_r.
  - cbv zeta in H. destruct H as (-> & _ & _ & _ & _ & _ & -> & -> & _).
    now rewrite orb_true_r.
Qed.

Lemma forAgents_progress (l : list AgentName) (s : RunState) :
  idleCycles (fst (forAgents l s)) = idleCycles s
  /\ progressedThisCycle (fst (forAgents l s)) =
     progressedThisCycle s || negb (idleCycle (snd (forAgents l s))).
Proof.
  revert s. induction l as [|a rest IH]; intros s; cbn [forAgents].
  - simpl. now rewrite orb_false_r.
  - specialize (IH (agentTurn a s)).
    destruct (forAgents rest (agentTurn a s)) as [sf turns].
    cbn [fst snd] in *. destruct IH as [IH1 IH2].
    destruct (agentTurn_progress a s) as [H1 H2].
    rewrite IH1, IH2, H1, H2. split; [reflexivity|].
    unfold idleCycle. cbn [forallb]. unfold idleTurn at 2.
    cbn [turn_trigger].
    destruct (pendingTrigger a s); cbn [negb andb orb].
    + now rewrite !orb_true_r.
    + now rewrite orb_false_r.
Qed.

(** What one cycle does to the idle counter, and when it breaks out of
    the loop. *)
Lemma pollCycle_flags (cycle : nat) (s : RunState) :
  let s' := fst (fst (pollCycle cycle s)) in
  let turns := snd (fst (pollCycle cycle s)) in
  idleCycles s' = (if idleCycle turns then idleCycles s + 1 else 0)
  /\ snd (pollCycle cycle s) =
     idleCycle turns && (IDLE_THRESHOLD <=? idleCycles s + 1).
Proof.
  cbv zeta. unfold pollCycle.
  destruct (forAgents_progress agents (beginCycle cycle s)) as [H1 H2].
  destruct (beginCycle_spec cycle s) as (_ & Hi & Hp).
  rewrite Hi in H1. rewrite Hp in H2. cbn [orb] in H2.
  destruct (forAgents agents (beginCycle cycle s)) as [s1 turns].
  cbn [fst snd] in *. unfold endCycle. rewrite H2, negb_involutive.
  destruct (idleCycle turns) eqn:E; cbn [negb idleCycles].
  - rewrite H1.
    destruct (IDLE_THRESHOLD <=? idleCycles s + 1);
      cbn [fst snd writeRun idleCycles]; rewrite E; split; reflexivity.
  - cbn [fst snd idleCycles]. rewrite E. split; reflexivity.
Qed.

Lemma streak_snoc (start : nat) (idle : list bool) (b : bool) :
  streak start (idle ++ [b]) =
  if b then streak start idle + 1 else 0.
Proof. unfold streak. now rewrite fold_left_app. Qed.

Lemma streak_cons (start : nat) (b : bool) (idle : list bool) :
  streak start (b :: idle) = streak (if b then start + 1 else 0) idle.
Proof. reflexivity. Qed.

(** The counter is at least [k + 1] exactly when the last cycle was idle
    and the counter was at least [k] before it. *)
Lemma streak_last (idle : list bool) (k : nat) :
  k < streak 0 idle ->
  exists idle', idle = idle' ++ [true] /\ k <= streak 0 idle'.
Proof.
  destruct idle as [|b idle' _] using rev_ind; [simpl; lia|].
  rewrite streak_snoc. destruct b; [|lia].
  intros H. exists idle'. split; [reflexivity|lia].
Qed.

Lemma streak_three (idle : list bool) :
  IDLE_THRESHOLD <= streak 0 idle <->
  exists pre, idle = pre ++ [true; true; true].
Proof.
  unfold IDLE_THRESHOLD. split.
  - intros H.
    destruct (streak_last idle (k:=2)) as (l1 & -> & H1); [lia|].
    destruct (streak_last l1 (k:=1)) as (l2 & -> & H2); [lia|].
    destruct (streak_last l2 (k:=0)) as (l3 & -> & _); [lia|].
    exists l3. now rewrite <- !app_assoc.
  - intros [pre ->].
    change [true; true; true] with ([true] ++ [true] ++ [true]).
    rewrite !app_assoc, !streak_snoc. lia.
Qed.

(** The poll loop, in terms of which of its cycles were idle, for a loop
    that starts with the idle counter below the threshold. *)
Lemma forCycles_flags (cs : list nat) (s : RunState) :
  idleCycles s < IDLE_THRESHOLD ->
  let o := forCycles cs s in
  let idle := map idleCycle (cycles o) in
  length idle <= length cs
  /\ idleCycles (final o) = streak (idleCycles s) idle
  /\ (stop o = IdleStopped ->
      idle <> [] /\ streak (idleCycles s) idle = IDLE_THRESHOLD)
  /\ (stop o = CyclesExhausted ->
      length idle = length cs /\ streak (idleCycles s) idle < IDLE_THRESHOLD)
  /\ (forall pre post, idle = pre ++ post -> post <> [] ->
      streak (idleCycles s) pre < IDLE_THRESHOLD).
Proof.
  cbv zeta. revert s. induction cs as [|c rest IH]; intros s Hs.
  - cbn [forCycles final stop cycles map length streak fold_left].
    repeat split; try discriminate; try lia.
    intros pre post Heq Hne. destruct pre; [|discriminate].
    destruct post; [congruence|discriminate].
  - rewrite forCycles_cons.
    destruct (pollCycle_flags c s) as [Hi Hb]. cbv zeta in Hi, Hb.
    destruct (pollCycle c s) as [[s' turns] brk]. cbn [fst snd] in Hi, Hb.
    assert (forall (b : bool) (pre post : list bool),
              [b] = pre ++ post -> post <> [] -> pre = [])
      as Hone.
    { intros b pre post Heq Hne. destruct pre as [|x pre]; [reflexivity|].
      destruct pre; destruct post; try discriminate; congruence. }
    destruct brk.
    + cbn [final stop cycles map length].
      symmetry in Hb. apply andb_true_iff in Hb. destruct Hb as [Hb1 Hb2].
      apply Nat.leb_le in Hb2. rewrite Hb1 in Hi.
      rewrite streak_cons, Hb1. cbn [streak fold_left].
      assert (idleCycles s + 1 = IDLE_THRESHOLD) as E by lia.
      repeat split; try lia; try discriminate.
      intros pre post Heq Hne. rewrite (Hone _ pre post Heq Hne).
      cbn [streak fold_left]. lia.
    + cbn [final stop cycles map length].
      assert (idleCycles s' < IDLE_THRESHOLD) as Hs'.
      { rewrite Hi. symmetry in Hb. apply andb_false_iff in Hb.
        destruct (idleCycle turns); [|unfold IDLE_THRESHOLD; lia].
        destruct Hb as [Hb|Hb]; [discriminate|].
        apply Nat.leb_gt in Hb. lia. }
      destruct (IH s' Hs') as (H1 & H2 & H3 & H4 & H5).
      rewrite streak_cons. rewrite <- Hi.
      split; [lia|]. split; [assumption|].
      split; [intros E; split; [discriminate|now apply H3]|].
      split; [intros E; destruct (H4 E); split; [lia|assumption]|].
      intros pre post Heq Hne. destruct pre as [|x pre].
      * cbn [streak fold_left]. assumption.
      * injection Heq as Hx Heq. subst x. rewrite streak_cons, <- Hi.
        now apply (H5 pre post).
Qed.

(** C4.  The poll loop of a run ends after at least one and at most
    [MAX_GLOBAL_CYCLES] (20) cycles.  It ends idle-stopped exactly when
    the cycles it ran end with three idle cycles in a row (cycles in
    which no agent acted), the idle counter then being 3, and it stops
    at the first such cycle: the cycles before the last one never end
    with three idle cycles.  Otherwise it runs all 20 cycles. *)
Theorem poll_loop_terminates (initialRequest : jsstring) (p : Process) :
  let o := pipelineOutcome initialRequest p in
  let idle := map idleCycle (cycles o) in
  (1 <= length (cycles o) <= MAX_GLOBAL_CYCLES /\ MAX_GLOBAL_CYCLES = 20)
  /\ (stop o = IdleStopped <-> exists pre, idle = pre ++ [true; true; true])
  /\ (stop o = IdleStopped -> idleCycles (final o) = IDLE_THRESHOLD)
  /\ (stop o = CyclesExhausted -> length (cycles o) = MAX_GLOBAL_CYCLES)
  /\ (forall pre post, idle = pre ++ post -> post <> [] ->
      ~ exists pre', pre = pre' ++ [true; true; true]).
Proof.
  cbv zeta. unfold pipelineOutcome, pollLoop.
  destruct (seed_spec initialRequest p) as (_ & _ & _ & _ & H0 & _).
  remember (seed initialRequest p) as sd eqn:Esd.
  assert (idleCycles sd < IDLE_THRESHOLD) as Hlt
    by (rewrite H0; unfold IDLE_THRESHOLD; lia).
  destruct (forCycles_flags (seq 1 MAX_GLOBAL_CYCLES) sd Hlt)
    as (H1 & H2 & H3 & H4 & H5).
  cbv zeta in H3, H4, H5. rewrite H0 in H2, H3, H4, H5.
  rewrite length_map, length_seq in H1. rewrite length_map, length_seq in H4.
  remember (forCycles (seq 1 MAX_GLOBAL_CYCLES) sd) as o eqn:Eo.
  split; [split; [split; [|exact H1]|reflexivity]|].
  { destruct (stop o) eqn:E.
    - destruct (H3 eq_refl) as [Hne _].
      destruct (cycles o); [now elim Hne|simpl; lia].
    - destruct (H4 eq_refl) as [-> _]. unfold MAX_GLOBAL_CYCLES. lia. }
  split.
  { split.
    - intros E. apply streak_three. destruct (H3 E) as [_ ->]. lia.
    - intros Hex. apply streak_three in Hex.
      destruct (stop o); [reflexivity|].
      destruct (H4 eq_refl). lia. }
  split; [intros E; rewrite H2; now apply H3|].
  split; [intros E; now apply H4|].
  intros pre post Heq Hne Hex. apply streak_three in Hex.
  specialize (H5 pre post Heq Hne). lia.
Qed.

(** ** The closing report *)

Lemma summaryLine_write (name : AgentName) (board : list BoardMessage)
  (text : jsstring) (p : Process) :
  summaryLine name board (write text p) = summaryLine name board p.
Proof. unfold summaryLine. now rewrite agentOf_write. Qed.

(** The report prints two headings, one line for each agent, and an
    empty line. *)
Lemma report_stdout (board : list BoardMessage) (p : Process) :
  stdout (report board p) =
  stdout p
  ++ [ js "
[system] Multi-agent pipeline reached its stopping condition.

";
       js "[agent summaries]
";
       summaryLine uiux board p;
       summaryLine frontend board p;
       summaryLine backend board p;
       js "
" ].
Proof.
  unfold report, agentNames. cbn [fold_left].
  rewrite !summaryLine_write. unfold write. cbn [stdout].
  rewrite <- !app_assoc. reflexivity.
Qed.

Lemma summaryLine_no_summary (name : AgentName)
  (board : list BoardMessage) (p : Process) :
  lastSummary (agentOf name p) = Some [] ->
  summaryLine name board p = noOutputLine name.
Proof.
  intros H. unfold summaryLine, noSummary. rewrite H. cbn [length Nat.eqb].
  now rewrite orb_true_r.
Qed.

Lemma silent_stable (a : AgentName) (s s' : RunState) :
  sameData s s' -> silent a s -> silent a s'.
Proof.
  intros (Hb & _ & _ & Ha) H. unfold silent. now rewrite Hb, Ha.
Qed.

Lemma silent_turn (a b : AgentName) (s : RunState) :
  silent a s -> silent a (agentTurn b s).
Proof.
  intros H.
  destruct (agentTurn_cases b s) as [[_ ->]|Hact]; [assumption|].
  destruct Hact as (t & m & usr & Hact). cbv zeta in Hact.
  destruct Hact as (_ & _ & _ & Hm & Hb & _ & _ & _ & _ & Hself & Hoth).
  assert (author m = agent b) as Hau by (rewrite Hm; reflexivity).
  unfold silent. rewrite Hb, messagesBy_snoc, Hau. simpl Author_eqb.
  destruct (AgentName_eq_dec a b) as [<-|Hne].
  - rewrite AgentName_eqb_refl. intros pre m' Heq Hempty.
    apply app_inj_tail in Heq. destruct Heq as [_ <-].
    rewrite Hm in Hempty. cbn [content] in Hempty.
    rewrite Hself. cbn [lastSummary].
    now rewrite summarizeContent_trim_nil.
  - rewrite (Hoth a Hne), AgentName_eqb_neq, app_nil_r by congruence.
    exact H.
Qed.

Lemma silent_seed (a : AgentName) (initialRequest : jsstring)
  (p : Process) :
  silent a (seed initialRequest p).
Proof.
  intros pre m H. simpl in H. now destruct pre.
Qed.

(** C10 (as amended).  The text generated for an act has only blank
    lines exactly when the message the act returns has an empty
    content, and the summary [act] computes and stores for the agent is
    then the empty string.  And when, at the end of a run, the latest
    message of an agent on the board is such a message, the closing
    report prints the line [no output] for this agent, although the
    board holds a message of the agent. *)
Theorem blank_output_reported_as_no_output (a : AgentName) :
  (forall trigger board blackboard p,
     exists usr,
       let text :=
         concat (textStream (nextId p) (trim (systemPrompt a)) usr) in
       let m := fst (act a trigger board blackboard p) in
       let p' := snd (act a trigger board blackboard p) in
       content m = trim text
       /\ lastSummary (agentOf a p') = Some (summarizeContent text None)
       /\ (Forall (fun l => isBlank l = true) (split_nl text) <->
           content m = [])
       /\ (Forall (fun l => isBlank l = true) (split_nl text) ->
           summarizeContent text None = []
           /\ lastSummary (agentOf a p') = Some []))
  /\ (forall initialRequest p pre m,
        let s := final (pipelineOutcome initialRequest p) in
        messagesBy a (board s) = pre ++ [m] ->
        content m = [] ->
        lastSummary (agentOf a (proc s)) = Some []
        /\ summaryLine a (board s) (proc s) = noOutputLine a
        /\ exists before after,
             stdout (runMultiAgentPipeline initialRequest p) =
             stdout (proc s) ++ before ++ [noOutputLine a] ++ after).
Proof.
  split.
  - intros trigger board blackboard p.
    destruct (act_spec a trigger board blackboard p)
      as (usr & Hm & _ & Hself & _).
    cbv zeta in Hm, Hself. exists usr. cbv zeta.
    rewrite Hm, Hself. cbn [content lastSummary].
    split; [reflexivity|]. split; [reflexivity|]. split.
    + rewrite blank_lines. symmetry. apply trim_nil.
    + intros Hblank. rewrite summarizeContent_blank by assumption.
      split; reflexivity.
  - intros initialRequest p pre m. cbv zeta.
    destruct (@pipeline_invariant (silent a) (@silent_stable a)
                (@silent_turn a) initialRequest p
                (@silent_seed a initialRequest p)) as [_ Hfinal].
    unfold runMultiAgentPipeline.
    remember (final (pipelineOutcome initialRequest p)) as s eqn:Es.
    intros Hlast Hempty. specialize (Hfinal pre m Hlast Hempty).
    pose proof (fun name => summaryLine_no_summary name (board s) (proc s))
      as Hline.
    split; [assumption|]. split; [now apply Hline|].
    rewrite report_stdout.
    destruct a.
    + eexists [_; _], [_; _; _]. rewrite (Hline uiux Hfinal). reflexivity.
    + eexists [_; _; _], [_; _]. rewrite (Hline frontend Hfinal).
      reflexivity.
    + eexists [_; _; _; _], [_]. rewrite (Hline backend Hfinal).
      reflexivity.
Qed.

(** ** Iteration counts from one run to the next *)

(** An agent whose upstream message is cached and that has budget left
    does act: on the upstream message the first time, on its own latest
    message afterwards. *)
Lemma pendingTrigger_enabled (a : AgentName) (s : RunState) :
  lookup (blackboard s) (upstreamKind a) <> None ->
  iterations (agentOf a (proc s)) < maxIterations (agentOf a (proc s)) ->
  pendingTrigger a s <> None.
Proof.
  intros Hup Hlt. unfold pendingTrigger.
  destruct (Nat.leb_spec (maxIterations (agentOf a (proc s)))
              (iterations (agentOf a (proc s)))) as [|_]; [lia|].
  enough (findTrigger a (proc s) (board s) (blackboard s) <> None) as H
    by (destruct (findTrigger a (proc s) (board s) (blackboard s));
        congruence).
  assert (forall l : list BoardMessage,
            (if length l =? 0 then lookup (blackboard s) (upstreamKind a)
             else if maxIterations (agentOf a (proc s))
                     <=? iterations (agentOf a (proc s))
                  then None
                  else nth_error l (length l - 1)) <> None) as Hsel.
  { intros l. destruct (Nat.eqb_spec (length l) 0); [assumption|].
    destruct (Nat.leb_spec (maxIterations (agentOf a (proc s)))
                (iterations (agentOf a (proc s)))); [lia|].
    apply nth_error_Some. lia. }
  destruct a; cbn [upstreamKind lookup] in Hup, Hsel;
    unfold findTrigger, uiuxAgent_findTrigger, frontendAgent_findTrigger,
      backendAgent_findTrigger, latestOfKind.
  - destruct (featureRequest (blackboard s)); [apply Hsel|congruence].
  - destruct (uiuxSpec (blackboard s)); [apply Hsel|congruence].
  - destruct (uiuxSpec (blackboard s)); [apply Hsel|congruence].
Qed.

Lemma pendingTrigger_exhausted (a : AgentName) (s : RunState) :
  maxIterations (agentOf a (proc s)) <= iterations (agentOf a (proc s)) ->
  pendingTrigger a s = None.
Proof.
  intros H. unfold pendingTrigger.
  destruct (findTrigger a (proc s) (board s) (blackboard s));
    [|reflexivity].
  destruct (Nat.leb_spec (maxIterations (agentOf a (proc s)))
              (iterations (agentOf a (proc s)))); [reflexivity|lia].
Qed.

(** A turn of an agent that can act: what it leaves. *)
Lemma agentTurn_acts (a : AgentName) (s : RunState) :
  lookup (blackboard s) (upstreamKind a) <> None ->
  iterations (agentOf a (proc s)) < maxIterations (agentOf a (proc s)) ->
  let s' := agentTurn a s in
  progressedThisCycle s' = true
  /\ featureRequest (blackboard s') = featureRequest (blackboard s)
  /\ lookup (blackboard s') (outputKind a) <> None
  /\ (uiuxSpec (blackboard s) <> None -> uiuxSpec (blackboard s') <> None)
  /\ maxIterations (agentOf a (proc s')) = maxIterations (agentOf a (proc s))
  /\ iterations (agentOf a (proc s')) = iterations (agentOf a (proc s)) + 1
  /\ (forall b, b <> a -> agentOf b (proc s') = agentOf b (proc s)).
Proof.
  intros Hup Hlt. cbv zeta.
  pose proof (pendingTrigger_enabled a s Hup Hlt) as Hen.
  destruct (agentTurn_cases a s) as [[E _]|(t & m & usr & H)];
    [congruence|].
  cbv zeta in H.
  destruct H as (_ & _ & _ & Hm & _ & Hbb & _ & Hp & _ & Hself & Hoth).
  assert (kind m = outputKind a) as Hk by (rewrite Hm; reflexivity).
  rewrite Hbb, Hself. cbn [maxIterations iterations].
  split; [assumption|].
  unfold updateBlackboard. rewrite Hk.
  destruct a; cbn [outputKind lookup featureRequest uiuxSpec frontendPlan
                   backendPlan];
    repeat split; try assumption; try discriminate; try tauto.
Qed.

(** A cycle that starts with the feature request cached and budget left
    for every agent: every agent acts once and the loop goes on. *)
Lemma pollCycle_all_act (cycle : nat) (s : RunState) :
  featureRequest (blackboard s) <> None ->
  (forall a,
     iterations (agentOf a (proc s)) < maxIterations (agentOf a (proc s))) ->
  let s' := fst (fst (pollCycle cycle s)) in
  snd (pollCycle cycle s) = false
  /\ featureRequest (blackboard s') <> None
  /\ (forall a,
        maxIterations (agentOf a (proc s'))
        = maxIterations (agentOf a (proc s))
        /\ iterations (agentOf a (proc s'))
           = iterations (agentOf a (proc s)) + 1).
Proof.
  intros Hreq Hlt. cbv zeta. unfold pollCycle.
  destruct (beginCycle_spec cycle s) as ((_ & Hbb0 & _ & Ha0) & _ & _).
  rewrite forAgents_agents.
  remember (beginCycle cycle s) as s0 eqn:Es0.
  destruct (agentTurn_acts uiux s0) as (_ & F1 & U1 & _ & M1 & I1 & O1).
  { cbn [upstreamKind lookup]. now rewrite Hbb0. }
  { rewrite Ha0. apply Hlt. }
  remember (agentTurn uiux s0) as s1 eqn:Es1.
  cbn [outputKind lookup] in U1.
  destruct (agentTurn_acts frontend s1) as (_ & F2 & _ & U2 & M2 & I2 & O2).
  { exact U1. }
  { rewrite O1, Ha0 by discriminate. apply Hlt. }
  remember (agentTurn frontend s1) as s2 eqn:Es2.
  specialize (U2 U1).
  destruct (agentTurn_acts backend s2) as (P3 & F3 & _ & _ & M3 & I3 & O3).
  { exact U2. }
  { rewrite O2, O1, Ha0 by discriminate. apply Hlt. }
  remember (agentTurn backend s2) as s3 eqn:Es3.
  unfold endCycle. rewrite P3. cbn [negb fst snd blackboard proc].
  split; [reflexivity|]. split.
  - rewrite F3, F2, F1, Hbb0. exact Hreq.
  - intros [].
    + rewrite !O3, !O2, M1, I1, Ha0 by discriminate. split; reflexivity.
    + rewrite !O3, M2, I2, !O1, Ha0 by discriminate. split; reflexivity.
    + rewrite M3, I3, !O2, !O1, Ha0 by discriminate. split; reflexivity.
Qed.

Lemma frozen_stable (q : Process) (b : list BoardMessage)
  (s s' : RunState) :
  sameData s s' -> frozen q b s -> frozen q b s'.
Proof.
  intros (Hb & _ & _ & Ha) [H1 H2]. split.
  - intros a. now rewrite Ha.
  - now rewrite Hb.
Qed.

Lemma frozen_turn (q : Process) (b : list BoardMessage) :
  (forall a, maxIterations (agentOf a q) <= iterations (agentOf a q)) ->
  forall a s, frozen q b s -> frozen q b (agentTurn a s).
Proof.
  intros Hq a s [H1 H2]. unfold agentTurn.
  rewrite pendingTrigger_exhausted by (rewrite H1; apply Hq).
  now split.
Qed.

(** Once every agent has used up its budget, the poll loop changes
    neither the agents nor the board, and no agent acts. *)
Lemma forCycles_frozen (q : Process) (b : list BoardMessage)
  (cs : list nat) (s : RunState) :
  (forall a, maxIterations (agentOf a q) <= iterations (agentOf a q)) ->
  frozen q b s ->
  frozen q b (final (forCycles cs s))
  /\ Forall (fun s' => frozen q b s' )
       (map turn_after (concat (cycles (forCycles cs s)))).
Proof.
  intros Hq Hs.
  apply (@forCycles_invariant (frozen q b) (@frozen_stable q b)
           (@frozen_turn q b Hq) cs s Hs).
Qed.

Lemma mainPass_runs (p : Process) :
  mainPass p = Some (runMultiAgentPipeline (trim main_input) p).
Proof. reflexivity. Qed.

Lemma pipelineOutcome_eq (initialRequest : jsstring) (p : Process) :
  pipelineOutcome initialRequest p =
  forCycles (seq 1 MAX_GLOBAL_CYCLES) (seed initialRequest p).
Proof. reflexivity. Qed.

Lemma pipelinePoints_eq (initialRequest : jsstring) (p : Process) :
  pipelinePoints initialRequest p =
  seed initialRequest p
  :: map turn_after (concat (cycles (pipelineOutcome initialRequest p))).
Proof. reflexivity. Qed.

Lemma mainPasses_1 (p : Process) :
  mainPasses 1 p = runMultiAgentPipeline (trim main_input) p.
Proof. cbn [mainPasses]. rewrite mainPass_runs. reflexivity. Qed.

Lemma mainPasses_2 (p : Process) :
  mainPasses 2 p =
  runMultiAgentPipeline (trim main_input)
    (runMultiAgentPipeline (trim main_input) p).
Proof. cbn [mainPasses]. rewrite !mainPass_runs. reflexivity. Qed.

Lemma forCycles_continue (cycle : nat) (rest : list nat) (s : RunState) :
  snd (pollCycle cycle s) = false ->
  final (forCycles (cycle :: rest) s) =
  final (forCycles rest (fst (fst (pollCycle cycle s)))).
Proof.
  intros H. rewrite forCycles_cons.
  destruct (pollCycle cycle s) as [[s' turns] brk].
  cbn [snd] in H. subst brk. reflexivity.
Qed.

Lemma cycle_numbers_3 :
  seq 1 MAX_GLOBAL_CYCLES = 1 :: 2 :: 3 :: seq 4 17.
Proof. reflexivity. Qed.

(** A run of a process in which every agent has a budget of three
    iterations and has used none of it leaves every agent with three
    iterations counted. *)
Lemma first_run_spends_budgets (initialRequest : jsstring) (p : Process) :
  (forall a, maxIterations (agentOf a p) = 3
             /\ iterations (agentOf a p) = 0) ->
  forall a,
    maxIterations (agentOf a (runMultiAgentPipeline initialRequest p)) = 3
    /\ iterations (agentOf a (runMultiAgentPipeline initialRequest p)) = 3.
Proof.
  intros Hp. unfold runMultiAgentPipeline. rewrite pipelineOutcome_eq.
  destruct (seed_spec initialRequest p) as (f & _ & Hbb & _ & _ & _ & Ha).
  remember (seed initialRequest p) as s0 eqn:Es0.
  assert (featureRequest (blackboard s0) <> None) as R0
    by (rewrite Hbb; discriminate).
  assert (forall a, maxIterations (agentOf a (proc s0)) = 3
                    /\ iterations (agentOf a (proc s0)) = 0) as A0
    by (intros a; rewrite Ha; apply Hp).
  clear Hbb Ha Es0 Hp f.
  rewrite cycle_numbers_3.
  (* three cycles in which every agent acts *)
  destruct (pollCycle_all_act 1 s0 R0) as (B1 & R1 & A1).
  { intros a. destruct (A0 a). lia. }
  rewrite (@forCycles_continue _ _ _ B1).
  remember (fst (fst (pollCycle 1 s0))) as s1 eqn:Es1.
  destruct (pollCycle_all_act 2 s1 R1) as (B2 & R2 & A2).
  { intros a. destruct (A0 a), (A1 a). lia. }
  rewrite (@forCycles_continue _ _ _ B2).
  remember (fst (fst (pollCycle 2 s1))) as s2 eqn:Es2.
  destruct (pollCycle_all_act 3 s2 R2) as (B3 & R3 & A3).
  { intros a. destruct (A0 a), (A1 a), (A2 a). lia. }
  rewrite (@forCycles_continue _ _ _ B3).
  remember (fst (fst (pollCycle 3 s2))) as s3 eqn:Es3.
  (* the budgets are spent: nothing changes any more *)
  assert (forall a, maxIterations (agentOf a (proc s3)) = 3
                    /\ iterations (agentOf a (proc s3)) = 3) as Hs3.
  { intros a. destruct (A0 a), (A1 a), (A2 a), (A3 a). lia. }
  destruct (@forCycles_frozen (proc s3) (board s3) (seq 4 17) s3)
    as [[Hfin _] _].
  { intros a. destruct (Hs3 a). lia. }
  { split; reflexivity. }
  intros a. rewrite agentOf_report, Hfin. apply Hs3.
Qed.

(** C5 (what the program does instead).  The iteration counts are not
    reset between the runs that [main] starts one after the other.
    After the first pass of the loop of [main], every agent has 3
    iterations counted, its whole budget; the second run therefore
    starts with counts of 3, not 0: no agent acts in it, its board never
    holds more than the feature request, and the counts stay 3. *)
Theorem iterations_not_reset_between_runs :
  let p1 := mainPasses 1 initialProcess in
  let run2 := pipelineOutcome (trim main_input) p1 in
  (forall a, iterations (agentOf a p1) = 3
             /\ maxIterations (agentOf a p1) = 3)
  /\ (forall s, In s (pipelinePoints (trim main_input) p1) ->
        board s = board (seed (trim main_input) p1)
        /\ length (board s) = 1
        /\ forall a, messagesBy a (board s) = []
                      /\ pendingTrigger a s = None)
  /\ (forall a, iterations (agentOf a (mainPasses 2 initialProcess)) = 3).
Proof.
  cbv zeta. rewrite mainPasses_1, mainPasses_2.
  pose proof (first_run_spends_budgets (trim main_input) initialProcess)
    as H1.
  remember (runMultiAgentPipeline (trim main_input) initialProcess)
    as p1 eqn:Ep1.
  assert (forall a, iterations (agentOf a p1) = 3
                    /\ maxIterations (agentOf a p1) = 3) as Hp1.
  { intros a. destruct (H1 (fun a => ltac:(destruct a; split; reflexivity)) a).
    split; assumption. }
  clear H1 Ep1.
  destruct (seed_spec (trim main_input) p1) as (f & Hb & _ & Hf & _ & _ & Ha).
  remember (seed (trim main_input) p1) as s0 eqn:Es0.
  assert (forall a, maxIterations (agentOf a (proc s0))
                    <= iterations (agentOf a (proc s0))) as Hq.
  { intros a. rewrite Ha. destruct (Hp1 a). lia. }
  destruct (@forCycles_frozen (proc s0) (board s0)
              (seq 1 MAX_GLOBAL_CYCLES) s0 Hq) as [[Hfin _] Hall].
  { split; reflexivity. }
  split; [exact Hp1|]. split.
  - intros s Hs.
    assert (frozen (proc s0) (board s0) s) as [Hs1 Hs2].
    { rewrite pipelinePoints_eq, pipelineOutcome_eq, <- Es0 in Hs.
      apply in_inv in Hs. destruct Hs as [<-|Hs]; [split; reflexivity|].
      rewrite Forall_forall in Hall. exact (Hall s Hs). }
    rewrite Hs2, Hb. split; [reflexivity|]. split; [reflexivity|].
    intros a. split.
    + unfold messagesBy. cbn [filter]. rewrite Hf. reflexivity.
    + apply pendingTrigger_exhausted. rewrite Hs1. apply Hq.
  - intros a. unfold runMultiAgentPipeline.
    rewrite agentOf_report, pipelineOutcome_eq, <- Es0, Hfin, Ha.
    apply Hp1.
Qed.

(** ** Ids *)

Lemma consecutiveIds_stable (p0 : Process) (s s' : RunState) :
  sameData s s' -> consecutiveIds p0 s -> consecutiveIds p0 s'.
Proof.
  intros (Hb & _ & Hn & _) [H1 H2]. unfold consecutiveIds.
  rewrite Hb, Hn. now split.
Qed.

Lemma consecutiveIds_turn (p0 : Process) (a : AgentName) (s : RunState) :
  consecutiveIds p0 s -> consecutiveIds p0 (agentTurn a s).
Proof.
  intros [H1 H2].
  destruct (agentTurn_cases a s) as [[_ ->]|H]; [now split|].
  destruct H as (t & m & usr & H). cbv zeta in H.
  destruct H as (_ & _ & _ & Hm & Hb & _ & _ & _ & Hn & _).
  assert (id m = nextId (proc s)) as Hid by (rewrite Hm; reflexivity).
  unfold consecutiveIds. rewrite Hb, Hn, map_app, length_app, seq_app, H1.
  cbn [map length seq]. rewrite Hid, H2. split; [reflexivity|lia].
Qed.

Lemma consecutiveIds_seed (initialRequest : jsstring) (p : Process) :
  consecutiveIds p (seed initialRequest p).
Proof. split; reflexivity. Qed.

Lemma consecutiveIds_run (initialRequest : jsstring) (p : Process) :
  Forall (consecutiveIds p) (pipelinePoints initialRequest p)
  /\ consecutiveIds p (final (pipelineOutcome initialRequest p)).
Proof.
  apply pipeline_invariant.
  - apply consecutiveIds_stable.
  - intros a s. apply consecutiveIds_turn.
  - apply consecutiveIds_seed.
Qed.

(** X1.  At every point of a run and in the state the poll loop ends
    in, the message at position [i] of the board has the id the counter
    had at the start of the run plus [i]: the ids are consecutive,
    strictly increasing along the board and without duplicates, and the
    counter stands one above the last id handed out. *)
Theorem board_ids_consecutive
  (initialRequest : jsstring) (p : Process) (s : RunState) :
  In s (pipelinePoints initialRequest p)
  \/ s = final (pipelineOutcome initialRequest p) ->
  (forall i m, nth_error (board s) i = Some m -> id m = nextId p + i)
  /\ (forall i j mi mj,
        nth_error (board s) i = Some mi -> nth_error (board s) j = Some mj ->
        i < j -> id mi < id mj)
  /\ NoDup (map id (board s))
  /\ nextId (proc s) = nextId p + length (board s).
Proof.
  intros Hs.
  assert (consecutiveIds p s) as [H1 H2].
  { destruct (consecutiveIds_run initialRequest p) as [Hall Hfin].
    destruct Hs as [Hs| ->]; [|exact Hfin].
    rewrite Forall_forall in Hall. exact (Hall s Hs). }
  assert (forall i m, nth_error (board s) i = Some m -> id m = nextId p + i)
    as Hnth.
  { intros i m Hi.
    pose proof (map_nth_error id i (board s) Hi) as Hmap.
    rewrite H1, nth_error_seq in Hmap.
    destruct (i <? length (board s)); congruence. }
  split; [exact Hnth|]. split.
  - intros i j mi mj Hi Hj Hlt.
    rewrite (Hnth i mi Hi), (Hnth j mj Hj). lia.
  - split; [rewrite H1; apply seq_NoDup|exact H2].
Qed.

(** ** A run only adds *)

Lemma grows_refl (s : RunState) : grows s s.
Proof.
  split; [exists []; now rewrite app_nil_r|].
  split; [lia|]. split; [reflexivity|]. intros a. split; [reflexivity|lia].
Qed.

Lemma grows_trans (s1 s2 s3 : RunState) :
  grows s1 s2 -> grows s2 s3 -> grows s1 s3.
Proof.
  intros ([m1 B1] & N1 & F1 & A1) ([m2 B2] & N2 & F2 & A2).
  split; [exists (m1 ++ m2); now rewrite B2, B1, app_assoc|].
  split; [lia|]. split; [congruence|].
  intros a. destruct (A1 a), (A2 a). split; [congruence|lia].
Qed.

Lemma grows_sameData (s s' : RunState) : sameData s s' -> grows s s'.
Proof.
  intros (Hb & Hbb & Hn & Ha).
  split; [exists []; now rewrite app_nil_r|].
  split; [lia|]. split; [now rewrite Hbb|].
  intros a. rewrite Ha. split; [reflexivity|lia].
Qed.

Lemma grows_turn (a : AgentName) (s : RunState) : grows s (agentTurn a s).
Proof.
  destruct (agentTurn_cases a s) as [[_ ->]|H]; [apply grows_refl|].
  destruct H as (t & m & usr & H). cbv zeta in H.
  destruct H as (_ & _ & _ & Hm & Hb & Hbb & _ & _ & Hn & Hself & Hoth).
  assert (kind m = outputKind a) as Hk by (rewrite Hm; reflexivity).
  split; [exists [m]; exact Hb|]. split; [lia|]. split.
  - rewrite Hbb. unfold updateBlackboard. rewrite Hk. now destruct a.
  - intros b. destruct (AgentName_eq_dec b a) as [->|Hne].
    + rewrite Hself. cbn [maxIterations iterations]. split; [reflexivity|lia].
    + rewrite (Hoth b Hne). split; [reflexivity|lia].
Qed.

Lemma ForallOrdPairs_app (A : Type) (R : A -> A -> Prop) (l1 l2 : list A) :
  ForallOrdPairs R l1 -> ForallOrdPairs R l2 ->
  (forall x y, In x l1 -> In y l2 -> R x y) ->
  ForallOrdPairs R (l1 ++ l2).
Proof.
  induction 1 as [|x l1 Hx Hl1 IH]; intros H2 Hcross; [assumption|].
  simpl. constructor.
  - apply Forall_app. split; [assumption|].
    apply Forall_forall. intros y Hy. apply Hcross; [now left|assumption].
  - apply IH; [assumption|]. intros x' y Hx' Hy.
    apply Hcross; [now right|assumption].
Qed.

Lemma ForallOrdPairs_nth (A : Type) (R : A -> A -> Prop) (l : list A)
  (i j : nat) (x y : A) :
  ForallOrdPairs R l ->
  nth_error l i = Some x -> nth_error l j = Some y -> i < j -> R x y.
Proof.
  intros H. revert i j. induction H as [|a l Ha Hl IH]; intros i j Hi Hj Hlt.
  - now destruct i.
  - destruct j as [|j]; [lia|]. destruct i as [|i]; simpl in Hi, Hj.
    + injection Hi as <-. rewrite Forall_forall in Ha.
      apply Ha. eapply nth_error_In; eassumption.
    + apply (IH i j); [assumption|assumption|lia].
Qed.

Lemma inOrder_nil (s s' : RunState) : grows s s' -> inOrder s [] s'.
Proof.
  intros H. split; [exact H|]. split; [constructor|]. split; constructor.
Qed.

Lemma inOrder_app (s1 s2 s3 : RunState) (l1 l2 : list RunState) :
  inOrder s1 l1 s2 -> inOrder s2 l2 s3 -> inOrder s1 (l1 ++ l2) s3.
Proof.
  intros (A1 & B1 & C1 & D1) (A2 & B2 & C2 & D2).
  rewrite Forall_forall in B1, C1, B2, C2.
  split; [eapply grows_trans; eassumption|]. split; [|split].
  - apply Forall_forall. intros x Hx. apply in_app_or in Hx.
    destruct Hx as [Hx|Hx]; [now apply B1|].
    eapply grows_trans; [exact A1|now apply B2].
  - apply Forall_forall. intros x Hx. apply in_app_or in Hx.
    destruct Hx as [Hx|Hx]; [|now apply C2].
    eapply grows_trans; [now apply C1|exact A2].
  - apply ForallOrdPairs_app; try assumption.
    intros x y Hx Hy. eapply grows_trans; [now apply C1|now apply B2].
Qed.

Lemma inOrder_start (s s' : RunState) (l : list RunState) (f : RunState) :
  grows s s' -> inOrder s' l f -> inOrder s l f.
Proof.
  intros H Hl.
  apply (@inOrder_app s s' f [] l); [now apply inOrder_nil|assumption].
Qed.

Lemma inOrder_end (s : RunState) (l : list RunState) (f f' : RunState) :
  inOrder s l f -> grows f f' -> inOrder s l f'.
Proof.
  intros Hl H. rewrite <- (app_nil_r l).
  apply (@inOrder_app s f f' l []); [assumption|now apply inOrder_nil].
Qed.

Lemma forAgents_inOrder (l : list AgentName) (s : RunState) :
  inOrder s (map turn_after (snd (forAgents l s))) (fst (forAgents l s)).
Proof.
  revert s. induction l as [|a rest IH]; intros s; cbn [forAgents].
  - apply inOrder_nil, grows_refl.
  - specialize (IH (agentTurn a s)).
    destruct (forAgents rest (agentTurn a s)) as [sf turns].
    cbn [fst snd map turn_after] in *.
    apply (@inOrder_app s (agentTurn a s) sf [agentTurn a s]
             (map turn_after turns)); [|assumption].
    pose proof (grows_turn a s) as Hg.
    split; [assumption|]. split; [now constructor|].
    split; [constructor; [apply grows_refl|constructor]|].
    constructor; constructor.
Qed.

Lemma endCycle_sameData (s : RunState) : sameData s (fst (endCycle s)).
Proof.
  unfold endCycle. destruct (negb (progressedThisCycle s));
    [match goal with |- context [if ?c then _ else _] => destruct c end|];
    cbn [fst]; repeat split.
Qed.

Lemma pollCycle_inOrder (cycle : nat) (s : RunState) :
  inOrder s (map turn_after (snd (fst (pollCycle cycle s))))
    (fst (fst (pollCycle cycle s))).
Proof.
  unfold pollCycle.
  destruct (beginCycle_spec cycle s) as (Hsame & _ & _).
  pose proof (forAgents_inOrder agents (beginCycle cycle s)) as H.
  destruct (forAgents agents (beginCycle cycle s)) as [s1 turns].
  cbn [fst snd] in H.
  pose proof (endCycle_sameData s1) as He.
  destruct (endCycle s1) as [s2 brk]. cbn [fst snd] in *.
  apply (inOrder_start (grows_sameData Hsame)).
  apply (inOrder_end H (grows_sameData He)).
Qed.

Lemma forCycles_inOrder (cs : list nat) (s : RunState) :
  inOrder s (map turn_after (concat (cycles (forCycles cs s))))
    (final (forCycles cs s)).
Proof.
  revert s. induction cs as [|c rest IH]; intros s.
  - cbn [forCycles cycles final concat map]. apply inOrder_nil, grows_refl.
  - rewrite forCycles_cons. pose proof (pollCycle_inOrder c s) as H.
    destruct (pollCycle c s) as [[s' turns] brk]. cbn [fst snd] in H.
    destruct brk; cbn [final cycles concat].
    + now rewrite app_nil_r.
    + rewrite map_app. eapply inOrder_app; [exact H|apply IH].
Qed.

(** X2.  Of two points of a run, the later has grown from the earlier:
    its board is the earlier board with messages appended (no message
    is removed, changed or moved), the id counter and every iteration
    count are at least what they were, and the budgets and the cached
    feature request are unchanged.  The state the poll loop ends in has
    grown from every point. *)
Theorem run_only_adds
  (initialRequest : jsstring) (p : Process) (i j : nat) (s s' : RunState) :
  nth_error (pipelinePoints initialRequest p) i = Some s ->
  nth_error (pipelinePoints initialRequest p) j = Some s' ->
  i <= j ->
  grows s s' /\ grows s' (final (pipelineOutcome initialRequest p)).
Proof.
  rewrite pipelinePoints_eq, pipelineOutcome_eq.
  pose proof (forCycles_inOrder (seq 1 MAX_GLOBAL_CYCLES)
                (seed initialRequest p)) as (A & B & C & D).
  remember (seed initialRequest p) as s0 eqn:E0.
  remember (forCycles (seq 1 MAX_GLOBAL_CYCLES) s0) as o eqn:Eo.
  remember (map turn_after (concat (cycles o))) as pts eqn:Ep.
  intros Hi Hj Hle.
  assert (ForallOrdPairs grows (s0 :: pts)) as Hall by now constructor.
  assert (Forall (fun x => grows x (final o)) (s0 :: pts)) as Hfin
    by now constructor.
  rewrite Forall_forall in Hfin. split.
  - destruct (Nat.eq_dec i j) as [->|Hne].
    + rewrite Hi in Hj. injection Hj as <-. apply grows_refl.
    + apply (ForallOrdPairs_nth (i:=i) (j:=j) Hall); [assumption..|lia].
  - apply Hfin. eapply nth_error_In. exact Hj.
Qed.

(** ** The blackboard is only a cache *)

Lemma find_snoc (A : Type) (f : A -> bool) (l : list A) (x : A) :
  find f (l ++ [x]) =
  match find f l with Some y => Some y | None => find f [x] end.
Proof.
  induction l as [|y l IH]; [reflexivity|].
  cbn [app find]. now destruct (f y).
Qed.

Lemma scanned_stable (s s' : RunState) :
  sameData s s' -> scanned s -> scanned s'.
Proof.
  intros (Hb & Hbb & _) H. unfold scanned. now rewrite Hb, Hbb.
Qed.

Lemma scanned_turn (a : AgentName) (s : RunState) :
  scanned s -> scanned (agentTurn a s).
Proof.
  intros [H1 H2].
  destruct (agentTurn_cases a s) as [[_ ->]|H]; [now split|].
  destruct H as (t & m & usr & H). cbv zeta in H.
  destruct H as (_ & _ & _ & Hm & Hb & Hbb & _).
  assert (kind m = outputKind a) as Hk by (rewrite Hm; reflexivity).
  assert (MessageKind_eqb (kind m) feature_request = false) as Hnr
    by (apply MessageKind_eqb_neq; rewrite Hk; apply outputKind_not_request).
  split.
  - intros k. rewrite Hb, Hbb, lookup_updateBlackboard, rev_app_distr.
    cbn [rev app find]. rewrite Hnr, andb_true_r.
    destruct (MessageKind_eqb k (kind m)) eqn:E.
    + apply MessageKind_eqb_eq in E. subst k.
      now rewrite MessageKind_eqb_refl.
    + rewrite MessageKind_eqb_neq; [apply H1|].
      intros <-. now rewrite MessageKind_eqb_refl in E.
  - rewrite Hb, Hbb.
    replace (featureRequest (updateBlackboard (blackboard s) m))
      with (featureRequest (blackboard s))
      by (unfold updateBlackboard; rewrite Hk; now destruct a).
    rewrite H2, find_snoc. cbn [find]. rewrite Hnr.
    now destruct (find _ (board s)).
Qed.

Lemma scanned_seed (initialRequest : jsstring) (p : Process) :
  scanned (seed initialRequest p).
Proof. split; [intros []; reflexivity|reflexivity]. Qed.

(** X3.  At every point of a run the blackboard only saves scans: each
    agent's [findTrigger] returns with the blackboard what it returns
    with an empty blackboard, where it scans the board instead, and
    [act] does with the blackboard what it does with an empty one. *)
Theorem blackboard_is_only_a_cache
  (initialRequest : jsstring) (p : Process) (s : RunState)
  (a : AgentName) :
  In s (pipelinePoints initialRequest p) ->
  (forall q,
     findTrigger a q (board s) (blackboard s)
     = findTrigger a q (board s) emptyBlackboard)
  /\ (forall trigger q,
        act a trigger (board s) (blackboard s) q
        = act a trigger (board s) emptyBlackboard q).
Proof.
  intros Hs.
  destruct (@pipeline_invariant scanned scanned_stable scanned_turn
              initialRequest p (scanned_seed initialRequest p)) as [Hall _].
  rewrite Forall_forall in Hall. destruct (Hall s Hs) as [H1 H2].
  assert (forall k,
            latestOfKind (lookup (blackboard s) k) k (board s)
            = latestOfKind None k (board s)) as Hlatest.
  { intros k. unfold latestOfKind.
    destruct (lookup (blackboard s) k) as [m|] eqn:E; [|reflexivity].
    now rewrite <- H1. }
  assert (firstOfKind (featureRequest (blackboard s)) feature_request (board s)
          = firstOfKind None feature_request (board s)) as Hfirst.
  { unfold firstOfKind.
    destruct (featureRequest (blackboard s)) as [m|] eqn:E; [|reflexivity].
    now rewrite <- H2. }
  split.
  - intros q. pose proof (Hlatest feature_request) as Hf.
    pose proof (Hlatest uiux_spec) as Hu. cbn [lookup] in Hf, Hu.
    destruct a; unfold findTrigger, uiuxAgent_findTrigger,
      frontendAgent_findTrigger, backendAgent_findTrigger;
      cbn [emptyBlackboard featureRequest uiuxSpec];
      rewrite ?Hf, ?Hu; reflexivity.
  - intros trigger q.
    destruct a; unfold act, uiuxAgent_act, frontendAgent_act,
      backendAgent_act; cbn [emptyBlackboard featureRequest];
      rewrite ?Hfirst; reflexivity.
Qed.

(** ** What a trigger is *)

Lemma findTrigger_cases (a : AgentName) (p : Process)
  (board : list BoardMessage) (blackboard : BlackboardState) :
  findTrigger a p board blackboard =
  match latestOfKind (lookup blackboard (upstreamKind a)) (upstreamKind a)
          board with
  | None => None
  | Some upstream =>
      let own := ownMessages a (outputKind a) board in
      if length own =? 0 then Some upstream
      else if maxIterations (agentOf a p) <=? iterations (agentOf a p)
           then None
           else nth_error own (length own - 1)
  end.
Proof. destruct a; reflexivity. Qed.

Lemma nth_error_last (A : Type) (l : list A) (x : A) :
  nth_error l (length l - 1) = Some x -> exists l', l = l' ++ [x].
Proof.
  destruct l as [|y l' _] using rev_ind; [discriminate|].
  rewrite length_app. cbn [length].
  replace (length l' + 1 - 1) with (length l') by lia.
  rewrite nth_error_app2, Nat.sub_diag by lia. cbn [nth_error].
  intros [= ->]. now exists l'.
Qed.

(** X4.  At every point of a run, the trigger an agent is about to act
    on is a message of the board.  Either the agent has nothing of its
    own on the board, and the trigger is the message of its upstream
    kind with the highest id; or the trigger is the latest message of
    the agent itself.  In both cases the agent has budget left. *)
Theorem trigger_is_on_the_board
  (initialRequest : jsstring) (p : Process) (s : RunState)
  (a : AgentName) (t : BoardMessage) :
  In s (pipelinePoints initialRequest p) ->
  pendingTrigger a s = Some t ->
  In t (board s)
  /\ iterations (agentOf a (proc s)) < maxIterations (agentOf a (proc s))
  /\ ((ownMessages a (outputKind a) (board s) = []
       /\ kind t = upstreamKind a
       /\ forall m, In m (board s) -> kind m = upstreamKind a ->
                    id m <= id t)
      \/ (exists earlier,
            ownMessages a (outputKind a) (board s) = earlier ++ [t]
            /\ author t = agent a /\ kind t = outputKind a)).
Proof.
  intros Hs Hp.
  destruct (@pipeline_invariant indexed indexed_stable indexed_turn
              initialRequest p (indexed_seed initialRequest p)) as [Hall _].
  rewrite Forall_forall in Hall. pose proof (Hall s Hs) as Hidx.
  unfold pendingTrigger in Hp. rewrite findTrigger_cases in Hp.
  destruct (latestOfKind (lookup (blackboard s) (upstreamKind a))
              (upstreamKind a) (board s)) as [u|] eqn:Eu; [|discriminate].
  cbv zeta in Hp.
  destruct (Nat.leb_spec (maxIterations (agentOf a (proc s)))
              (iterations (agentOf a (proc s)))) as [|Hlt].
  { destruct (length (ownMessages a (outputKind a) (board s)) =? 0);
      discriminate. }
  destruct (Nat.eqb_spec (length (ownMessages a (outputKind a) (board s))) 0)
    as [Hlen|Hlen].
  - injection Hp as <-.
    destruct (latestOfKind_on_board _ Hidx Eu) as [Hin Hk].
    split; [assumption|]. split; [assumption|]. left.
    split; [now apply length_zero_iff_nil|]. split; [assumption|].
    intros m Hm Hmk. destruct Hidx as [_ Hidx].
    destruct (highestOfKind_highest (board s) m Hm Hmk) as (x & Hx & Hle).
    unfold latestOfKind in Eu. rewrite Hidx, Hx in Eu. congruence.
  - destruct (nth_error (ownMessages a (outputKind a) (board s))
                (length (ownMessages a (outputKind a) (board s)) - 1))
      as [t'|] eqn:Hn; [|discriminate].
    injection Hp as ->.
    destruct (nth_error_last _ Hn) as [earlier He].
    assert (In t (ownMessages a (outputKind a) (board s))) as Hin
      by (rewrite He; apply in_or_app; right; now left).
    unfold ownMessages in Hin. apply filter_In in Hin.
    destruct Hin as [Hin Hf]. apply andb_true_iff in Hf.
    destruct Hf as [Hau Hk]. apply MessageKind_eqb_eq in Hk.
    split; [assumption|]. split; [assumption|]. right.
    exists earlier. split; [assumption|]. split; [|assumption].
    destruct (author t) as [|b]; [discriminate|].
    simpl in Hau. apply AgentName_eqb_eq in Hau. now subst b.
Qed.

(** ** When agents act *)

Lemma pendingTrigger_sameData (a : AgentName) (s s' : RunState) :
  sameData s s' -> pendingTrigger a s' = pendingTrigger a s.
Proof.
  intros (Hb & Hbb & _ & Ha). unfold pendingTrigger.
  rewrite !findTrigger_cases, Hb, Hbb, Ha. reflexivity.
Qed.

(** A turn of an agent whose upstream message is cached: the agent acts
    exactly when it has budget left. *)
Lemma agentTurn_supplied (a : AgentName) (s : RunState) :
  lookup (blackboard s) (upstreamKind a) <> None ->
  iterations (agentOf a (proc s)) <= maxIterations (agentOf a (proc s)) ->
  let s' := agentTurn a s in
  (pendingTrigger a s = None <->
   maxIterations (agentOf a (proc s)) <= iterations (agentOf a (proc s)))
  /\ featureRequest (blackboard s') = featureRequest (blackboard s)
  /\ (uiuxSpec (blackboard s) <> None -> uiuxSpec (blackboard s') <> None)
  /\ (iterations (agentOf a (proc s)) < maxIterations (agentOf a (proc s)) ->
      lookup (blackboard s') (outputKind a) <> None)
  /\ maxIterations (agentOf a (proc s')) = maxIterations (agentOf a (proc s))
  /\ iterations (agentOf a (proc s')) =
     iterations (agentOf a (proc s))
     + (if iterations (agentOf a (proc s))
           <? maxIterations (agentOf a (proc s)) then 1 else 0)
  /\ (forall b, b <> a -> agentOf b (proc s') = agentOf b (proc s)).
Proof.
  intros Hup Hle. cbv zeta.
  destruct (Nat.ltb_spec (iterations (agentOf a (proc s)))
              (maxIterations (agentOf a (proc s)))) as [Hlt|Hge].
  - destruct (agentTurn_acts a s Hup Hlt) as (_ & F & U & S & M & I & O).
    pose proof (pendingTrigger_enabled a s Hup Hlt) as Hen.
    split; [split; [congruence|lia]|].
    repeat (split; [first [assumption | intros; assumption]|]).
    assumption.
  - pose proof (pendingTrigger_exhausted a s Hge) as Hex.
    unfold agentTurn. rewrite Hex.
    split; [split; [intros _; assumption|reflexivity]|].
    split; [reflexivity|]. split; [tauto|]. split; [lia|].
    split; [reflexivity|]. split; [lia|reflexivity].
Qed.

(** One cycle from a supplied state: every agent with budget left acts
    once, the others do not act, and the loop is only left when no agent
    had budget left. *)
Lemma pollCycle_supplied (cycle : nat) (s : RunState) :
  supplied s ->
  let s' := fst (fst (pollCycle cycle s)) in
  supplied s'
  /\ (forall a,
        maxIterations (agentOf a (proc s'))
        = maxIterations (agentOf a (proc s))
        /\ iterations (agentOf a (proc s')) =
           iterations (agentOf a (proc s))
           + (if iterations (agentOf a (proc s))
                 <? maxIterations (agentOf a (proc s)) then 1 else 0))
  /\ (idleCycle (snd (fst (pollCycle cycle s))) = true <->
      forall a,
        maxIterations (agentOf a (proc s))
        <= iterations (agentOf a (proc s))).
Proof.
  intros (Hreq & Hspec & Hle). cbv zeta. unfold pollCycle.
  destruct (beginCycle_spec cycle s) as ((_ & Hbb0 & _ & Ha0) & _ & _).
  rewrite forAgents_agents.
  remember (beginCycle cycle s) as s0 eqn:Es0.
  assert (forall a, iterations (agentOf a (proc s0))
                    <= maxIterations (agentOf a (proc s0))) as Hle0
    by (intros a; rewrite Ha0; apply Hle).
  destruct (agentTurn_supplied uiux s0) as (T1 & F1 & S1 & U1 & M1 & I1 & O1).
  { cbn [upstreamKind lookup]. now rewrite Hbb0. }
  { apply Hle0. }
  remember (agentTurn uiux s0) as s1 eqn:Es1.
  cbn [outputKind lookup] in U1.
  assert (uiuxSpec (blackboard s1) <> None) as Hu1.
  { rewrite Hbb0, Ha0 in *. destruct Hspec as [Hspec|Hspec]; auto. }
  destruct (agentTurn_supplied frontend s1)
    as (T2 & F2 & S2 & _ & M2 & I2 & O2).
  { exact Hu1. }
  { rewrite O1 by discriminate. apply Hle0. }
  remember (agentTurn frontend s1) as s2 eqn:Es2.
  specialize (S2 Hu1).
  destruct (agentTurn_supplied backend s2)
    as (T3 & F3 & S3 & _ & M3 & I3 & O3).
  { exact S2. }
  { rewrite O2, O1 by discriminate. apply Hle0. }
  remember (agentTurn backend s2) as s3 eqn:Es3.
  specialize (S3 S2).
  pose proof (endCycle_sameData s3) as (_ & Hbb4 & _ & Ha4).
  destruct (endCycle s3) as [s4 brk]. cbn [fst snd] in *.
  assert (forall a,
            maxIterations (agentOf a (proc s4))
            = maxIterations (agentOf a (proc s))
            /\ iterations (agentOf a (proc s4)) =
               iterations (agentOf a (proc s))
               + (if iterations (agentOf a (proc s))
                     <? maxIterations (agentOf a (proc s)) then 1 else 0))
    as Hcount.
  { intros []; rewrite Ha4.
    - rewrite !O3, !O2, M1, I1, Ha0 by discriminate. split; reflexivity.
    - rewrite !O3, M2, I2, !O1, Ha0 by discriminate. split; reflexivity.
    - rewrite M3, I3, !O2, !O1, Ha0 by discriminate. split; reflexivity. }
  split; [|split; [exact Hcount|]].
  - split; [rewrite Hbb4, F3, F2, F1, Hbb0; exact Hreq|].
    split; [left; rewrite Hbb4; exact S3|].
    intros a. destruct (Hcount a) as [-> ->]. specialize (Hle a).
    destruct (Nat.ltb_spec (iterations (agentOf a (proc s)))
                (maxIterations (agentOf a (proc s)))); lia.
  - unfold idleCycle. cbn [forallb]. unfold idleTurn. cbn [turn_trigger].
    rewrite O2, !O1, !Ha0 in T3 by discriminate.
    rewrite O1, !Ha0 in T2 by discriminate.
    rewrite !Ha0 in T1.
    split.
    + intros H.
      destruct (pendingTrigger uiux s0); [discriminate|].
      destruct (pendingTrigger frontend s1); [discriminate|].
      destruct (pendingTrigger backend s2); [discriminate|].
      intros []; [apply T1|apply T2|apply T3]; reflexivity.
    + intros H.
      rewrite (proj2 T1 (H uiux)), (proj2 T2 (H frontend)),
        (proj2 T3 (H backend)).
      reflexivity.
Qed.

Lemma forCycles_supplied (cs : list nat) (s : RunState) :
  supplied s ->
  forall a,
    maxIterations (agentOf a (proc (final (forCycles cs s))))
    = maxIterations (agentOf a (proc s))
    /\ iterations (agentOf a (proc (final (forCycles cs s))))
       = Nat.min (maxIterations (agentOf a (proc s)))
           (iterations (agentOf a (proc s)) + length cs).
Proof.
  revert s. induction cs as [|c rest IH]; intros s Hs a.
  - cbn [forCycles final length]. destruct Hs as (_ & _ & Hle).
    specialize (Hle a). split; [reflexivity|lia].
  - rewrite forCycles_cons.
    destruct (pollCycle_supplied c Hs) as (Hs' & Hcount & Hidle).
    destruct (pollCycle_flags c s) as [_ Hbrk].
    cbv zeta in Hs', Hcount, Hidle, Hbrk.
    destruct (pollCycle c s) as [[s' turns] brk].
    cbn [fst snd] in Hs', Hcount, Hidle, Hbrk.
    destruct (Hcount a) as [Hm Hi]. destruct Hs as (_ & _ & Hle).
    pose proof (Hle a) as Hlea. cbn [length].
    destruct brk; cbn [final].
    + symmetry in Hbrk. apply andb_true_iff in Hbrk.
      destruct Hbrk as [Hbrk _].
      pose proof (proj1 Hidle Hbrk a) as Hspent. clear Hbrk. split; [exact Hm|]. rewrite Hi.
      destruct (Nat.ltb_spec (iterations (agentOf a (proc s)))
                  (maxIterations (agentOf a (proc s)))); lia.
    + destruct (IH s' Hs' a) as [IHm IHi]. rewrite IHm, IHi, Hm, Hi.
      split; [reflexivity|].
      destruct (Nat.ltb_spec (iterations (agentOf a (proc s)))
                  (maxIterations (agentOf a (proc s)))); lia.
Qed.

(** X5.  In a run of a process in which no agent is over budget and the
    UI/UX agent has budget left, every agent acts once in every cycle
    until its budget is spent: the run leaves each agent with the
    smaller of its budget and its count plus the 20 cycles, and the
    board holds as many messages of the agent as the count has grown.
    With the budget of 3 of the program, a first run leaves three
    messages of each agent. *)
Theorem budgets_are_spent
  (initialRequest : jsstring) (p : Process) (a : AgentName) :
  iterations (agentOf uiux p) < maxIterations (agentOf uiux p) ->
  (forall b, iterations (agentOf b p) <= maxIterations (agentOf b p)) ->
  let s := final (pipelineOutcome initialRequest p) in
  iterations (agentOf a (proc s))
  = Nat.min (maxIterations (agentOf a p))
      (iterations (agentOf a p) + MAX_GLOBAL_CYCLES)
  /\ length (messagesBy a (board s))
     = Nat.min (maxIterations (agentOf a p) - iterations (agentOf a p))
         MAX_GLOBAL_CYCLES
  /\ (maxIterations (agentOf a p) = 3 -> iterations (agentOf a p) = 0 ->
      length (messagesBy a (board s)) = 3).
Proof.
  intros Hu Hle. cbv zeta.
  destruct (budgeted_points initialRequest p) as [_ Hbud].
  destruct (Hbud a) as (_ & Hcount & _).
  rewrite pipelineOutcome_eq in *.
  destruct (seed_spec initialRequest p) as (f & _ & Hbb & _ & _ & _ & Ha).
  remember (seed initialRequest p) as s0 eqn:Es0.
  assert (supplied s0) as Hs0.
  { split; [rewrite Hbb; discriminate|]. split.
    - right. rewrite Ha. exact Hu.
    - intros b. rewrite Ha. apply Hle. }
  destruct (forCycles_supplied (seq 1 MAX_GLOBAL_CYCLES) Hs0 a) as [_ Hi].
  rewrite length_seq, Ha in Hi.
  remember (final (forCycles (seq 1 MAX_GLOBAL_CYCLES) s0)) as sF eqn:EF.
  specialize (Hle a). unfold MAX_GLOBAL_CYCLES in *.
  split; [exact Hi|]. split; [lia|]. intros H3 H0. lia.
Qed.

(** ** A spent UI/UX budget *)

Lemma blocked_stable (q : Process) (b : list BoardMessage)
  (s s' : RunState) :
  sameData s s' -> blocked q b s -> blocked q b s'.
Proof.
  intros Hsame (H1 & H2 & H3).
  split; [now apply (frozen_stable Hsame)|].
  split; [|now apply (scanned_stable Hsame)].
  destruct Hsame as (_ & -> & _). exact H2.
Qed.

Lemma blocked_pending (q : Process) (b : list BoardMessage)
  (a : AgentName) (s : RunState) :
  maxIterations (agentOf uiux q) <= iterations (agentOf uiux q) ->
  blocked q b s -> pendingTrigger a s = None.
Proof.
  intros Hq ([Hag _] & Hnone & [Hscan _]).
  destruct a.
  - apply pendingTrigger_exhausted. now rewrite Hag.
  - unfold pendingTrigger. rewrite findTrigger_cases.
    cbn [upstreamKind lookup]. rewrite Hnone. unfold latestOfKind.
    rewrite <- (Hscan uiux_spec). cbn [lookup]. now rewrite Hnone.
  - unfold pendingTrigger. rewrite findTrigger_cases.
    cbn [upstreamKind lookup]. rewrite Hnone. unfold latestOfKind.
    rewrite <- (Hscan uiux_spec). cbn [lookup]. now rewrite Hnone.
Qed.

Lemma blocked_turn (q : Process) (b : list BoardMessage) :
  maxIterations (agentOf uiux q) <= iterations (agentOf uiux q) ->
  forall a s, blocked q b s -> blocked q b (agentTurn a s).
Proof.
  intros Hq a s H. unfold agentTurn.
  now rewrite (blocked_pending a Hq H).
Qed.

Lemma blocked_seed (initialRequest : jsstring) (p : Process) :
  blocked p (board (seed initialRequest p)) (seed initialRequest p).
Proof.
  split; [split; [intros []; reflexivity|reflexivity]|].
  split; [reflexivity|apply scanned_seed].
Qed.

(** X6.  When the UI/UX agent has no budget left at the start of a run,
    no agent acts in that run, whatever budget the two engineer agents
    have: at every point the board holds the feature request and
    nothing else, no agent has a trigger to act on, and the agents are
    left as they were. *)
Theorem spent_designer_blocks_run
  (initialRequest : jsstring) (p : Process) (s : RunState) :
  maxIterations (agentOf uiux p) <= iterations (agentOf uiux p) ->
  In s (pipelinePoints initialRequest p)
  \/ s = final (pipelineOutcome initialRequest p) ->
  board s = board (seed initialRequest p)
  /\ length (board s) = 1
  /\ forall a, pendingTrigger a s = None
               /\ messagesBy a (board s) = []
               /\ agentOf a (proc s) = agentOf a p.
Proof.
  intros Hq Hs.
  assert (blocked p (board (seed initialRequest p)) s) as Hb.
  { destruct (@pipeline_invariant
                (blocked p (board (seed initialRequest p)))
                (@blocked_stable p (board (seed initialRequest p)))
                (@blocked_turn p (board (seed initialRequest p)) Hq)
                initialRequest p (blocked_seed initialRequest p))
      as [Hall Hfin].
    destruct Hs as [Hs| ->]; [|exact Hfin].
    rewrite Forall_forall in Hall. exact (Hall s Hs). }
  pose proof (fun a => blocked_pending a Hq Hb) as Hpend.
  destruct Hb as ([Hag Hboard] & _).
  destruct (seed_spec initialRequest p) as (f & Hbs & _ & Hf & _).
  rewrite Hboard, Hbs. split; [reflexivity|]. split; [reflexivity|].
  intros a. split; [apply Hpend|]. split; [|apply Hag].
  unfold messagesBy. cbn [filter]. rewrite Hf. reflexivity.
Qed.

Lemma nextId_write (text : jsstring) (p : Process) :
  nextId (write text p) = nextId p.
Proof. reflexivity. Qed.

Lemma nextId_report (board : list BoardMessage) (p : Process) :
  nextId (report board p) = nextId p.
Proof.
  unfold report. rewrite nextId_write.
  unfold agentNames. simpl fold_left.
  now rewrite !nextId_write.
Qed.

Lemma blocked_run (initialRequest : jsstring) (p : Process) :
  maxIterations (agentOf uiux p) <= iterations (agentOf uiux p) ->
  nextId (runMultiAgentPipeline initialRequest p) = nextId p + 1
  /\ forall a,
       agentOf a (runMultiAgentPipeline initialRequest p) = agentOf a p.
Proof.
  intros Hq. unfold runMultiAgentPipeline.
  destruct (@pipeline_invariant
              (blocked p (board (seed initialRequest p)))
              (@blocked_stable p (board (seed initialRequest p)))
              (@blocked_turn p (board (seed initialRequest p)) Hq)
              initialRequest p (blocked_seed initialRequest p))
    as [_ ([Hag Hboard] & _)].
  destruct (consecutiveIds_run initialRequest p) as [_ [_ Hn]].
  destruct (seed_spec initialRequest p) as (f & Hbs & _).
  remember (final (pipelineOutcome initialRequest p)) as sF eqn:EF.
  rewrite Hboard, Hbs in Hn. cbn [length] in Hn. split.
  - rewrite nextId_report. exact Hn.
  - intros a. rewrite agentOf_report. apply Hag.
Qed.

(** X7.  After the first run that leaves the UI/UX agent without budget,
    every further run, on whatever request, posts its request and
    nothing else: the agents stay as they are and the id counter
    advances by one per run. *)
Theorem later_runs_post_only_requests
  (requests : list jsstring) (p : Process) :
  maxIterations (agentOf uiux p) <= iterations (agentOf uiux p) ->
  let p' := fold_left (fun q r => runMultiAgentPipeline r q) requests p in
  nextId p' = nextId p + length requests
  /\ forall a, agentOf a p' = agentOf a p.
Proof.
  cbv zeta. revert p. induction requests as [|r rest IH]; intros p Hq.
  - cbn [fold_left length]. split; [lia|reflexivity].
  - cbn [fold_left length].
    destruct (@blocked_run r p Hq) as [Hn Ha].
    destruct (IH (runMultiAgentPipeline r p)) as [IHn IHa].
    { now rewrite !Ha. }
    rewrite IHn, Hn. split; [lia|]. intros a. now rewrite IHa, Ha.
Qed.

(** ** An idle stop is not premature *)

Lemma pollCycle_idle (cycle : nat) (s : RunState) :
  idleCycle (snd (fst (pollCycle cycle s))) = true ->
  sameData s (fst (fst (pollCycle cycle s)))
  /\ forall a, pendingTrigger a s = None.
Proof.
  unfold pollCycle. rewrite forAgents_agents.
  destruct (beginCycle_spec cycle s) as (Hsame & _ & _).
  remember (beginCycle cycle s) as s0 eqn:Es0.
  pose proof (endCycle_sameData
                (agentTurn backend (agentTurn frontend (agentTurn uiux s0))))
    as He.
  destruct (endCycle
              (agentTurn backend (agentTurn frontend (agentTurn uiux s0))))
    as [s1 brk].
  cbn [fst snd] in *. revert He.
  unfold idleCycle. cbn [forallb]. unfold idleTurn. cbn [turn_trigger].
  destruct (pendingTrigger uiux s0) eqn:P1; [discriminate|].
  assert (agentTurn uiux s0 = s0) as -> by (unfold agentTurn; now rewrite P1).
  destruct (pendingTrigger frontend s0) eqn:P2; [discriminate|].
  assert (agentTurn frontend s0 = s0) as ->
    by (unfold agentTurn; now rewrite P2).
  destruct (pendingTrigger backend s0) eqn:P3; [discriminate|].
  assert (agentTurn backend s0 = s0) as ->
    by (unfold agentTurn; now rewrite P3).
  intros He _. split.
  - destruct Hsame as (A1 & A2 & A3 & A4), He as (B1 & B2 & B3 & B4).
    split; [congruence|]. split; [congruence|]. split; [congruence|].
    intros a. now rewrite B4.
  - intros a. rewrite <- (pendingTrigger_sameData a Hsame).
    destruct a; assumption.
Qed.

Lemma forCycles_idle_stop (cs : list nat) (s : RunState) (a : AgentName) :
  stop (forCycles cs s) = IdleStopped ->
  pendingTrigger a (final (forCycles cs s)) = None.
Proof.
  revert s. induction cs as [|c rest IH]; intros s; [discriminate|].
  rewrite forCycles_cons.
  destruct (pollCycle_flags c s) as [_ Hbrk].
  pose proof (pollCycle_idle c s) as Hidle. cbv zeta in Hbrk.
  destruct (pollCycle c s) as [[s' turns] brk]. cbn [fst snd] in *.
  destruct brk; cbn [final stop]; [|apply IH].
  intros _. symmetry in Hbrk. apply andb_true_iff in Hbrk.
  destruct Hbrk as [Hbrk _]. destruct (Hidle Hbrk) as [Hsame Hpend].
  now rewrite (pendingTrigger_sameData a Hsame).
Qed.

(** X8.  An idle stop is never premature: in the state an idle-stopped
    run ends in, no agent has a trigger it could act on.  Each agent
    either has spent its budget or misses its upstream message on the
    blackboard. *)
Theorem idle_stop_leaves_no_work
  (initialRequest : jsstring) (p : Process) (a : AgentName) :
  let o := pipelineOutcome initialRequest p in
  stop o = IdleStopped ->
  pendingTrigger a (final o) = None
  /\ (maxIterations (agentOf a (proc (final o)))
      <= iterations (agentOf a (proc (final o)))
      \/ lookup (blackboard (final o)) (upstreamKind a) = None).
Proof.
  cbv zeta. rewrite pipelineOutcome_eq. intros Hstop.
  pose proof (forCycles_idle_stop _ _ a Hstop) as Hp.
  remember (final (forCycles (seq 1 MAX_GLOBAL_CYCLES)
                     (seed initialRequest p))) as sF eqn:EF.
  split; [exact Hp|].
  destruct (Nat.le_gt_cases (maxIterations (agentOf a (proc sF)))
              (iterations (agentOf a (proc sF)))) as [Hle|Hlt];
    [now left|right].
  destruct (lookup (blackboard sF) (upstreamKind a)) eqn:E; [|reflexivity].
  exfalso. apply (pendingTrigger_enabled a sF); [congruence|exact Hlt|exact Hp].
Qed.

(** ** How long a run lasts *)

Lemma forCycles_length (cs : list nat) (s : RunState) :
  supplied s -> idleCycles s < IDLE_THRESHOLD ->
  let r := longestBudgetLeft (proc s) in
  let i := if r =? 0 then idleCycles s else 0 in
  map idleCycle (cycles (forCycles cs s))
  = repeat false (Nat.min r (length cs))
    ++ repeat true (Nat.min (IDLE_THRESHOLD - i) (length cs - r))
  /\ (stop (forCycles cs s) = IdleStopped <->
      r + (IDLE_THRESHOLD - i) <= length cs).
Proof.
  cbv zeta. unfold IDLE_THRESHOLD.
  revert s. induction cs as [|c rest IH]; intros s Hs Hi.
  - cbn [forCycles final stop cycles map length].
    rewrite Nat.min_0_r, Nat.sub_0_l, Nat.min_0_r. cbn [repeat app].
    split; [reflexivity|].
    split; [discriminate|].
    destruct (longestBudgetLeft (proc s) =? 0); lia.
  - rewrite forCycles_cons.
    destruct (pollCycle_supplied c Hs) as (Hs' & Hcount & Hidle).
    destruct (pollCycle_flags c s) as [Hi' Hbrk].
    cbv zeta in Hs', Hcount, Hidle, Hi', Hbrk.
    specialize (IH (fst (fst (pollCycle c s))) Hs').
    unfold IDLE_THRESHOLD in Hbrk.
    assert (longestBudgetLeft (proc (fst (fst (pollCycle c s))))
            = longestBudgetLeft (proc s) - 1) as Hr'.
    { unfold longestBudgetLeft, budgetLeft.
      destruct (Hcount uiux) as [-> ->], (Hcount frontend) as [-> ->],
        (Hcount backend) as [-> ->].
      destruct (iterations (agentOf uiux (proc s))
                <? maxIterations (agentOf uiux (proc s))) eqn:E1;
      destruct (iterations (agentOf frontend (proc s))
                <? maxIterations (agentOf frontend (proc s))) eqn:E2;
      destruct (iterations (agentOf backend (proc s))
                <? maxIterations (agentOf backend (proc s))) eqn:E3;
      try apply Nat.ltb_lt in E1; try apply Nat.ltb_ge in E1;
      try apply Nat.ltb_lt in E2; try apply Nat.ltb_ge in E2;
      try apply Nat.ltb_lt in E3; try apply Nat.ltb_ge in E3; lia. }
    assert (idleCycle (snd (fst (pollCycle c s)))
            = (longestBudgetLeft (proc s) =? 0)) as Hflag.
    { destruct (longestBudgetLeft (proc s) =? 0) eqn:E.
      - apply Nat.eqb_eq in E. apply Hidle. intros a.
        unfold longestBudgetLeft, budgetLeft in E. destruct a; lia.
      - apply Nat.eqb_neq in E.
        destruct (idleCycle (snd (fst (pollCycle c s)))) eqn:F;
          [|reflexivity].
        exfalso. apply E. pose proof (proj1 Hidle eq_refl) as Hall.
        pose proof (Hall uiux). pose proof (Hall frontend).
        pose proof (Hall backend).
        unfold longestBudgetLeft, budgetLeft. lia. }
    clear Hs' Hcount Hidle Hs.
    remember (longestBudgetLeft (proc s)) as r eqn:Er. clear Er.
    destruct (pollCycle c s) as [[s' turns] brk]. cbn [fst snd] in *.
    rewrite Hflag in *. subst brk. cbn [length].
    destruct r as [|r'].
    + change (0 - 1) with 0 in Hr'.
      cbn [Nat.eqb andb] in *. rewrite Hr' in IH. cbn [Nat.eqb] in IH.
      rewrite Nat.sub_0_r in IH. rewrite Nat.sub_0_r.
      change (Nat.min 0 (S (length rest))) with 0. cbn [repeat app].
      destruct (3 <=? idleCycles s + 1) eqn:E3.
      * apply Nat.leb_le in E3. cbn [cycles stop map].
        rewrite Hflag.
        replace (3 - idleCycles s) with 1 by lia.
        cbn [Nat.min repeat]. split.
        -- destruct (length rest); reflexivity.
        -- split; [lia|reflexivity].
      * apply Nat.leb_gt in E3. cbn [cycles stop map].
        rewrite Hflag. destruct IH as [IHm IHs]; [lia|].
        rewrite IHm, Hi'. rewrite Nat.min_0_l. cbn [repeat app]. split.
        -- replace (3 - idleCycles s) with (S (3 - (idleCycles s + 1)))
             by lia.
           reflexivity.
        -- rewrite IHs, Hi'. lia.
    + cbn [Nat.eqb andb] in *. cbn [cycles stop map]. rewrite Hflag.
      rewrite Hr', Hi' in IH. destruct IH as [IHm IHs]; [lia|].
      assert ((if S r' - 1 =? 0 then 0 else 0) = 0) as E0
        by (destruct (S r' - 1 =? 0); reflexivity).
      rewrite E0 in IHm, IHs. rewrite IHm, IHs.
      replace (S r' - 1) with r' by lia.
      rewrite !Nat.sub_0_r. change (S (length rest) - S r') with (length rest - r').
      cbn [Nat.min repeat app]. split; [reflexivity|lia].
Qed.

(** X9.  How long a run lasts.  In a run of a process in which no agent
    is over budget and the UI/UX agent has budget left, with [r] the
    most iterations any agent has left, the first [r] cycles each make
    progress and are followed by three idle cycles, within the limit of
    20 cycles: the run takes [min 20 (r + 3)] cycles, and it stops for
    idleness exactly when [r + 3 <= 20]; otherwise the cycles are
    exhausted.  With the budgets of the program a first run takes six
    cycles and stops for idleness. *)
Theorem run_length (initialRequest : jsstring) (p : Process) :
  iterations (agentOf uiux p) < maxIterations (agentOf uiux p) ->
  (forall b, iterations (agentOf b p) <= maxIterations (agentOf b p)) ->
  let o := pipelineOutcome initialRequest p in
  let r := longestBudgetLeft p in
  map idleCycle (cycles o)
  = repeat false (Nat.min r MAX_GLOBAL_CYCLES)
    ++ repeat true (Nat.min IDLE_THRESHOLD (MAX_GLOBAL_CYCLES - r))
  /\ length (cycles o) = Nat.min MAX_GLOBAL_CYCLES (r + IDLE_THRESHOLD)
  /\ (stop o = IdleStopped <-> r + IDLE_THRESHOLD <= MAX_GLOBAL_CYCLES)
  /\ (stop o = CyclesExhausted <-> MAX_GLOBAL_CYCLES < r + IDLE_THRESHOLD)
  /\ (r = MAX_AGENT_ITERATIONS ->
      length (cycles o) = 6 /\ stop o = IdleStopped).
Proof.
  intros Hu Hle. cbv zeta. rewrite pipelineOutcome_eq.
  destruct (seed_spec initialRequest p) as (f & _ & Hbb & _ & Hi0 & _ & Ha).
  remember (seed initialRequest p) as s0 eqn:Es0.
  assert (supplied s0) as Hs0.
  { split; [rewrite Hbb; discriminate|]. split.
    - right. rewrite Ha. exact Hu.
    - intros b. rewrite Ha. apply Hle. }
  assert (longestBudgetLeft (proc s0) = longestBudgetLeft p) as Hr
    by (unfold longestBudgetLeft, budgetLeft; now rewrite !Ha).
  assert (0 < longestBudgetLeft p) as Hpos
    by (unfold longestBudgetLeft, budgetLeft; lia).
  destruct (@forCycles_length (seq 1 MAX_GLOBAL_CYCLES) s0 Hs0) as [Hm Hs].
  { rewrite Hi0. unfold IDLE_THRESHOLD. lia. }
  rewrite length_seq, Hr in Hm, Hs.
  remember (longestBudgetLeft p) as r eqn:Er. clear Er.
  remember (forCycles (seq 1 MAX_GLOBAL_CYCLES) s0) as o eqn:Eo. clear Eo.
  assert ((if r =? 0 then idleCycles s0 else 0) = 0) as E0.
  { destruct (r =? 0) eqn:E; [|reflexivity]. apply Nat.eqb_eq in E. lia. }
  rewrite E0, Nat.sub_0_r in Hm, Hs.
  assert (length (cycles o) = Nat.min MAX_GLOBAL_CYCLES (r + IDLE_THRESHOLD))
    as Hlen.
  { rewrite <- (length_map idleCycle), Hm, length_app, !repeat_length.
    unfold MAX_GLOBAL_CYCLES, IDLE_THRESHOLD. lia. }
  split; [exact Hm|]. split; [exact Hlen|]. split; [exact Hs|]. split.
  - destruct (stop o) eqn:E.
    + split; [discriminate|]. intros Hlt.
      pose proof (proj1 Hs eq_refl). lia.
    + split; [|reflexivity]. intros _.
      destruct (Nat.le_gt_cases (r + IDLE_THRESHOLD) MAX_GLOBAL_CYCLES)
        as [Hc|Hc]; [|exact Hc].
      apply Hs in Hc. discriminate.
  - intros ->. split.
    + rewrite Hlen. reflexivity.
    + apply Hs. unfold MAX_AGENT_ITERATIONS, IDLE_THRESHOLD,
        MAX_GLOBAL_CYCLES. lia.
Qed.

(** ** The shape of a summary *)

Lemma trimStart_tight (s : jsstring) : tight (trimStart s).
Proof.
  induction s as [|c r IH]; cbn [trimStart]; [exact I|].
  destruct (isWhiteSpace c) eqn:E; [exact IH|exact E].
Qed.

Lemma tight_trimStart (s : jsstring) : tight s -> trimStart s = s.
Proof.
  destruct s as [|c r]; cbn [tight trimStart]; [reflexivity|].
  now intros ->.
Qed.

Lemma trimStart_suffix (s : jsstring) :
  exists pre, s = pre ++ trimStart s.
Proof.
  induction s as [|c r [pre IH]]; cbn [trimStart]; [now exists []|].
  destruct (isWhiteSpace c); [|now exists []].
  exists (c :: pre). cbn [app]. now rewrite <- IH.
Qed.

Lemma trimEnd_prefix (s : jsstring) :
  exists post, s = trimEnd s ++ post.
Proof.
  unfold trimEnd. destruct (trimStart_suffix (rev s)) as [pre H].
  exists (rev pre). rewrite <- rev_app_distr, <- H.
  now rewrite rev_involutive.
Qed.

Lemma trim_In (c : N) (s : jsstring) : In c (trim s) -> In c s.
Proof.
  unfold trim. intros H.
  destruct (trimEnd_prefix (trimStart s)) as [post H1].
  destruct (trimStart_suffix s) as [pre H2].
  rewrite H2, H1. apply in_or_app. right. apply in_or_app. now left.
Qed.

Lemma trim_tight (s : jsstring) : tight (trim s) /\ tight (rev (trim s)).
Proof.
  unfold trim. split.
  - pose proof (trimStart_tight s) as Ht.
    destruct (trimEnd_prefix (trimStart s)) as [post H].
    destruct (trimEnd (trimStart s)) as [|c r]; [exact I|].
    rewrite H in Ht. exact Ht.
  - unfold trimEnd. rewrite rev_involutive. apply trimStart_tight.
Qed.

Lemma tight_trim (s : jsstring) : tight s -> tight (rev s) -> trim s = s.
Proof.
  intros H1 H2. unfold trim, trimEnd.
  rewrite (tight_trimStart s H1), (tight_trimStart (rev s) H2).
  apply rev_involutive.
Qed.

Lemma split_nl_no_line_feed (s : jsstring) :
  Forall (fun l => ~ In 10%N l) (split_nl s).
Proof.
  induction s as [|c r IH]; cbn [split_nl].
  - constructor; [now intros []|constructor].
  - destruct (N.eqb_spec c 10) as [->|Hc].
    + constructor; [now intros []|exact IH].
    + destruct (split_nl r) as [|l ls].
      * constructor; [|constructor]. intros [H|[]]. now apply Hc.
      * inversion IH as [|? ? Hl Hls]; subst.
        constructor; [|exact Hls]. intros [H|H]; [now apply Hc|now apply Hl].
Qed.

Lemma summarizeContent_cases (content : jsstring) (maxLength : option Z) :
  let limit :=
    match maxLength with Some n => n | None => DEFAULT_MAX_LENGTH end in
  (3 <= limit)%Z ->
  exists line,
    summarizeContent content maxLength =
    (if (Z.of_nat (length (trim line)) <=? limit)%Z then trim line
     else firstn (Z.to_nat (limit - 3)) (trim line) ++ js "...")
    /\ ~ In 10%N line
    /\ (trim line = [] <-> isBlank content = true).
Proof.
  intros limit Hlimit. unfold summarizeContent. fold limit.
  destruct (find (fun l => 0 <? length (trim l)) (split_nl content))
    as [line|] eqn:F.
  - exists line. apply find_some in F. destruct F as [Hin Htest].
    split; [|split].
    + destruct (Z.leb_spec (Z.of_nat (length (trim line))) limit);
        [reflexivity|].
      unfold slice0. destruct (Z.ltb_spec (limit - 3) 0); [lia|].
      rewrite Z.min_l by lia. reflexivity.
    + pose proof (split_nl_no_line_feed content) as Hall.
      rewrite Forall_forall in Hall. now apply Hall.
    + rewrite nonblank_test in Htest. apply negb_true_iff in Htest.
      split.
      * intros T. apply trim_nil in T. congruence.
      * intros B. apply blank_lines in B. rewrite Forall_forall in B.
        apply B in Hin. congruence.
  - exists []. split; [|split].
    + change (trim []) with (@nil N). cbn [length].
      destruct (Z.leb_spec (Z.of_nat 0) limit); [reflexivity|lia].
    + now intros [].
    + split; [|reflexivity]. intros _. apply blank_lines.
      rewrite Forall_forall. intros l Hl.
      pose proof (find_none _ _ F l Hl) as Htest. cbv beta in Htest.
      rewrite nonblank_test in Htest. now apply negb_false_iff in Htest.
Qed.

(** X10.  The shape of a summary.  For a maximum length of at least 3,
    and for the default of 200, the summary of any content is at most
    that many code units long, contains no line feed, neither starts
    nor ends with white space (trimming it changes nothing), and is
    empty exactly when the content is white space throughout. *)
Theorem summary_is_one_short_line
  (content : jsstring) (maxLength : option Z) :
  (forall n, maxLength = Some n -> (3 <= n)%Z) ->
  let limit :=
    match maxLength with Some n => n | None => DEFAULT_MAX_LENGTH end in
  let summary := summarizeContent content maxLength in
  (Z.of_nat (length summary) <= limit)%Z
  /\ ~ In 10%N summary
  /\ trim summary = summary
  /\ (summary = [] <-> isBlank content = true).
Proof.
  intros Hmax limit summary.
  assert (3 <= limit)%Z as Hlimit.
  { unfold limit. destruct maxLength as [n|]; [now apply Hmax|].
    unfold DEFAULT_MAX_LENGTH. lia. }
  destruct (@summarizeContent_cases content maxLength Hlimit)
    as (line & Hsum & Hlf & Hblank).
  fold summary in Hsum. fold limit in Hsum.
  clearbody summary limit. subst summary.
  destruct (trim_tight line) as [Ht1 Ht2].
  destruct (Z.leb_spec (Z.of_nat (length (trim line))) limit) as [Hshort|Hlong].
  - split; [exact Hshort|]. split; [|split].
    + intros H. apply Hlf. now apply trim_In.
    + now apply tight_trim.
    + exact Hblank.
  - split; [|split; [|split]].
    + rewrite length_app, length_firstn. cbn [js length map
        list_ascii_of_string]. lia.
    + intros H. apply in_app_or in H. destruct H as [H|H].
      * apply Hlf, trim_In. rewrite <- (firstn_skipn (Z.to_nat (limit - 3))).
        apply in_or_app. now left.
      * cbv in H. destruct H as [H|[H|[H|[]]]]; discriminate.
    + apply tight_trim.
      * destruct (trim line) as [|c r]; [cbn [length] in Hlong; lia|].
        destruct (Z.to_nat (limit - 3)); [reflexivity|exact Ht1].
      * rewrite rev_app_distr. reflexivity.
    + split.
      * intros H. apply app_eq_nil in H. destruct H as [_ H]. discriminate.
      * intros B. apply Hblank in B. rewrite B in Hlong.
        cbn [length] in Hlong. lia.
Qed.

(** ** What the agents are told *)

Lemma act_content (a : AgentName) (trigger : BoardMessage)
  (board : list BoardMessage) (blackboard : BlackboardState) (p : Process) :
  content (fst (act a trigger board blackboard p))
  = trim (concat
            (textStream (nextId p) (trim (systemPrompt a))
               (trim (userPrompt a
                        (firstOfKind (featureRequest blackboard)
                           feature_request board)
                        trigger)))).
Proof.
  destruct a;
    unfold act, uiuxAgent_act, frontendAgent_act, backendAgent_act,
      createMessage, systemPrompt, userPrompt;
    cbn [fst content]; now rewrite collect_concat.
Qed.

Lemma points_grow_from_seed (initialRequest : jsstring) (p : Process)
  (s : RunState) :
  In s (pipelinePoints initialRequest p) ->
  grows (seed initialRequest p) s.
Proof.
  rewrite pipelinePoints_eq, pipelineOutcome_eq.
  pose proof (forCycles_inOrder (seq 1 MAX_GLOBAL_CYCLES)
                (seed initialRequest p)) as (_ & B & _ & _).
  remember (seed initialRequest p) as s0 eqn:E0.
  remember (map turn_after
              (concat (cycles (forCycles (seq 1 MAX_GLOBAL_CYCLES) s0))))
    as pts eqn:Ep.
  intros Hs. apply in_inv in Hs. destruct Hs as [<-|Hs].
  - apply grows_refl.
  - rewrite Forall_forall in B. now apply B.
Qed.

Lemma nextId_incrIterations (a : AgentName) (p : Process) :
  nextId (incrIterations a p) = nextId p.
Proof. now destruct a. Qed.

(** X11.  What the agents are told.  When an agent acts at a point of a
    run, the message it posts is the trimmed text that the generation
    service returns for the trimmed system prompt of the agent and the
    trimmed user prompt built from the trigger.  For the two engineer
    agents the user prompt quotes the feature request of this run, the
    trimmed request the run was started with: the placeholder for a
    request that is not found is never sent. *)
Theorem agents_are_told_the_request
  (initialRequest : jsstring) (p : Process) (s : RunState)
  (a : AgentName) (t : BoardMessage) :
  In s (pipelinePoints initialRequest p) ->
  pendingTrigger a s = Some t ->
  exists f m,
    content f = trim initialRequest
    /\ head (board s) = Some f
    /\ board (agentTurn a s) = board s ++ [m]
    /\ content m
       = trim (concat
                 (textStream (nextId (proc s)) (trim (systemPrompt a))
                    (trim (userPrompt a (Some f) t)))).
Proof.
  intros Hs Hp.
  destruct (seed_spec initialRequest p) as (f & Hboard & Hbb & Hf & _).
  destruct (points_grow_from_seed Hs) as ([rest Hrest] & _ & Hreq & _).
  rewrite Hbb in Hreq. cbn [featureRequest] in Hreq.
  unfold agentTurn. rewrite Hp. unfold actAndPost.
  pose proof (act_content a t (board s) (blackboard s)
                (incrIterations a (proc s))) as Hc.
  destruct (act a t (board s) (blackboard s) (incrIterations a (proc s)))
    as [m q].
  cbn [fst] in Hc. cbn [board].
  exists f, m. split; [now rewrite Hf|]. split.
  - rewrite Hrest, Hboard. reflexivity.
  - split; [reflexivity|]. rewrite Hc, nextId_incrIterations.
    rewrite Hreq. reflexivity.
Qed.

(** ** The passes of [main] *)

Lemma accounted_stable (p : Process) (s s' : RunState) :
  sameData s s' -> accounted p s -> accounted p s'.
Proof.
  intros (_ & _ & Hn & Ha). unfold accounted, spent.
  now rewrite Hn, !Ha.
Qed.

Lemma accounted_turn (p : Process) (a : AgentName) (s : RunState) :
  accounted p s -> accounted p (agentTurn a s).
Proof.
  intros H.
  destruct (agentTurn_cases a s)
    as [[_ ->]|(t & m & usr & _ & _ & _ & _ & _ & _ & _ & _ & Hn & Ha & Hb)];
    [exact H|].
  cbv zeta in Hn, Ha, Hb. unfold accounted, spent in *. rewrite Hn.
  destruct a.
  - rewrite Ha, (Hb frontend), (Hb backend) by discriminate.
    cbn [iterations]. lia.
  - rewrite Ha, (Hb uiux), (Hb backend) by discriminate.
    cbn [iterations]. lia.
  - rewrite Ha, (Hb uiux), (Hb frontend) by discriminate.
    cbn [iterations]. lia.
Qed.

Lemma accounted_seed (initialRequest : jsstring) (p : Process) :
  accounted p (seed initialRequest p).
Proof.
  destruct (seed_spec initialRequest p) as (f & _ & _ & _ & _ & Hn & Ha).
  unfold accounted, spent. rewrite Hn, !Ha. lia.
Qed.

Lemma mainPasses_S (n : nat) (p : Process) :
  mainPasses (S n) p
  = mainPasses n (runMultiAgentPipeline (trim main_input) p).
Proof. cbn [mainPasses]. rewrite mainPass_runs. reflexivity. Qed.

Lemma later_passes (n : nat) (q : Process) :
  maxIterations (agentOf uiux q) <= iterations (agentOf uiux q) ->
  nextId (mainPasses n q) = nextId q + n
  /\ forall a, agentOf a (mainPasses n q) = agentOf a q.
Proof.
  revert q. induction n as [|n IH]; intros q Hq.
  - cbn [mainPasses]. split; [lia|reflexivity].
  - rewrite mainPasses_S.
    destruct (@blocked_run (trim main_input) q Hq) as [Hn Ha].
    destruct (IH (runMultiAgentPipeline (trim main_input) q)) as [IHn IHa].
    { now rewrite !Ha. }
    rewrite IHn, Hn. split; [lia|]. intros a. now rewrite IHa, Ha.
Qed.

Lemma runMultiAgentPipeline_eq (initialRequest : jsstring) (p : Process) :
  runMultiAgentPipeline initialRequest p
  = report (board (final (pipelineOutcome initialRequest p)))
      (proc (final (pipelineOutcome initialRequest p))).
Proof. reflexivity. Qed.

Lemma accounted_first_run (p : Process) (s : RunState) :
  accounted p s ->
  (forall a, iterations (agentOf a (proc s)) = 3) ->
  (forall a, iterations (agentOf a p) = 0) ->
  nextId (proc s) = nextId p + 10.
Proof.
  unfold accounted, spent. intros H H3 H0.
  rewrite !H3, !H0 in H. lia.
Qed.

Lemma first_run_ids (initialRequest : jsstring) (p : Process) :
  (forall a, maxIterations (agentOf a p) = 3
             /\ iterations (agentOf a p) = 0) ->
  nextId (runMultiAgentPipeline initialRequest p) = nextId p + 10.
Proof.
  intros Hp.
  pose proof (@first_run_spends_budgets initialRequest p Hp) as H.
  destruct (@pipeline_invariant (accounted p) (@accounted_stable p)
              (@accounted_turn p) initialRequest p
              (accounted_seed initialRequest p))
    as [_ Hacc].
  rewrite runMultiAgentPipeline_eq in *. rewrite nextId_report.
  apply (accounted_first_run Hacc).
  - intros a. destruct (H a) as [_ Ha]. rewrite agentOf_report in Ha.
    exact Ha.
  - intros a. apply Hp.
Qed.

Lemma first_pass_ids :
  nextId (runMultiAgentPipeline (trim main_input) initialProcess) = 11.
Proof.
  rewrite first_run_ids; [reflexivity|].
  intros a. destruct a; split; reflexivity.
Qed.

(** X12.  The loop of [main] never ends, and only its first pass gets
    the agents to work.  After any number of passes, one or more, every
    agent has its three iterations counted out of a budget of three,
    the id counter stands at ten plus the number of passes (the first
    pass takes ten ids, for the request and nine messages of the
    agents; every later pass takes one, for its request), and the next
    pass does not leave the loop. *)
Theorem main_only_first_pass_works (n : nat) :
  let q := mainPasses (S n) initialProcess in
  nextId q = 11 + n
  /\ (forall a, iterations (agentOf a q) = 3
                /\ maxIterations (agentOf a q) = 3)
  /\ mainPasses (S (S n)) initialProcess
     = runMultiAgentPipeline (trim main_input) q
  /\ mainPass q <> None.
Proof.
  cbv zeta.
  assert (forall k p, mainPasses (S k) p
                      = runMultiAgentPipeline (trim main_input)
                          (mainPasses k p)) as Hlast.
  { induction k as [|k IH]; intros p.
    - now rewrite mainPasses_1.
    - rewrite mainPasses_S, IH, <- mainPasses_S. reflexivity. }
  rewrite (Hlast (S n)). rewrite mainPasses_S.
  pose proof (first_run_spends_budgets (trim main_input) initialProcess
                (fun a => ltac:(destruct a; split; reflexivity))) as H.
  pose proof first_pass_ids as Hid.
  remember (runMultiAgentPipeline (trim main_input) initialProcess)
    as p1 eqn:E1. clear E1.
  destruct (@later_passes n p1) as [Hn Ha].
  { destruct (H uiux). lia. }
  rewrite Hn, Hid. split; [reflexivity|]. split.
  - intros a. rewrite Ha. destruct (H a). split; assumption.
  - split; [reflexivity|]. rewrite mainPass_runs. discriminate.
Qed.

(** ** [src/index.ts]: one act *)

Lemma index_stream_spec (result : list jsstring) (p : Process) :
  index_stream result p = (concat result, written result p).
Proof.
  unfold index_stream.
  enough (forall text q,
            fold_left
              (fun (acc : jsstring * Process) delta =>
                 (fst acc ++ delta, write delta (snd acc)))
              result (text, q)
            = (text ++ concat result, written result q)) as H
    by apply (H [] p).
  induction result as [|d r IH]; intros text q; cbn [fold_left concat].
  - unfold written. rewrite !app_nil_r. now destruct q.
  - rewrite IH. cbn [fst snd]. rewrite app_assoc. f_equal.
    unfold written, write. cbn [nextId uiuxAgent frontendAgent
      backendAgent stdout]. now rewrite <- app_assoc.
Qed.

Lemma index_act_spec (a : AgentName) (trigger : BoardMessage)
  (board : list BoardMessage) (p : Process) :
  let feature :=
    find (fun m => MessageKind_eqb (kind m) feature_request) board in
  let result :=
    textStream (nextId p) (trim (systemPrompt a))
      (trim (userPrompt a feature trigger)) in
  fst (index_act a trigger board p) = reply a (nextId p) feature trigger
  /\ nextId (snd (index_act a trigger board p)) = nextId p + 1
  /\ (forall b, agentOf b (snd (index_act a trigger board p)) = agentOf b p)
  /\ exists opening closing,
       stdout (snd (index_act a trigger board p))
       = stdout p ++ opening :: result ++ [closing].
Proof.
  cbv zeta.
  destruct a;
    unfold index_act, index_uiuxAgent_act, index_frontendAgent_act,
      index_backendAgent_act;
    rewrite index_stream_spec;
    unfold createMessage, reply, systemPrompt, userPrompt, outputKind,
      written, write;
    cbn [fst snd nextId stdout uiuxAgent frontendAgent backendAgent];
    (split; [reflexivity|]); (split; [reflexivity|]);
    (split; [intros []; reflexivity|]);
    eexists; eexists; rewrite <- !app_assoc; reflexivity.
Qed.

(** X13.  In [src/index.ts] an agent echoes what it posts.  The text an
    act writes to the terminal is an opening notice, the fragments of
    the generation service in the order of their arrival, and a closing
    notice; the message it returns carries the concatenation of those
    fragments, trimmed, and takes one id; the prompt of an engineer
    agent quotes the first feature request on the board. *)
Theorem index_act_echoes_its_message
  (a : AgentName) (trigger : BoardMessage) (board : list BoardMessage)
  (p : Process) :
  let feature :=
    find (fun m => MessageKind_eqb (kind m) feature_request) board in
  let fragments :=
    textStream (nextId p) (trim (systemPrompt a))
      (trim (userPrompt a feature trigger)) in
  let m := fst (index_act a trigger board p) in
  let p' := snd (index_act a trigger board p) in
  (exists opening closing,
     stdout p' = stdout p ++ opening :: fragments ++ [closing])
  /\ content m = trim (concat fragments)
  /\ author m = agent a /\ kind m = outputKind a
  /\ id m = nextId p /\ nextId p' = nextId p + 1.
Proof.
  cbv zeta.
  destruct (index_act_spec a trigger board p) as (Hm & Hn & _ & Hout).
  cbv zeta in Hm, Hn, Hout. rewrite Hm, Hn.
  split; [exact Hout|]. repeat split.
Qed.

(** ** [src/index.ts]: one run *)

Lemma index_turn_acts (a : AgentName) (s : IndexRun) (t : BoardMessage) :
  index_findTrigger a (index_board s) = Some t ->
  index_board (index_agentTurn s a)
  = index_board s
    ++ [reply a (nextId (index_proc s))
          (find (fun m => MessageKind_eqb (kind m) feature_request)
             (index_board s)) t]
  /\ nextId (index_proc (index_agentTurn s a)) = nextId (index_proc s) + 1
  /\ (forall b, agentOf b (index_proc (index_agentTurn s a))
                = agentOf b (index_proc s))
  /\ progressed (index_agentTurn s a) = true.
Proof.
  intros H. unfold index_agentTurn. rewrite H.
  destruct (index_act_spec a t (index_board s) (index_proc s))
    as (Hm & Hn & Ha & _).
  cbv zeta in Hm, Hn, Ha.
  destruct (index_act a t (index_board s) (index_proc s)) as [m q].
  cbn [fst snd] in Hm, Hn, Ha. cbn [index_board index_proc progressed].
  rewrite Hm. repeat split; assumption.
Qed.

Lemma index_turn_waits (a : AgentName) (s : IndexRun) :
  index_findTrigger a (index_board s) = None -> index_agentTurn s a = s.
Proof. intros H. unfold index_agentTurn. now rewrite H. Qed.

Lemma index_pass_eq (s : IndexRun) :
  index_pass s =
  index_agentTurn
    (index_agentTurn
       (index_agentTurn
          {| index_proc := index_proc s; index_board := index_board s;
             progressed := false |} uiux) frontend) backend.
Proof. reflexivity. Qed.

(** The first pass over the agents, from a board that holds a feature
    request and nothing else. *)
Lemma index_pass_cascade (initialRequest : jsstring) (n : nat)
  (s : IndexRun) :
  index_board s = [request initialRequest n] ->
  nextId (index_proc s) = n + 1 ->
  index_board (index_pass s) = cascade initialRequest n
  /\ nextId (index_proc (index_pass s)) = n + 4
  /\ (forall b, agentOf b (index_proc (index_pass s))
                = agentOf b (index_proc s))
  /\ progressed (index_pass s) = true.
Proof.
  intros Hb Hn. rewrite index_pass_eq.
  remember {| index_proc := index_proc s; index_board := index_board s;
              progressed := false |} as s0 eqn:E0.
  assert (index_board s0 = [request initialRequest n]) as Hb0
    by (rewrite E0; exact Hb).
  assert (nextId (index_proc s0) = n + 1) as Hn0 by (rewrite E0; exact Hn).
  assert (forall b, agentOf b (index_proc s0) = agentOf b (index_proc s))
    as Ha0 by (rewrite E0; reflexivity).
  clear E0 Hb Hn.
  (* the UI/UX agent *)
  destruct (@index_turn_acts uiux s0 (request initialRequest n))
    as (Hb1 & Hn1 & Ha1 & _); [rewrite Hb0; reflexivity|].
  remember (index_agentTurn s0 uiux) as s1 eqn:E1. clear E1.
  rewrite Hb0, Hn0 in Hb1. rewrite Hn0 in Hn1.
  cbn [app find kind request MessageKind_eqb] in Hb1.
  (* the frontend agent *)
  destruct (@index_turn_acts frontend s1
              (reply uiux (n + 1) (Some (request initialRequest n))
                 (request initialRequest n)))
    as (Hb2 & Hn2 & Ha2 & _); [rewrite Hb1; reflexivity|].
  remember (index_agentTurn s1 frontend) as s2 eqn:E2. clear E2.
  rewrite Hb1, Hn1 in Hb2. rewrite Hn1 in Hn2.
  cbn [app find kind request MessageKind_eqb] in Hb2.
  (* the backend agent *)
  destruct (@index_turn_acts backend s2
              (reply uiux (n + 1) (Some (request initialRequest n))
                 (request initialRequest n)))
    as (Hb3 & Hn3 & Ha3 & Hp3); [rewrite Hb2; reflexivity|].
  remember (index_agentTurn s2 backend) as s3 eqn:E3. clear E3.
  rewrite Hb2, Hn2 in Hb3. rewrite Hn2 in Hn3.
  cbn [app find kind request MessageKind_eqb] in Hb3.
  split.
  - rewrite Hb3. unfold cascade.
    replace (n + 1 + 1) with (n + 2) by lia.
    replace (n + 2 + 1) with (n + 3) by lia. reflexivity.
  - split; [lia|]. split; [|exact Hp3].
    intros b. now rewrite Ha3, Ha2, Ha1, Ha0.
Qed.

(** A pass over the agents when the board holds a cascade: no agent
    finds a trigger. *)
Lemma index_pass_idle (initialRequest : jsstring) (n : nat) (s : IndexRun) :
  index_board s = cascade initialRequest n ->
  index_pass s =
  {| index_proc := index_proc s; index_board := index_board s;
     progressed := false |}.
Proof.
  intros Hb. rewrite index_pass_eq.
  remember {| index_proc := index_proc s; index_board := index_board s;
              progressed := false |} as s0 eqn:E0.
  assert (index_board s0 = cascade initialRequest n) as Hb0
    by (rewrite E0; exact Hb).
  clear E0.
  rewrite (@index_turn_waits uiux s0) by (rewrite Hb0; reflexivity).
  rewrite (@index_turn_waits frontend s0) by (rewrite Hb0; reflexivity).
  rewrite (@index_turn_waits backend s0) by (rewrite Hb0; reflexivity).
  reflexivity.
Qed.

Lemma index_while_step (fuel : nat) (s : IndexRun) :
  progressed s = true ->
  index_while (S fuel) s = index_while fuel (index_pass s).
Proof. intros H. cbn [index_while]. now rewrite H. Qed.

Lemma index_while_done (fuel : nat) (s : IndexRun) :
  progressed s = false -> index_while fuel s = Some s.
Proof. intros H. destruct fuel; cbn [index_while]; now rewrite H. Qed.

Lemma index_while_out (s : IndexRun) :
  progressed s = true -> index_while 0 s = None.
Proof. intros H. cbn [index_while]. now rewrite H. Qed.

Lemma index_seed_spec (initialRequest : jsstring) (p : Process) :
  index_board (index_seed initialRequest p)
  = [request initialRequest (nextId p)]
  /\ nextId (index_proc (index_seed initialRequest p)) = nextId p + 1
  /\ (forall b, agentOf b (index_proc (index_seed initialRequest p))
                = agentOf b p)
  /\ progressed (index_seed initialRequest p) = true.
Proof.
  split; [reflexivity|]. split; [reflexivity|].
  split; [intros []; reflexivity|reflexivity].
Qed.

(** The loop of a run, from the seeded board. *)
Lemma index_while_cascade (fuel : nat) (initialRequest : jsstring)
  (p : Process) :
  index_while (S (S fuel)) (index_seed initialRequest p)
  = Some {| index_proc :=
              index_proc (index_pass (index_seed initialRequest p));
            index_board := cascade initialRequest (nextId p);
            progressed := false |}
  /\ index_while 1 (index_seed initialRequest p) = None.
Proof.
  destruct (index_seed_spec initialRequest p) as (Hb & Hn & _ & Hp).
  remember (index_seed initialRequest p) as s0 eqn:E0. clear E0.
  destruct (@index_pass_cascade initialRequest (nextId p) s0 Hb Hn)
    as (Hb1 & _ & _ & Hp1).
  pose proof (@index_pass_idle initialRequest (nextId p) (index_pass s0) Hb1)
    as H2.
  rewrite !(fun k => @index_while_step k s0 Hp).
  remember (index_pass s0) as s1 eqn:E1. clear E1. split.
  - rewrite (@index_while_step fuel s1 Hp1), H2, Hb1.
    apply index_while_done. reflexivity.
  - now apply index_while_out.
Qed.

(** X14.  A run of [src/index.ts] is one cascade.  With fuel for two
    passes or more, the loop of a run ends, after exactly two passes
    (one pass is not enough): the first pass has every agent act once,
    the second finds no trigger.  The board then holds four messages
    with consecutive ids: the trimmed request, the UI/UX spec written
    for it, and the frontend and the backend plan, both written for
    that spec and quoting the request.  The run takes four ids. *)
Theorem index_run_is_one_cascade
  (fuel : nat) (initialRequest : jsstring) (p : Process) :
  2 <= fuel ->
  exists s,
    index_while fuel (index_seed initialRequest p) = Some s
    /\ index_board s = cascade initialRequest (nextId p)
    /\ progressed s = false
    /\ nextId (index_proc s) = nextId p + 4
    /\ (forall a, agentOf a (index_proc s) = agentOf a p)
    /\ index_while 1 (index_seed initialRequest p) = None
    /\ index_runMultiAgentPipeline fuel initialRequest p
       = Some (index_report (index_board s) (index_proc s)).
Proof.
  intros Hfuel. destruct fuel as [|[|fuel]]; [lia|lia|]. clear Hfuel.
  destruct (index_while_cascade fuel initialRequest p) as [H2 H1].
  destruct (index_seed_spec initialRequest p) as (Hb & Hn & Ha & _).
  destruct (@index_pass_cascade initialRequest (nextId p)
              (index_seed initialRequest p) Hb Hn) as (_ & Hn1 & Ha1 & _).
  unfold index_runMultiAgentPipeline. rewrite H2.
  eexists. split; [reflexivity|]. cbn [index_board index_proc progressed].
  split; [reflexivity|]. split; [reflexivity|]. split; [exact Hn1|].
  split; [|split; [exact H1|reflexivity]].
  intros a. now rewrite Ha1, Ha.
Qed.

(** ** The two variants *)

Lemma act_reply (a : AgentName) (trigger : BoardMessage)
  (board : list BoardMessage) (blackboard : BlackboardState) (p : Process) :
  fst (act a trigger board blackboard p)
  = reply a (nextId p)
      (firstOfKind (featureRequest blackboard) feature_request board)
      trigger.
Proof.
  destruct a;
    unfold act, uiuxAgent_act, frontendAgent_act, backendAgent_act,
      createMessage, reply, systemPrompt, userPrompt, outputKind;
    cbn [fst nextId write setLastSummary setAgent];
    now rewrite collect_concat.
Qed.

Lemma agentTurn_replies (a : AgentName) (s : RunState) (t : BoardMessage) :
  pendingTrigger a s = Some t ->
  let m := reply a (nextId (proc s))
             (firstOfKind (featureRequest (blackboard s)) feature_request
                (board s)) t in
  board (agentTurn a s) = board s ++ [m]
  /\ blackboard (agentTurn a s) = updateBlackboard (blackboard s) m
  /\ nextId (proc (agentTurn a s)) = nextId (proc s) + 1
  /\ (forall b, b <> a ->
        agentOf b (proc (agentTurn a s)) = agentOf b (proc s)).
Proof.
  intros Hp. cbv zeta.
  destruct (agentTurn_cases a s)
    as [[E _]|(t' & m & usr & _ & _ & _ & _ & _ & _ & _ & _ & Hn & _ & Hb)];
    [congruence|].
  cbv zeta in Hn, Hb. split; [|split; [|split; [exact Hn|exact Hb]]].
  - unfold agentTurn. rewrite Hp. unfold actAndPost.
    pose proof (act_reply a t (board s) (blackboard s)
                  (incrIterations a (proc s))) as Hm.
    destruct (act a t (board s) (blackboard s) (incrIterations a (proc s)))
      as [m' q].
    cbn [fst] in Hm. cbn [board].
    now rewrite Hm, nextId_incrIterations.
  - unfold agentTurn. rewrite Hp. unfold actAndPost.
    pose proof (act_reply a t (board s) (blackboard s)
                  (incrIterations a (proc s))) as Hm.
    destruct (act a t (board s) (blackboard s) (incrIterations a (proc s)))
      as [m' q].
    cbn [fst] in Hm. cbn [blackboard].
    now rewrite Hm, nextId_incrIterations.
Qed.

(** The board after the first poll cycle of a run in which every agent
    has budget left. *)
Lemma first_cycle_board (initialRequest : jsstring) (p : Process) :
  (forall a, iterations (agentOf a p) < maxIterations (agentOf a p)) ->
  board (afterFirstCycle initialRequest p)
  = cascade initialRequest (nextId p).
Proof.
  intros Hlt. unfold afterFirstCycle, pollCycle. rewrite forAgents_agents.
  destruct (seed_spec initialRequest p)
    as (f & Hbs & Hbbs & Hf & _ & Hns & Has).
  change (f = request initialRequest (nextId p)) in Hf.
  remember (seed initialRequest p) as sd eqn:Esd. clear Esd.
  destruct (beginCycle_spec 1 sd) as ((Hb0 & Hbb0 & Hn0 & Ha0) & _ & _).
  remember (beginCycle 1 sd) as s0 eqn:Es0. clear Es0.
  rewrite Hbs in Hb0. rewrite Hbbs in Hbb0. rewrite Hns in Hn0.
  (* the UI/UX agent *)
  assert (pendingTrigger uiux s0 = Some f) as P1.
  { apply pendingTrigger_first.
    - rewrite Hbb0. reflexivity.
    - rewrite Hb0, Hf. reflexivity.
    - rewrite Ha0, Has. apply Hlt. }
  destruct (agentTurn_replies uiux s0 P1) as (Hb1 & Hbb1 & Hn1 & Ha1).
  remember (agentTurn uiux s0) as s1 eqn:Es1. clear Es1.
  rewrite Hb0, Hbb0, Hn0 in Hb1. rewrite Hb0, Hbb0, Hn0 in Hbb1.
  rewrite Hn0 in Hn1.
  cbn [featureRequest firstOfKind app] in Hb1, Hbb1.
  remember (reply uiux (nextId p + 1) (Some f) f) as u eqn:Eu.
  assert (kind u = uiux_spec) as Huk by (rewrite Eu; reflexivity).
  assert (author u = agent uiux) as Hua by (rewrite Eu; reflexivity).
  unfold updateBlackboard in Hbb1. rewrite Huk in Hbb1.
  cbn [featureRequest uiuxSpec frontendPlan backendPlan] in Hbb1.
  (* the frontend agent *)
  assert (pendingTrigger frontend s1 = Some u) as P2.
  { apply pendingTrigger_first.
    - rewrite Hbb1. reflexivity.
    - rewrite Hb1. unfold ownMessages. cbn [filter]. rewrite Hua, Hf.
      reflexivity.
    - rewrite Ha1, Ha0, Has by discriminate. apply Hlt. }
  destruct (agentTurn_replies frontend s1 P2) as (Hb2 & Hbb2 & Hn2 & Ha2).
  remember (agentTurn frontend s1) as s2 eqn:Es2. clear Es2.
  rewrite Hb1, Hbb1, Hn1 in Hb2. rewrite Hb1, Hbb1, Hn1 in Hbb2.
  rewrite Hn1 in Hn2.
  cbn [featureRequest firstOfKind app] in Hb2, Hbb2.
  remember (reply frontend (nextId p + 1 + 1) (Some f) u) as fp eqn:Efp.
  assert (kind fp = frontend_plan) as Hfpk by (rewrite Efp; reflexivity).
  assert (author fp = agent frontend) as Hfpa by (rewrite Efp; reflexivity).
  unfold updateBlackboard in Hbb2. rewrite Hfpk in Hbb2.
  cbn [featureRequest uiuxSpec frontendPlan backendPlan] in Hbb2.
  (* the backend agent *)
  assert (pendingTrigger backend s2 = Some u) as P3.
  { apply pendingTrigger_first.
    - rewrite Hbb2. reflexivity.
    - rewrite Hb2. unfold ownMessages. cbn [filter].
      rewrite Hua, Hfpa, Hf. reflexivity.
    - rewrite Ha2, Ha1, Ha0, Has by discriminate. apply Hlt. }
  destruct (agentTurn_replies backend s2 P3) as (Hb3 & _ & _ & _).
  remember (agentTurn backend s2) as s3 eqn:Es3. clear Es3.
  rewrite Hb2, Hbb2, Hn2 in Hb3.
  cbn [featureRequest firstOfKind app] in Hb3.
  (* the end of the cycle *)
  destruct (endCycle_sameData s3) as (He & _).
  destruct (endCycle s3) as [s4 brk]. cbn [fst] in *.
  rewrite He, Hb3, Efp, Eu, Hf. unfold cascade.
  replace (nextId p + 1 + 1) with (nextId p + 2) by lia.
  replace (nextId p + 2 + 1) with (nextId p + 3) by lia.
  reflexivity.
Qed.

(** X15.  The two variants of the program agree on the first cascade.
    When every agent has budget left, the board after the first poll
    cycle of a run of the variant with the blackboard is the board a
    run of [src/index.ts] ends with, for the same request, id counter,
    generation service and clock: the same four messages, with the same
    ids, contents and times. *)
Theorem variants_agree_on_first_cascade
  (fuel : nat) (initialRequest : jsstring) (p : Process) :
  2 <= fuel ->
  (forall a, iterations (agentOf a p) < maxIterations (agentOf a p)) ->
  exists s,
    index_while fuel (index_seed initialRequest p) = Some s
    /\ board (afterFirstCycle initialRequest p) = index_board s
    /\ length (index_board s) = 4.
Proof.
  intros Hfuel Hlt. destruct fuel as [|[|fuel]]; [lia|lia|]. clear Hfuel.
  destruct (index_while_cascade fuel initialRequest p) as [H2 _].
  rewrite H2. eexists. split; [reflexivity|]. cbn [index_board].
  split; [now apply first_cycle_board|reflexivity].
Qed.

(** ** [src/index.ts]: [main] *)







(** ** The report summarises the last message *)

Lemma summarizeContent_firstLine (content : jsstring)
  (maxLength : option Z) :
  summarizeContent content maxLength =
  let limit :=
    match maxLength with Some n => n | None => DEFAULT_MAX_LENGTH end in
  if (Z.of_nat (length (trim (firstLine content))) <=? limit)%Z
  then trim (firstLine content)
  else slice0 (trim (firstLine content)) (limit - 3) ++ js "...".
Proof. reflexivity. Qed.

Lemma isBlank_app (s t : jsstring) :
  isBlank (s ++ t) = isBlank s && isBlank t.
Proof. unfold isBlank. apply forallb_app. Qed.

Lemma trimStart_app (s t : jsstring) :
  isBlank s = false -> trimStart (s ++ t) = trimStart s ++ t.
Proof.
  unfold isBlank. induction s as [|c r IH]; cbn [forallb app trimStart].
  - discriminate.
  - destruct (isWhiteSpace c); cbn [andb]; [exact IH|reflexivity].
Qed.

Lemma trimEnd_snoc (s : jsstring) (c : N) :
  isWhiteSpace c = true -> trimEnd (s ++ [c]) = trimEnd s.
Proof.
  intros H. unfold trimEnd. rewrite rev_app_distr. cbn [rev app trimStart].
  now rewrite H.
Qed.

Lemma trim_snoc (s : jsstring) (c : N) :
  isWhiteSpace c = true -> trim (s ++ [c]) = trim s.
Proof.
  intros H. destruct (isBlank s) eqn:B.
  - assert (isBlank (s ++ [c]) = true) as B'.
    { rewrite isBlank_app, B. unfold isBlank. cbn [forallb].
      now rewrite H. }
    apply trim_nil in B, B'. now rewrite B, B'.
  - unfold trim. rewrite (@trimStart_app s [c] B). now apply trimEnd_snoc.
Qed.

Lemma trim_cons (s : jsstring) (c : N) :
  isWhiteSpace c = true -> trim (c :: s) = trim s.
Proof. intros H. unfold trim. cbn [trimStart]. now rewrite H. Qed.

Lemma split_nl_nonempty (s : jsstring) :
  exists l ls, split_nl s = l :: ls.
Proof.
  destruct s as [|c r]; cbn [split_nl]; [now exists [], []|].
  destruct (c =? 10)%N; [now exists [], (split_nl r)|].
  destruct (split_nl r) as [|l ls]; [now exists [c], []|].
  now exists (c :: l), ls.
Qed.

Lemma split_nl_snoc_line_feed (s : jsstring) :
  split_nl (s ++ [10%N]) = split_nl s ++ [[]].
Proof.
  induction s as [|c r IH]; [reflexivity|].
  cbn [app split_nl]. rewrite IH.
  destruct (c =? 10)%N; [reflexivity|].
  destruct (split_nl_nonempty r) as (l & ls & ->). reflexivity.
Qed.

Lemma split_nl_snoc (s : jsstring) (c : N) :
  c <> 10%N ->
  exists init l,
    split_nl s = init ++ [l] /\ split_nl (s ++ [c]) = init ++ [l ++ [c]].
Proof.
  intros Hc. induction s as [|d r (init & l & H1 & H2)].
  - exists [], []. cbn [app split_nl].
    destruct (N.eqb_spec c 10); [contradiction|]. split; reflexivity.
  - cbn [app split_nl]. rewrite H1, H2.
    destruct (d =? 10)%N.
    + exists ([] :: init), l. split; reflexivity.
    + destruct init as [|i init'].
      * exists [], (d :: l). split; reflexivity.
      * exists ((d :: i) :: init'), l. split; reflexivity.
Qed.

(** White space at either end of a text has no part in the line the
    summary is taken from. *)
Lemma firstLine_cons (s : jsstring) (c : N) :
  isWhiteSpace c = true ->
  trim (firstLine (c :: s)) = trim (firstLine s).
Proof.
  intros H. unfold firstLine. cbn [split_nl].
  destruct (c =? 10)%N; [reflexivity|].
  destruct (split_nl s) as [|l ls]; cbn [find].
  - rewrite nonblank_test. unfold isBlank. cbn [forallb]. rewrite H.
    reflexivity.
  - rewrite !nonblank_test.
    assert (isBlank (c :: l) = isBlank l) as ->
      by (unfold isBlank; cbn [forallb]; now rewrite H).
    destruct (isBlank l); cbn [negb]; [reflexivity|now apply trim_cons].
Qed.

Lemma first_snoc_fails (A : Type) (f : A -> bool) (d : A) (l : list A)
  (x : A) :
  f x = false ->
  match find f (l ++ [x]) with Some y => y | None => d end
  = match find f l with Some y => y | None => d end.
Proof.
  intros H. rewrite find_snoc. destruct (find f l); [reflexivity|].
  cbn [find]. now rewrite H.
Qed.

Lemma first_snoc_change (A B : Type) (f : A -> bool) (g : A -> B) (d : A)
  (l : list A) (x x' : A) :
  f x' = f x -> (f x = true -> g x' = g x) ->
  g (match find f (l ++ [x']) with Some y => y | None => d end)
  = g (match find f (l ++ [x]) with Some y => y | None => d end).
Proof.
  intros Hf Hg. rewrite !find_snoc. destruct (find f l); [reflexivity|].
  cbn [find]. rewrite Hf. destruct (f x); [now apply Hg|reflexivity].
Qed.

Lemma firstLine_snoc (s : jsstring) (c : N) :
  isWhiteSpace c = true ->
  trim (firstLine (s ++ [c])) = trim (firstLine s).
Proof.
  intros H. unfold firstLine.
  destruct (N.eq_dec c 10) as [->|Hc].
  - rewrite split_nl_snoc_line_feed. f_equal.
    now apply first_snoc_fails.
  - destruct (split_nl_snoc s Hc) as (init & l & -> & ->).
    apply (@first_snoc_change _ _
             (fun line : jsstring => 0 <? length (trim line)) trim).
    + rewrite !nonblank_test, isBlank_app. unfold isBlank at 2.
      cbn [forallb]. rewrite H. now rewrite !andb_true_r.
    + intros _. now apply trim_snoc.
Qed.

Lemma firstLine_trimStart (s : jsstring) :
  trim (firstLine (trimStart s)) = trim (firstLine s).
Proof.
  induction s as [|c r IH]; [reflexivity|]. cbn [trimStart].
  destruct (isWhiteSpace c) eqn:E; [|reflexivity].
  now rewrite IH, (@firstLine_cons r c E).
Qed.

Lemma firstLine_trimEnd (s : jsstring) :
  trim (firstLine (trimEnd s)) = trim (firstLine s).
Proof.
  unfold trimEnd. rewrite <- (rev_involutive s) at 2.
  induction (rev s) as [|c r IH]; [reflexivity|]. cbn [trimStart rev].
  destruct (isWhiteSpace c) eqn:E; [|reflexivity].
  now rewrite IH, (@firstLine_snoc (rev r) c E).
Qed.

(** The summary of a text is the summary of the trimmed text. *)
Lemma summarizeContent_trim (text : jsstring) (maxLength : option Z) :
  summarizeContent (trim text) maxLength = summarizeContent text maxLength.
Proof.
  assert (trim (firstLine (trim text)) = trim (firstLine text)) as H.
  { change (trim text) with (trimEnd (trimStart text)).
    now rewrite firstLine_trimEnd, firstLine_trimStart. }
  rewrite !summarizeContent_firstLine. cbv zeta. now rewrite H.
Qed.

Lemma summarised_stable (s s' : RunState) :
  sameData s s' -> summarised s -> summarised s'.
Proof.
  intros (Hb & _ & _ & Ha) [H1 H2]. unfold summarised.
  rewrite Hb. split; [exact H1|]. intros a pre m. rewrite Ha. apply H2.
Qed.

Lemma summarised_turn (a : AgentName) (s : RunState) :
  summarised s -> summarised (agentTurn a s).
Proof.
  intros [H1 H2].
  destruct (agentTurn_cases a s)
    as [[_ ->]|(t & m & usr & _ & _ & _ & Hm & Hb & _ & _ & _ & _ & Ha & Ho)];
    [split; assumption|].
  cbv zeta in Hm, Hb, Ha, Ho. unfold summarised. rewrite Hb. split.
  - intros b m' Hin Hau. apply in_app_or in Hin.
    destruct Hin as [Hin|[<-|[]]]; [now apply H1|].
    rewrite Hm in Hau |- *. cbn [author kind] in *. congruence.
  - intros b pre m'. rewrite messagesBy_snoc.
    assert (author m = agent a) as Hau by (rewrite Hm; reflexivity).
    rewrite Hau. cbn [Author_eqb].
    destruct (AgentName_eq_dec b a) as [->|Hne].
    + rewrite AgentName_eqb_refl. intros E. apply app_inj_tail in E.
      destruct E as [_ <-]. rewrite Ha. cbn [lastSummary].
      rewrite Hm. cbn [content]. now rewrite summarizeContent_trim.
    + rewrite AgentName_eqb_neq by congruence. rewrite app_nil_r.
      rewrite (Ho b Hne). apply H2.
Qed.

Lemma summarised_seed (initialRequest : jsstring) (p : Process) :
  summarised (seed initialRequest p).
Proof.
  destruct (seed_spec initialRequest p) as (f & Hb & _ & Hf & _).
  unfold summarised. rewrite Hb. split.
  - intros a m [<-|[]] Hau. rewrite Hf in Hau. discriminate.
  - intros a pre m. unfold messagesBy. cbn [filter]. rewrite Hf.
    cbn [author Author_eqb]. intros E. now destruct pre.
Qed.

(** X17.  The closing report summarises the last message of each
    agent.  At every point of a run, an agent with a message on the
    board holds the summary of the last of its messages there: the
    summary is computed from the text as it was generated, and it is
    the summary of the trimmed text that was posted.  When that message
    is not blank, the line of the report for the agent gives the number
    of its messages on the board, the kind of message it produces, and
    that summary. *)
Theorem report_summarises_last_message
  (initialRequest : jsstring) (p : Process) (s : RunState)
  (a : AgentName) (pre : list BoardMessage) (m : BoardMessage) :
  In s (pipelinePoints initialRequest p)
  \/ s = final (pipelineOutcome initialRequest p) ->
  messagesBy a (board s) = pre ++ [m] ->
  lastSummary (agentOf a (proc s))
  = Some (summarizeContent (content m) None)
  /\ kind m = outputKind a
  /\ (isBlank (content m) = false ->
      summaryLine a (board s) (proc s)
      = js "- " ++ AgentName_str a ++ js " (iterations: "
        ++ ofNat (length pre + 1) ++ js ", last kind: "
        ++ MessageKind_str (outputKind a) ++ js "): "
        ++ summarizeContent (content m) None ++ js "
").
Proof.
  intros Hs Hown.
  assert (summarised s) as [H1 H2].
  { destruct (@pipeline_invariant summarised summarised_stable
                (fun a s => @summarised_turn a s) initialRequest p
                (summarised_seed initialRequest p)) as [Hall Hfin].
    destruct Hs as [Hs| ->]; [|exact Hfin].
    rewrite Forall_forall in Hall. exact (Hall s Hs). }
  pose proof (H2 a pre m Hown) as Hsum.
  assert (In m (messagesBy a (board s))) as Hin
    by (rewrite Hown; apply in_or_app; right; now left).
  unfold messagesBy in Hin. apply filter_In in Hin.
  destruct Hin as [Hin Hau].
  assert (author m = agent a) as Hau'.
  { destruct (author m) as [|b]; [discriminate|]. cbn [Author_eqb] in Hau.
    destruct b, a; try discriminate; reflexivity. }
  pose proof (H1 a m Hin Hau') as Hk.
  split; [exact Hsum|]. split; [exact Hk|].
  intros Hnb. unfold summaryLine, noSummary. rewrite Hsum, Hown.
  rewrite length_app. cbn [length].
  assert (summarizeContent (content m) None <> []) as Hne.
  { intros E.
    destruct (@summarizeContent_cases (content m) None)
      as (line & Hcase & _ & Hb); [unfold DEFAULT_MAX_LENGTH; lia|].
    rewrite E in Hcase.
    destruct (Z.leb_spec (Z.of_nat (length (trim line))) DEFAULT_MAX_LENGTH).
    - symmetry in Hcase. apply Hb in Hcase. congruence.
    - symmetry in Hcase. apply app_eq_nil in Hcase.
      destruct Hcase as [_ Hcase]. discriminate. }
  replace (length pre + 1 - 1) with (length pre) by lia.
  rewrite nth_error_app2 by lia. rewrite Nat.sub_diag. cbn [nth_error].
  rewrite Hk.
  destruct (summarizeContent (content m) None) as [|c r]; [now elim Hne|].
  replace (length pre + 1 =? 0) with false
    by (symmetry; apply Nat.eqb_neq; lia).
  reflexivity.
Qed.

(** ** What a run prints *)

Lemma agentTurn_stdout (a : AgentName) (s : RunState) :
  stdout (proc (agentTurn a s))
  = stdout (proc s)
    ++ turnLines {| turn_agent := a; turn_trigger := pendingTrigger a s;
                    turn_after := agentTurn a s |}.
Proof.
  unfold turnLines. cbn [turn_trigger turn_agent turn_after].
  unfold agentTurn.
  destruct (pendingTrigger a s) as [t|]; [|now rewrite app_nil_r].
  unfold actAndPost.
  destruct a;
    unfold act, uiuxAgent_act, frontendAgent_act, backendAgent_act,
      createMessage, progressLine;
    cbn [proc stdout write setLastSummary setAgent agentOf incrIterations
         uiuxAgent frontendAgent backendAgent lastSummary nextId];
    reflexivity.
Qed.

Lemma forAgents_stdout (l : list AgentName) (s : RunState) :
  stdout (proc (fst (forAgents l s)))
  = stdout (proc s) ++ concat (map turnLines (snd (forAgents l s))).
Proof.
  revert s. induction l as [|a rest IH]; intros s; cbn [forAgents].
  - cbn [fst snd map concat]. now rewrite app_nil_r.
  - specialize (IH (agentTurn a s)).
    destruct (forAgents rest (agentTurn a s)) as [sF turns].
    cbn [fst snd] in *. cbn [map concat].
    now rewrite IH, agentTurn_stdout, <- app_assoc.
Qed.

Lemma pollCycle_stdout (cycle : nat) (s : RunState) :
  stdout (proc (fst (fst (pollCycle cycle s))))
  = stdout (proc s)
    ++ cycleLines cycle (snd (fst (pollCycle cycle s)))
    ++ (if snd (pollCycle cycle s) then [idleNotice] else []).
Proof.
  unfold pollCycle.
  pose proof (forAgents_stdout agents (beginCycle cycle s)) as H.
  destruct (forAgents agents (beginCycle cycle s)) as [s1 turns].
  cbn [fst snd] in H.
  assert (stdout (proc (beginCycle cycle s))
          = stdout (proc s) ++ [pollNotice cycle]) as H0 by reflexivity.
  rewrite H0 in H. clear H0.
  assert (stdout (proc (fst (endCycle s1)))
          = stdout (proc s1)
            ++ (if snd (endCycle s1) then [idleNotice] else [])) as H1.
  { unfold endCycle. destruct (negb (progressedThisCycle s1));
      [match goal with |- context [if ?c then _ else _] => destruct c end|];
      cbn [fst snd proc writeRun write stdout];
      try reflexivity; now rewrite app_nil_r. }
  destruct (endCycle s1) as [s2 brk]. cbn [fst snd] in *.
  rewrite H1, H. unfold cycleLines. rewrite <- !app_assoc. reflexivity.
Qed.

Lemma forCycles_stdout (cs : list nat) (s : RunState) :
  stdout (proc (final (forCycles cs s)))
  = stdout (proc s) ++ transcript cs (forCycles cs s).
Proof.
  revert s. induction cs as [|c rest IH]; intros s.
  - cbn [forCycles final]. unfold transcript. cbn [cycles stop combine map
      concat app]. now rewrite app_nil_r.
  - rewrite forCycles_cons. pose proof (pollCycle_stdout c s) as H.
    specialize (IH (fst (fst (pollCycle c s)))).
    destruct (pollCycle c s) as [[s' turns] brk]. cbn [fst snd] in *.
    destruct brk; unfold transcript; cbn [final stop cycles].
    + rewrite H. cbn [combine map concat fst snd].
      destruct rest; cbn [combine map concat]; now rewrite !app_nil_r.
    + rewrite IH, H. unfold transcript. cbn [combine map concat fst snd].
      rewrite app_nil_r, <- !app_assoc. reflexivity.
Qed.

Lemma seed_stdout (initialRequest : jsstring) (p : Process) :
  stdout (proc (seed initialRequest p))
  = stdout p ++ [seedNotice (nextId p)].
Proof. reflexivity. Qed.

(** X18.  What a run prints.  The terminal output of a run is what was
    there before, followed by the notice of the request, then for each
    cycle that ran its notice with the number of the cycle, counting
    from 1, and one line for each agent that acted in it, in the order
    of the turns, with the summary the agent holds after the turn; then
    the notice of the idle stop, exactly when the loop stopped for
    idleness; and then six lines of report.  A turn in which the agent
    does not act prints nothing. *)
Theorem run_prints_its_progress
  (initialRequest : jsstring) (p : Process) :
  let o := pipelineOutcome initialRequest p in
  stdout (proc (final o))
  = stdout p
    ++ seedNotice (nextId p) :: transcript (seq 1 MAX_GLOBAL_CYCLES) o
  /\ (exists closing,
        stdout (runMultiAgentPipeline initialRequest p)
        = stdout (proc (final o)) ++ closing
        /\ length closing = 6).
Proof.
  cbv zeta. rewrite runMultiAgentPipeline_eq, pipelineOutcome_eq.
  pose proof (forCycles_stdout (seq 1 MAX_GLOBAL_CYCLES)
                (seed initialRequest p)) as H.
  rewrite seed_stdout in H.
  remember (forCycles (seq 1 MAX_GLOBAL_CYCLES) (seed initialRequest p))
    as o eqn:Eo. clear Eo.
  split.
  - rewrite H, <- app_assoc. reflexivity.
  - rewrite report_stdout. eexists. split; reflexivity.
Qed.

(** ** The contract of [act] and of the blackboard update *)

Lemma isWhiteSpace_units (c : N) :
  isWhiteSpace c = true <-> In c whiteSpaceUnits.
Proof.
  unfold isWhiteSpace, whiteSpaceUnits. cbn [In]. split.
  - intros H.
    repeat (apply orb_true_iff in H; destruct H as [H|H]);
      try (apply N.eqb_eq in H; lia).
    apply andb_true_iff in H. destruct H as [H1 H2].
    apply N.leb_le in H1, H2. lia.
  - intros H.
    repeat (destruct H as [<-|H]; [reflexivity|]). destruct H.
Qed.

Lemma trimStart_split (s : jsstring) :
  exists leading, s = leading ++ trimStart s /\ isBlank leading = true.
Proof.
  induction s as [|c r (pre & IH & Hpre)]; cbn [trimStart].
  - exists []. split; reflexivity.
  - destruct (isWhiteSpace c) eqn:E.
    + exists (c :: pre). cbn [app]. split; [now rewrite <- IH|].
      unfold isBlank in *. cbn [forallb]. now rewrite E, Hpre.
    + exists []. split; reflexivity.
Qed.

Lemma trimEnd_split (s : jsstring) :
  exists trailing, s = trimEnd s ++ trailing /\ isBlank trailing = true.
Proof.
  unfold trimEnd. destruct (trimStart_split (rev s)) as (pre & H & Hpre).
  exists (rev pre). split.
  - rewrite <- rev_app_distr, <- H. now rewrite rev_involutive.
  - now rewrite isBlank_rev.
Qed.

(** What [trim] does: it takes a run of white space off either end, and
    what it leaves neither starts nor ends with white space. *)
Lemma trim_spec (s : jsstring) :
  (exists leading trailing,
     s = leading ++ trim s ++ trailing
     /\ isBlank leading = true /\ isBlank trailing = true)
  /\ (forall c rest, trim s = c :: rest -> isWhiteSpace c = false)
  /\ (forall rest c, trim s = rest ++ [c] -> isWhiteSpace c = false).
Proof.
  split; [|split].
  - destruct (trimStart_split s) as (pre & H1 & Hpre).
    destruct (trimEnd_split (trimStart s)) as (post & H2 & Hpost).
    exists pre, post. unfold trim. split; [|split; assumption].
    rewrite <- H2. exact H1.
  - intros c rest E. destruct (trim_tight s) as [H _].
    rewrite E in H. exact H.
  - intros rest c E. destruct (trim_tight s) as [_ H].
    rewrite E, rev_app_distr in H. exact H.
Qed.

(** C9.  A call of [act] returns one new message: its author is the
    agent, its kind is the kind of output the manifest of the agent
    names, and it takes exactly one id from the counter.  Its content
    is the concatenation, in the order of arrival, of the fragments the
    generation service delivers for the prompts of the agent, with the
    white space at its two ends taken off: the concatenation is the
    content between two runs of white space, and the content neither
    starts nor ends with a white-space code unit.  White space is what
    [trim] of the language takes it to be: the code units of
    [whiteSpaceUnits]. *)
Theorem act_produces_one_message
  (a : AgentName) (trigger : BoardMessage) (board : list BoardMessage)
  (blackboard : BlackboardState) (p : Process) :
  let feature :=
    firstOfKind (featureRequest blackboard) feature_request board in
  let fragments :=
    textStream (nextId p) (trim (systemPrompt a))
      (trim (userPrompt a feature trigger)) in
  let m := fst (act a trigger board blackboard p) in
  let p' := snd (act a trigger board blackboard p) in
  author m = agent a
  /\ kind m = outputKind a
  /\ outputs (manifestOf a) = [MessageKind_str (kind m)]
  /\ content m = trim (concat fragments)
  /\ (exists leading trailing,
        concat fragments = leading ++ content m ++ trailing
        /\ isBlank leading = true /\ isBlank trailing = true)
  /\ (forall c rest, content m = c :: rest -> isWhiteSpace c = false)
  /\ (forall rest c, content m = rest ++ [c] -> isWhiteSpace c = false)
  /\ (forall c, isWhiteSpace c = true <-> In c whiteSpaceUnits)
  /\ id m = nextId p
  /\ nextId p' = nextId p + 1.
Proof.
  cbv zeta.
  pose proof (act_reply a trigger board blackboard p) as Hm.
  destruct (act_spec a trigger board blackboard p) as (usr & _ & Hid & _).
  cbv zeta in Hid. rewrite Hm, Hid. unfold reply.
  cbn [author kind content id].
  destruct (trim_spec
              (concat
                 (textStream (nextId p) (trim (systemPrompt a))
                    (trim (userPrompt a
                             (firstOfKind (featureRequest blackboard)
                                feature_request board) trigger)))))
    as (Hsplit & Hhead & Hlast).
  split; [reflexivity|]. split; [reflexivity|].
  split; [destruct a; reflexivity|]. split; [reflexivity|].
  split; [exact Hsplit|]. split; [exact Hhead|]. split; [exact Hlast|].
  split; [exact isWhiteSpace_units|]. split; reflexivity.
Qed.


End Pipeline.

(** ** The properties on concrete runs *)

(** The points of the run of [initialProcess] on [demoRequest] with
    [demoStream]: there are 19 of them, the seeded state and the states
    after the 18 turns of its 6 cycles. *)
Local Abbreviation demoPoints :=
  (pipelinePoints demoStream demoClock demoRequest initialProcess).

Local Abbreviation demoPoint n :=
  (nth n demoPoints (seed demoClock demoRequest initialProcess)).

Lemma demoPoint_In (n : nat) : n < 19 -> In (demoPoint n) demoPoints.
Proof.
  intros H. apply nth_In.
  replace (length demoPoints) with 19 by (vm_compute; reflexivity).
  exact H.
Qed.

Lemma first_cycle_cascade_witness :
  length (board (afterFirstCycle demoStream demoClock demoRequest
                   initialProcess)) = 4.
Proof.
  destruct (@first_cycle_cascade demoStream demoClock demoRequest
              initialProcess)
    as (f & u & fp & bp & t1 & t2 & t3 & rest & _ & _ & _ & _ & _ & H & _).
  - intros []; reflexivity.
  - intros []; vm_compute; lia.
  - rewrite H. reflexivity.
Defined.

Lemma blackboard_is_index_of_board_witness :
  lookup (blackboard (demoPoint 5)) uiux_spec
  = highestOfKind uiux_spec (board (demoPoint 5)).
Proof.
  apply (@blackboard_is_index_of_board demoStream demoClock demoRequest
           initialProcess (demoPoint 5) uiux_spec).
  apply demoPoint_In. lia.
Defined.

Lemma messages_within_budget_witness :
  length (messagesBy uiux (board (demoPoint 18))) <= 3.
Proof.
  apply (@messages_within_budget demoStream demoClock demoRequest
           initialProcess (demoPoint 18) uiux).
  apply demoPoint_In. lia.
Defined.

Lemma plan_follows_spec_witness :
  exists u,
    In u (firstn 2 (board (demoPoint 3))) /\ kind u = uiux_spec.
Proof.
  apply (@plan_follows_spec demoStream demoClock demoRequest initialProcess
           (demoPoint 3) (firstn 2 (board (demoPoint 3)))
           (nth 2 (board (demoPoint 3))
              (fst (createMessage demoClock user feature_request [] initialProcess)))
           (skipn 3 (board (demoPoint 3)))).
  - apply demoPoint_In. lia.
  - vm_compute. reflexivity.
  - left. vm_compute. reflexivity.
Defined.

Lemma summarizeContent_truncation_witness :
  summarizeContent (js "

   abcdefghij   
rest") (Some 5%Z) = js "ab...".
Proof.
  apply (@summarizeContent_truncation (js "

   abcdefghij   
rest") 5 [[]; []] (js "   abcdefghij   ") [js "rest"]).
  - reflexivity.
  - repeat constructor.
  - reflexivity.
  - lia.
  - vm_compute. reflexivity.
Defined.

(** The run of [initialProcess] with [demoStream]: three cycles in
    which every agent acts, then three idle cycles and the idle stop. *)
Example demo_run_idle_stop :
  let o := pipelineOutcome demoStream demoClock demoRequest initialProcess in
  stop o = IdleStopped
  /\ map idleCycle (cycles o) = [false; false; false; true; true; true]
  /\ map (fun m => (id m, author m, kind m)) (board (final o)) =
     [ (1, user, feature_request);
       (2, agent uiux, uiux_spec); (3, agent frontend, frontend_plan);
       (4, agent backend, backend_plan);
       (5, agent uiux, uiux_spec); (6, agent frontend, frontend_plan);
       (7, agent backend, backend_plan);
       (8, agent uiux, uiux_spec); (9, agent frontend, frontend_plan);
       (10, agent backend, backend_plan) ].
Proof. vm_compute. repeat split. Qed.

(** C8, as stated, fails for a maximum length below 3: the end index of
    [slice] is then negative and counts from the end of the line.  With
    a maximum length of 2, the line [abc] is longer than the maximum,
    and its summary is [ab...]: five characters, not two. *)
Lemma summarizeContent_short_maximum :
  split_nl (js "abc") = [] ++ js "abc" :: []
  /\ isBlank (js "abc") = false
  /\ (2 < Z.of_nat (length (trim (js "abc"))))%Z
  /\ summarizeContent (js "abc") (Some 2%Z) = js "ab..."
  /\ Z.of_nat (length (summarizeContent (js "abc") (Some 2%Z))) <> 2%Z.
Proof. vm_compute. repeat split; discriminate. Qed.

Lemma blank_output_reported_as_no_output_witness :
  let s := final (pipelineOutcome blankStream demoClock demoRequest
                    initialProcess) in
  length (messagesBy uiux (board s)) = 3
  /\ summaryLine uiux (board s) (proc s) = js "- uiux: no output
".
Proof.
  cbv zeta. split; [vm_compute; reflexivity|].
  destruct (@blank_output_reported_as_no_output blankStream demoClock uiux)
    as [_ H].
  refine (proj1 (proj2 (H demoRequest initialProcess
    (firstn 2 (messagesBy uiux (board (final (pipelineOutcome blankStream
       demoClock demoRequest initialProcess)))))
    (nth 2 (messagesBy uiux (board (final (pipelineOutcome blankStream
       demoClock demoRequest initialProcess))))
       (fst (createMessage demoClock user feature_request []
               initialProcess))) _ _))).
  - vm_compute. reflexivity.
  - vm_compute. reflexivity.
Defined.

(** The process the run of [initialProcess] on [demoRequest] leaves:
    every agent has spent its budget. *)
Local Abbreviation laterProcess :=
  (runMultiAgentPipeline demoStream demoClock demoRequest initialProcess).

Lemma board_ids_consecutive_witness :
  nextId (proc (demoPoint 5))
  = nextId initialProcess + length (board (demoPoint 5)).
Proof.
  apply (@board_ids_consecutive demoStream demoClock demoRequest
           initialProcess (demoPoint 5)).
  left. apply demoPoint_In. lia.
Defined.

Lemma run_only_adds_witness :
  grows (demoPoint 2) (demoPoint 7).
Proof.
  apply (@run_only_adds demoStream demoClock demoRequest initialProcess
           2 7 (demoPoint 2) (demoPoint 7)).
  - vm_compute. reflexivity.
  - vm_compute. reflexivity.
  - lia.
Defined.

Lemma blackboard_is_only_a_cache_witness :
  findTrigger frontend initialProcess (board (demoPoint 4))
    (blackboard (demoPoint 4))
  = findTrigger frontend initialProcess (board (demoPoint 4))
      emptyBlackboard.
Proof.
  apply (@blackboard_is_only_a_cache demoStream demoClock demoRequest
           initialProcess (demoPoint 4) frontend).
  apply demoPoint_In. lia.
Defined.

Lemma trigger_is_on_the_board_witness :
  In (nth 1 (board (demoPoint 1)) (request demoClock [] 0))
    (board (demoPoint 1)).
Proof.
  apply (@trigger_is_on_the_board demoStream demoClock demoRequest
           initialProcess (demoPoint 1) frontend
           (nth 1 (board (demoPoint 1)) (request demoClock [] 0))).
  - apply demoPoint_In. lia.
  - vm_compute. reflexivity.
Defined.

Lemma budgets_are_spent_witness :
  length (messagesBy backend
            (board (final (pipelineOutcome demoStream demoClock demoRequest
                             initialProcess)))) = 3.
Proof.
  destruct (@budgets_are_spent demoStream demoClock demoRequest
              initialProcess backend) as (_ & _ & H).
  - vm_compute. lia.
  - intros []; vm_compute; lia.
  - apply H; reflexivity.
Defined.

Lemma spent_designer_blocks_run_witness :
  length (board (final (pipelineOutcome demoStream demoClock demoRequest
                          laterProcess))) = 1.
Proof.
  apply (@spent_designer_blocks_run demoStream demoClock demoRequest
           laterProcess
           (final (pipelineOutcome demoStream demoClock demoRequest
                     laterProcess))).
  - vm_compute. lia.
  - right. reflexivity.
Defined.

Lemma later_runs_post_only_requests_witness :
  nextId (fold_left
            (fun q r => runMultiAgentPipeline demoStream demoClock r q)
            [demoRequest; js "Add a light mode"] laterProcess)
  = nextId laterProcess + 2.
Proof.
  apply (@later_runs_post_only_requests demoStream demoClock
           [demoRequest; js "Add a light mode"] laterProcess).
  vm_compute. lia.
Defined.

Lemma idle_stop_leaves_no_work_witness :
  pendingTrigger uiux
    (final (pipelineOutcome demoStream demoClock demoRequest initialProcess))
  = None.
Proof.
  apply (@idle_stop_leaves_no_work demoStream demoClock demoRequest
           initialProcess uiux).
  vm_compute. reflexivity.
Defined.

Lemma run_length_witness :
  length (cycles (pipelineOutcome demoStream demoClock demoRequest
                    initialProcess)) = 6.
Proof.
  destruct (@run_length demoStream demoClock demoRequest initialProcess)
    as (_ & _ & _ & _ & H).
  - vm_compute. lia.
  - intros []; vm_compute; lia.
  - apply H. reflexivity.
Defined.

Lemma summary_is_one_short_line_witness :
  (Z.of_nat (length (summarizeContent (js "   abcdefghij   
rest") (Some 5%Z))) <= 5)%Z.
Proof.
  apply (@summary_is_one_short_line (js "   abcdefghij   
rest") (Some 5%Z)).
  intros n H. injection H as <-. lia.
Defined.

Lemma agents_are_told_the_request_witness :
  exists f m,
    content f = trim demoRequest
    /\ head (board (demoPoint 1)) = Some f
    /\ board (agentTurn demoStream demoClock frontend (demoPoint 1))
       = board (demoPoint 1) ++ [m]
    /\ content m
       = trim (concat
                 (demoStream (nextId (proc (demoPoint 1)))
                    (trim (systemPrompt frontend))
                    (trim (userPrompt frontend (Some f)
                             (nth 1 (board (demoPoint 1))
                                (request demoClock [] 0)))))).
Proof.
  apply (@agents_are_told_the_request demoStream demoClock demoRequest
           initialProcess (demoPoint 1) frontend
           (nth 1 (board (demoPoint 1)) (request demoClock [] 0))).
  - apply demoPoint_In. lia.
  - vm_compute. reflexivity.
Defined.

Lemma index_run_is_one_cascade_witness :
  index_runMultiAgentPipeline demoStream demoClock demoISOString 2
    demoRequest initialProcess <> None.
Proof.
  destruct (@index_run_is_one_cascade demoStream demoClock demoISOString 2
              demoRequest initialProcess)
    as (s & _ & _ & _ & _ & _ & _ & H).
  - lia.
  - rewrite H. discriminate.
Defined.

Lemma variants_agree_on_first_cascade_witness :
  exists s,
    index_while demoStream demoClock 2
      (index_seed demoClock demoRequest initialProcess) = Some s
    /\ board (afterFirstCycle demoStream demoClock demoRequest
                initialProcess) = index_board s
    /\ length (index_board s) = 4.
Proof.
  apply (@variants_agree_on_first_cascade demoStream demoClock 2
           demoRequest initialProcess).
  - lia.
  - intros []; vm_compute; lia.
Defined.


Lemma report_summarises_last_message_witness :
  lastSummary
    (agentOf uiux
       (proc (final (pipelineOutcome demoStream demoClock demoRequest
                       initialProcess))))
  = Some (summarizeContent
            (content
               (nth 2
                  (messagesBy uiux
                     (board (final (pipelineOutcome demoStream demoClock
                                      demoRequest initialProcess))))
                  (request demoClock [] 0))) None).
Proof.
  apply (@report_summarises_last_message demoStream demoClock demoRequest
           initialProcess
           (final (pipelineOutcome demoStream demoClock demoRequest
                     initialProcess))
           uiux
           (firstn 2
              (messagesBy uiux
                 (board (final (pipelineOutcome demoStream demoClock
                                  demoRequest initialProcess)))))
           (nth 2
              (messagesBy uiux
                 (board (final (pipelineOutcome demoStream demoClock
                                  demoRequest initialProcess))))
              (request demoClock [] 0))).
  - right. reflexivity.
  - vm_compute. reflexivity.
Defined.


(** C10, as stated, fails when the act with the blank output is not the
    last act of the agent.  With a service whose first answer is blank,
    the first act of the UI/UX agent produces a text of blank lines, of
    which the summary is empty, and posts a message with an empty
    content; its two later acts produce text, and the report at the end
    of the run prints the summary of the last of them for the agent,
    not [no output]. *)
Lemma blank_act_followed_by_output :
  let s := final (pipelineOutcome blankFirstStream demoClock demoRequest
                    initialProcess) in
  let text :=
    concat (blankFirstStream 2 (trim (systemPrompt uiux))
              (trim (userPrompt uiux None
                       (request demoClock demoRequest 1)))) in
  Forall (fun l => isBlank l = true) (split_nl text)
  /\ summarizeContent text None = []
  /\ map (fun m => (id m, length (content m))) (messagesBy uiux (board s))
     = [(2, 0); (5, 19); (8, 19)]
  /\ summaryLine uiux (board s) (proc s)
     = js "- uiux (iterations: 3, last kind: uiux-spec): # Draft 8
"
  /\ summaryLine uiux (board s) (proc s) <> noOutputLine uiux
  /\ In (summaryLine uiux (board s) (proc s))
       (stdout (runMultiAgentPipeline blankFirstStream demoClock demoRequest
                  initialProcess)).
Proof.
  cbv zeta. split; [vm_compute; repeat constructor|].
  split; [vm_compute; reflexivity|]. split; [vm_compute; reflexivity|].
  split; [vm_compute; reflexivity|]. split; [vm_compute; discriminate|].
  vm_compute. tauto.
Qed.
